(** * Visitor-parking "new reservation" card: draft/favourite reconciliation
      and identity resolution

    A shallow embedding of the decision logic of
    [visitor-parking-new-reservation-card] (the Lit element
    [VisitorParkingNewReservationCard]) and of [config-entry.ts].  The
    editor of the card, the End button of the active-reservation card and
    [_format] of [localize.ts] are embedded after the sample data, each
    next to the terms its properties are stated in.

    Conventions of the embedding.
    - A JavaScript string is a [string] of 8-bit characters.  [trim],
      [toLowerCase], [toUpperCase] and the regular-expression classes are
      the JavaScript ones restricted to ASCII text; characters above 127
      are left alone by the case maps and are not white space.
    - A JavaScript number is a [JsNumber]: NaN, an infinity, or an exact
      rational.  Literals are kept exact (no rounding to binary64).
    - [undefined]/[null] are [None]; a getter that may return [undefined]
      returns an [option].
    - The element's reactive fields form the record [Card]; getters are
      functions of the card, methods return the new card.
    - An [await]ed host call is resolved by an oracle argument; the
      notifications and calls a method issues are logged in order.  A
      method that calls services runs to its end with no other event in
      between (its controls are disabled while the card is busy); the
      loads and the lookup started by an update cycle settle as events of
      their own.

    The file has three parts: the embedding of the source, the terms in
    which the specification is stated together with sample data, and the
    properties. *)

From Stdlib Require Import ZArith QArith Strings.String Strings.Ascii Lia Bool.
From Stdlib Require Import DecimalString.
From Stdlib Require DecimalPos.
From stdpp Require Import base option list gmap strings.

Close Scope Q_scope.
Open Scope string_scope.

(** ** JavaScript strings (ASCII fragment) *)

Module JsString.

Definition code (c : ascii) : N := N_of_ascii c.

Definition in_range (lo hi : N) (c : ascii) : bool :=
  (lo <=? code c)%N && (code c <=? hi)%N.

(** White space and line terminators below 128: TAB, LF, VT, FF, CR, SP. *)
Definition is_space (c : ascii) : bool :=
  in_range 9 13 c || (code c =? 32)%N.

Definition is_upper (c : ascii) : bool := in_range 65 90 c.
Definition is_lower (c : ascii) : bool := in_range 97 122 c.
Definition is_digit (c : ascii) : bool := in_range 48 57 c.

Definition lower_char (c : ascii) : ascii :=
  if is_upper c then ascii_of_N (code c + 32) else c.

Definition upper_char (c : ascii) : ascii :=
  if is_lower c then ascii_of_N (code c - 32) else c.

Fixpoint map_chars (f : ascii -> ascii) (s : string) : string :=
  match s with
  | EmptyString => EmptyString
  | String c r => String (f c) (map_chars f r)
  end.

Fixpoint filter_chars (p : ascii -> bool) (s : string) : string :=
  match s with
  | EmptyString => EmptyString
  | String c r => if p c then String c (filter_chars p r) else filter_chars p r
  end.

Fixpoint all_chars (p : ascii -> bool) (s : string) : bool :=
  match s with
  | EmptyString => true
  | String c r => p c && all_chars p r
  end.

Definition toLowerCase : string -> string := map_chars lower_char.
Definition toUpperCase : string -> string := map_chars upper_char.

(** Drop the longest prefix, or suffix, whose characters satisfy [p]. *)
Fixpoint drop_start (p : ascii -> bool) (s : string) : string :=
  match s with
  | EmptyString => EmptyString
  | String c r => if p c then drop_start p r else s
  end.

Fixpoint drop_end (p : ascii -> bool) (s : string) : string :=
  match s with
  | EmptyString => EmptyString
  | String c r =>
      match drop_end p r with
      | EmptyString => if p c then EmptyString else String c EmptyString
      | r' => String c r'
      end
  end.

Definition trim (s : string) : string := drop_end is_space (drop_start is_space s).

(** [Boolean(s)] for a string: only the empty string is falsy. *)
Definition truthy (s : string) : bool := negb (s =? "").

(** [Boolean(v)] for [v : string | undefined]. *)
Definition truthy_opt (v : option string) : bool :=
  match v with
  | Some s => truthy s
  | None => false
  end.

(** [v ?? ""]. *)
Definition or_empty (v : option string) : string := default "" v.

Fixpoint startsWith (p s : string) : bool :=
  match p, s with
  | EmptyString, _ => true
  | String a p', String b s' => (a =? b)%char && startsWith p' s'
  | String _ _, EmptyString => false
  end.

Fixpoint rev_acc (s acc : string) : string :=
  match s with
  | EmptyString => acc
  | String c r => rev_acc r (String c acc)
  end.

Definition rev (s : string) : string := rev_acc s EmptyString.

Definition endsWith (p s : string) : bool := startsWith (rev p) (rev s).

End JsString.

Import JsString.

(** ** JavaScript numbers and [Number(string)] *)

Module JsNumber.

Inductive JsNumber : Type :=
| JNaN
| JInf (negative : bool)
| JFin (q : Q).

Definition digit_of (base : N) (c : ascii) : option Z :=
  let v :=
    if is_digit c then Some (code c - 48)%N
    else if in_range 97 102 c then Some (code c - 87)%N
    else if in_range 65 70 c then Some (code c - 55)%N
    else None in
  match v with
  | Some d => if (d <? base)%N then Some (Z.of_N d) else None
  | None => None
  end.

(** The longest run of digits at the head of [s]: its value, its length
    and what follows it. *)
Fixpoint digits (base : N) (s : string) (acc : Z) (n : nat) : Z * nat * string :=
  match s with
  | EmptyString => (acc, n, s)
  | String c r =>
      match digit_of base c with
      | Some d => digits base r (acc * Z.of_N base + d)%Z (S n)
      | None => (acc, n, s)
      end
  end.

Definition sign_prefix (s : string) : bool * string :=
  match s with
  | String "+"%char r => (false, r)
  | String "-"%char r => (true, r)
  | _ => (false, s)
  end.

(** [NonDecimalIntegerLiteral] after its two-character prefix. *)
Definition radix_literal (base : N) (s : string) : JsNumber :=
  match digits base s 0%Z 0%nat with
  | (v, S _, EmptyString) => JFin (inject_Z v)
  | _ => JNaN
  end.

(** [ExponentPart?] up to the end of the literal. *)
Definition exponent_part (s : string) : option Z :=
  match s with
  | EmptyString => Some 0%Z
  | String c r =>
      if (c =? "e")%char || (c =? "E")%char then
        let '(neg, r1) := sign_prefix r in
        match digits 10 r1 0%Z 0%nat with
        | (v, S _, EmptyString) => Some (if neg then (- v)%Z else v)
        | _ => None
        end
      else None
  end.

(** [StrUnsignedDecimalLiteral] other than [Infinity]. *)
Definition unsigned_decimal (s : string) : option Q :=
  let '(iv, ni, r1) := digits 10 s 0%Z 0%nat in
  let '(fv, nf, r2) :=
    match r1 with
    | String "."%char r => digits 10 r 0%Z 0%nat
    | _ => (0%Z, 0%nat, r1)
    end in
  if (ni + nf =? 0)%nat then None
  else
    match exponent_part r2 with
    | Some e =>
        let mantissa := (iv * 10 ^ Z.of_nat nf + fv)%Z in
        Some (Qred (inject_Z mantissa * Qpower (inject_Z 10) (e - Z.of_nat nf))%Q)
    | None => None
    end.

Definition decimal_literal (s : string) : JsNumber :=
  let '(neg, r) := sign_prefix s in
  if r =? "Infinity" then JInf neg
  else
    match unsigned_decimal r with
    | Some q => JFin (if neg then Qred (- q)%Q else q)
    | None => JNaN
    end.

(** [Number(s)] for a string [s] (StringToNumber). *)
Definition Number (s : string) : JsNumber :=
  match trim s with
  | EmptyString => JFin 0%Q
  | String "0"%char (String x r) as t =>
      if (x =? "x")%char || (x =? "X")%char then radix_literal 16 r
      else if (x =? "o")%char || (x =? "O")%char then radix_literal 8 r
      else if (x =? "b")%char || (x =? "B")%char then radix_literal 2 r
      else decimal_literal t
  | t => decimal_literal t
  end.

(** [Number.isFinite]. *)
Definition isFinite (n : JsNumber) : bool :=
  match n with
  | JFin _ => true
  | _ => false
  end.

(** [a < b] and [a >= b] on finite numbers. *)
Definition Qltb (a b : Q) : bool := negb (Qle_bool b a).
Definition Qgeb (a b : Q) : bool := Qle_bool b a.

(** The array position a finite number denotes when used as a property
    key: only a non-negative integer names an element. *)
Definition array_index (q : Q) : option nat :=
  let r := Qred q in
  if (Qden r =? 1)%positive && (0 <=? Qnum r)%Z then Some (Z.to_nat (Qnum r))
  else None.

(** [arr[q]]. *)
Definition element_at {A : Type} (arr : list A) (q : Q) : option A :=
  match array_index q with
  | Some i => arr !! i
  | None => None
  end.

(** [String(n)] for an integer below 10^21 in magnitude. *)
Definition String_of_integer (n : Z) : string :=
  NilZero.string_of_int (Z.to_int n).

End JsNumber.

Import JsNumber.

(** ** config-entry.ts *)

Record ConfigEntrySummary : Type := {
  entry_id : string;
  title : string;
  unique_id : option string
}.

Record EntityRegistryEntry : Type := {
  entity_id : string;
  config_entry_id : option string
}.

(** The outcome of an awaited promise. *)
Inductive Settled (A : Type) : Type :=
| Fulfilled (value : A)
| Rejected.
Arguments Fulfilled {A} value.
Arguments Rejected {A}.

Definition is_slug_char (c : ascii) : bool := is_lower c || is_digit c.

(** [replaceAll(/[^a-z0-9]+/g, "_")]: [in_run] tells that the run of
    foreign characters being read has already produced its underscore. *)
Fixpoint squash_foreign (in_run : bool) (s : string) : string :=
  match s with
  | EmptyString => EmptyString
  | String c r =>
      if is_slug_char c then String c (squash_foreign false r)
      else if in_run then squash_foreign true r
      else String "_"%char (squash_foreign true r)
  end.

Definition is_underscore (c : ascii) : bool := (c =? "_")%char.

(** [slugifyId]; NFKD normalisation and the removal of combining marks do
    nothing on ASCII text. *)
Definition slugifyId (value : string) : string :=
  drop_end is_underscore
    (drop_start is_underscore (squash_foreign false (toLowerCase value))).

(** [[^)]+] cannot cross a closing parenthesis, so the group ends at the
    first one: the text before it and the text after it. *)
Fixpoint until_close (s : string) : option (string * string) :=
  match s with
  | EmptyString => None
  | String c r =>
      if (c =? ")")%char then Some (EmptyString, r)
      else
        match until_close r with
        | Some (body, rest) => Some (String c body, rest)
        | None => None
        end
  end.

(** [/\((?<id>[^)]+)\)\s*$/] anchored at the head of [s]. *)
Definition title_match_here (s : string) : option string :=
  match s with
  | String "("%char r =>
      match until_close r with
      | Some (String c b, rest) =>
          if all_chars is_space rest then Some (String c b) else None
      | _ => None
      end
  | _ => None
  end.

(** [exec]: the match at the leftmost position that has one. *)
Fixpoint title_exec (s : string) : option string :=
  match title_match_here s with
  | Some group => Some group
  | None =>
      match s with
      | EmptyString => None
      | String _ r => title_exec r
      end
  end.

Definition parseIdFromTitle (t : string) : option string :=
  match title_exec t with
  | Some group => let v := trim group in if truthy v then Some v else None
  | None => None
  end.

Definition resolveIdentifierFromEntry (entry : ConfigEntrySummary) : string :=
  let uniqueId :=
    match unique_id entry with
    | Some u => trim u
    | None => ""
    end in
  if truthy uniqueId && negb (toLowerCase uniqueId =? "none") then uniqueId
  else
    match parseIdFromTitle (title entry) with
    | Some parsed => parsed
    | None => entry_id entry
    end.

Definition find_entry (entries : list ConfigEntrySummary) (entryId : string)
  : option ConfigEntrySummary :=
  find (fun e => entry_id e =? entryId) entries.

(** [resolveIdFromConfigEntry]: [listing] is the outcome of the
    [config_entries/get] call it awaits. *)
Definition resolveIdFromConfigEntry (has_callWS : bool)
    (listing : Settled (list ConfigEntrySummary)) (entryId : string)
  : Settled (option string) :=
  if negb has_callWS then Fulfilled None
  else
    match listing with
    | Rejected => Rejected
    | Fulfilled entries =>
        match find_entry entries entryId with
        | None => Fulfilled None
        | Some entry => Fulfilled (Some (resolveIdentifierFromEntry entry))
        end
    end.

(** ** The card's data *)

Module Favorite.
(** [id?: number | string]; the numbers are the integers the provider
    assigns. *)
Inductive Id : Type :=
| IdNumber (n : Z)
| IdString (s : string).

Record t : Type := {
  id : option Id;
  name : option string;
  license_plate : option string
}.
End Favorite.

Module CardConfig.
Record t : Type := {
  type : string;
  title : option string;
  config_entry_id : option string;
  favorites_entity : option string
}.
End CardConfig.

(** An entity of the host: its state text and [attributes.favorites] when
    that attribute is an array. *)
Record HassEntity : Type := {
  state : string;
  attributes_favorites : option (list Favorite.t)
}.

(** The part of the host object the card reads: the entity states, whether
    [callWS] is provided, and [user.is_admin] when a user is known. *)
Record HomeAssistant : Type := {
  states : gmap string HassEntity;
  callWS : bool;
  user_is_admin : option bool
}.

(** [!this.hass.user?.is_admin] is false only for a known administrator. *)
Definition is_admin (h : HomeAssistant) : bool := default false (user_is_admin h).

(** The reactive and private fields of [VisitorParkingNewReservationCard]. *)
Record Card : Type := {
  hass : option HomeAssistant;
  _config : option CardConfig.t;
  _favoriteDraft : string;
  _nameDraft : string;
  _licensePlateDraft : string;
  _addToFavorites : bool;
  _updateFavorite : bool;
  _submitting : bool;
  _deletingFavorite : bool;
  _updatingFavorite : bool;
  _resolvingService : bool;
  _resolvedConfigEntryId : option string;
  _resolvedIdentifier : option string;
  _entries : list ConfigEntrySummary;
  _entriesLoaded : bool;
  _entityRegistry : list EntityRegistryEntry;
  _entityRegistryLoaded : bool;
  _selectedEntryId : option string;
  _lastResolveAttempt : option Z;
  _lastResolveEntryId : option string
}.

(** The element as constructed. *)
Definition new_card : Card := {|
  hass := None;
  _config := None;
  _favoriteDraft := "";
  _nameDraft := "";
  _licensePlateDraft := "";
  _addToFavorites := false;
  _updateFavorite := false;
  _submitting := false;
  _deletingFavorite := false;
  _updatingFavorite := false;
  _resolvingService := false;
  _resolvedConfigEntryId := None;
  _resolvedIdentifier := None;
  _entries := [];
  _entriesLoaded := false;
  _entityRegistry := [];
  _entityRegistryLoaded := false;
  _selectedEntryId := None;
  _lastResolveAttempt := None;
  _lastResolveEntryId := None
|}.

(** Field assignments [this.f = v]. *)
Definition set_hass (v : option HomeAssistant) (c : Card) : Card :=
  {| hass := v; _config := _config c; _favoriteDraft := _favoriteDraft c; _nameDraft :=
     _nameDraft c; _licensePlateDraft := _licensePlateDraft c; _addToFavorites :=
     _addToFavorites c; _updateFavorite := _updateFavorite c; _submitting := _submitting
     c; _deletingFavorite := _deletingFavorite c; _updatingFavorite := _updatingFavorite
     c; _resolvingService := _resolvingService c; _resolvedConfigEntryId :=
     _resolvedConfigEntryId c; _resolvedIdentifier := _resolvedIdentifier c; _entries :=
     _entries c; _entriesLoaded := _entriesLoaded c; _entityRegistry := _entityRegistry
     c; _entityRegistryLoaded := _entityRegistryLoaded c; _selectedEntryId :=
     _selectedEntryId c; _lastResolveAttempt := _lastResolveAttempt c;
     _lastResolveEntryId := _lastResolveEntryId c |}.

Definition set_config (v : option CardConfig.t) (c : Card) : Card :=
  {| hass := hass c; _config := v; _favoriteDraft := _favoriteDraft c; _nameDraft :=
     _nameDraft c; _licensePlateDraft := _licensePlateDraft c; _addToFavorites :=
     _addToFavorites c; _updateFavorite := _updateFavorite c; _submitting := _submitting
     c; _deletingFavorite := _deletingFavorite c; _updatingFavorite := _updatingFavorite
     c; _resolvingService := _resolvingService c; _resolvedConfigEntryId :=
     _resolvedConfigEntryId c; _resolvedIdentifier := _resolvedIdentifier c; _entries :=
     _entries c; _entriesLoaded := _entriesLoaded c; _entityRegistry := _entityRegistry
     c; _entityRegistryLoaded := _entityRegistryLoaded c; _selectedEntryId :=
     _selectedEntryId c; _lastResolveAttempt := _lastResolveAttempt c;
     _lastResolveEntryId := _lastResolveEntryId c |}.

Definition set_favoriteDraft (v : string) (c : Card) : Card :=
  {| hass := hass c; _config := _config c; _favoriteDraft := v; _nameDraft := _nameDraft
     c; _licensePlateDraft := _licensePlateDraft c; _addToFavorites := _addToFavorites
     c; _updateFavorite := _updateFavorite c; _submitting := _submitting c;
     _deletingFavorite := _deletingFavorite c; _updatingFavorite := _updatingFavorite c;
     _resolvingService := _resolvingService c; _resolvedConfigEntryId :=
     _resolvedConfigEntryId c; _resolvedIdentifier := _resolvedIdentifier c; _entries :=
     _entries c; _entriesLoaded := _entriesLoaded c; _entityRegistry := _entityRegistry
     c; _entityRegistryLoaded := _entityRegistryLoaded c; _selectedEntryId :=
     _selectedEntryId c; _lastResolveAttempt := _lastResolveAttempt c;
     _lastResolveEntryId := _lastResolveEntryId c |}.

Definition set_nameDraft (v : string) (c : Card) : Card :=
  {| hass := hass c; _config := _config c; _favoriteDraft := _favoriteDraft c;
     _nameDraft := v; _licensePlateDraft := _licensePlateDraft c; _addToFavorites :=
     _addToFavorites c; _updateFavorite := _updateFavorite c; _submitting := _submitting
     c; _deletingFavorite := _deletingFavorite c; _updatingFavorite := _updatingFavorite
     c; _resolvingService := _resolvingService c; _resolvedConfigEntryId :=
     _resolvedConfigEntryId c; _resolvedIdentifier := _resolvedIdentifier c; _entries :=
     _entries c; _entriesLoaded := _entriesLoaded c; _entityRegistry := _entityRegistry
     c; _entityRegistryLoaded := _entityRegistryLoaded c; _selectedEntryId :=
     _selectedEntryId c; _lastResolveAttempt := _lastResolveAttempt c;
     _lastResolveEntryId := _lastResolveEntryId c |}.

Definition set_licensePlateDraft (v : string) (c : Card) : Card :=
  {| hass := hass c; _config := _config c; _favoriteDraft := _favoriteDraft c;
     _nameDraft := _nameDraft c; _licensePlateDraft := v; _addToFavorites :=
     _addToFavorites c; _updateFavorite := _updateFavorite c; _submitting := _submitting
     c; _deletingFavorite := _deletingFavorite c; _updatingFavorite := _updatingFavorite
     c; _resolvingService := _resolvingService c; _resolvedConfigEntryId :=
     _resolvedConfigEntryId c; _resolvedIdentifier := _resolvedIdentifier c; _entries :=
     _entries c; _entriesLoaded := _entriesLoaded c; _entityRegistry := _entityRegistry
     c; _entityRegistryLoaded := _entityRegistryLoaded c; _selectedEntryId :=
     _selectedEntryId c; _lastResolveAttempt := _lastResolveAttempt c;
     _lastResolveEntryId := _lastResolveEntryId c |}.

Definition set_addToFavorites (v : bool) (c : Card) : Card :=
  {| hass := hass c; _config := _config c; _favoriteDraft := _favoriteDraft c;
     _nameDraft := _nameDraft c; _licensePlateDraft := _licensePlateDraft c;
     _addToFavorites := v; _updateFavorite := _updateFavorite c; _submitting :=
     _submitting c; _deletingFavorite := _deletingFavorite c; _updatingFavorite :=
     _updatingFavorite c; _resolvingService := _resolvingService c;
     _resolvedConfigEntryId := _resolvedConfigEntryId c; _resolvedIdentifier :=
     _resolvedIdentifier c; _entries := _entries c; _entriesLoaded := _entriesLoaded c;
     _entityRegistry := _entityRegistry c; _entityRegistryLoaded :=
     _entityRegistryLoaded c; _selectedEntryId := _selectedEntryId c;
     _lastResolveAttempt := _lastResolveAttempt c; _lastResolveEntryId :=
     _lastResolveEntryId c |}.

Definition set_updateFavorite (v : bool) (c : Card) : Card :=
  {| hass := hass c; _config := _config c; _favoriteDraft := _favoriteDraft c;
     _nameDraft := _nameDraft c; _licensePlateDraft := _licensePlateDraft c;
     _addToFavorites := _addToFavorites c; _updateFavorite := v; _submitting :=
     _submitting c; _deletingFavorite := _deletingFavorite c; _updatingFavorite :=
     _updatingFavorite c; _resolvingService := _resolvingService c;
     _resolvedConfigEntryId := _resolvedConfigEntryId c; _resolvedIdentifier :=
     _resolvedIdentifier c; _entries := _entries c; _entriesLoaded := _entriesLoaded c;
     _entityRegistry := _entityRegistry c; _entityRegistryLoaded :=
     _entityRegistryLoaded c; _selectedEntryId := _selectedEntryId c;
     _lastResolveAttempt := _lastResolveAttempt c; _lastResolveEntryId :=
     _lastResolveEntryId c |}.

Definition set_submitting (v : bool) (c : Card) : Card :=
  {| hass := hass c; _config := _config c; _favoriteDraft := _favoriteDraft c;
     _nameDraft := _nameDraft c; _licensePlateDraft := _licensePlateDraft c;
     _addToFavorites := _addToFavorites c; _updateFavorite := _updateFavorite c;
     _submitting := v; _deletingFavorite := _deletingFavorite c; _updatingFavorite :=
     _updatingFavorite c; _resolvingService := _resolvingService c;
     _resolvedConfigEntryId := _resolvedConfigEntryId c; _resolvedIdentifier :=
     _resolvedIdentifier c; _entries := _entries c; _entriesLoaded := _entriesLoaded c;
     _entityRegistry := _entityRegistry c; _entityRegistryLoaded :=
     _entityRegistryLoaded c; _selectedEntryId := _selectedEntryId c;
     _lastResolveAttempt := _lastResolveAttempt c; _lastResolveEntryId :=
     _lastResolveEntryId c |}.

Definition set_deletingFavorite (v : bool) (c : Card) : Card :=
  {| hass := hass c; _config := _config c; _favoriteDraft := _favoriteDraft c;
     _nameDraft := _nameDraft c; _licensePlateDraft := _licensePlateDraft c;
     _addToFavorites := _addToFavorites c; _updateFavorite := _updateFavorite c;
     _submitting := _submitting c; _deletingFavorite := v; _updatingFavorite :=
     _updatingFavorite c; _resolvingService := _resolvingService c;
     _resolvedConfigEntryId := _resolvedConfigEntryId c; _resolvedIdentifier :=
     _resolvedIdentifier c; _entries := _entries c; _entriesLoaded := _entriesLoaded c;
     _entityRegistry := _entityRegistry c; _entityRegistryLoaded :=
     _entityRegistryLoaded c; _selectedEntryId := _selectedEntryId c;
     _lastResolveAttempt := _lastResolveAttempt c; _lastResolveEntryId :=
     _lastResolveEntryId c |}.

Definition set_updatingFavorite (v : bool) (c : Card) : Card :=
  {| hass := hass c; _config := _config c; _favoriteDraft := _favoriteDraft c;
     _nameDraft := _nameDraft c; _licensePlateDraft := _licensePlateDraft c;
     _addToFavorites := _addToFavorites c; _updateFavorite := _updateFavorite c;
     _submitting := _submitting c; _deletingFavorite := _deletingFavorite c;
     _updatingFavorite := v; _resolvingService := _resolvingService c;
     _resolvedConfigEntryId := _resolvedConfigEntryId c; _resolvedIdentifier :=
     _resolvedIdentifier c; _entries := _entries c; _entriesLoaded := _entriesLoaded c;
     _entityRegistry := _entityRegistry c; _entityRegistryLoaded :=
     _entityRegistryLoaded c; _selectedEntryId := _selectedEntryId c;
     _lastResolveAttempt := _lastResolveAttempt c; _lastResolveEntryId :=
     _lastResolveEntryId c |}.

Definition set_resolvingService (v : bool) (c : Card) : Card :=
  {| hass := hass c; _config := _config c; _favoriteDraft := _favoriteDraft c;
     _nameDraft := _nameDraft c; _licensePlateDraft := _licensePlateDraft c;
     _addToFavorites := _addToFavorites c; _updateFavorite := _updateFavorite c;
     _submitting := _submitting c; _deletingFavorite := _deletingFavorite c;
     _updatingFavorite := _updatingFavorite c; _resolvingService := v;
     _resolvedConfigEntryId := _resolvedConfigEntryId c; _resolvedIdentifier :=
     _resolvedIdentifier c; _entries := _entries c; _entriesLoaded := _entriesLoaded c;
     _entityRegistry := _entityRegistry c; _entityRegistryLoaded :=
     _entityRegistryLoaded c; _selectedEntryId := _selectedEntryId c;
     _lastResolveAttempt := _lastResolveAttempt c; _lastResolveEntryId :=
     _lastResolveEntryId c |}.

Definition set_resolvedConfigEntryId (v : option string) (c : Card) : Card :=
  {| hass := hass c; _config := _config c; _favoriteDraft := _favoriteDraft c;
     _nameDraft := _nameDraft c; _licensePlateDraft := _licensePlateDraft c;
     _addToFavorites := _addToFavorites c; _updateFavorite := _updateFavorite c;
     _submitting := _submitting c; _deletingFavorite := _deletingFavorite c;
     _updatingFavorite := _updatingFavorite c; _resolvingService := _resolvingService c;
     _resolvedConfigEntryId := v; _resolvedIdentifier := _resolvedIdentifier c; _entries
     := _entries c; _entriesLoaded := _entriesLoaded c; _entityRegistry :=
     _entityRegistry c; _entityRegistryLoaded := _entityRegistryLoaded c;
     _selectedEntryId := _selectedEntryId c; _lastResolveAttempt := _lastResolveAttempt
     c; _lastResolveEntryId := _lastResolveEntryId c |}.

Definition set_resolvedIdentifier (v : option string) (c : Card) : Card :=
  {| hass := hass c; _config := _config c; _favoriteDraft := _favoriteDraft c;
     _nameDraft := _nameDraft c; _licensePlateDraft := _licensePlateDraft c;
     _addToFavorites := _addToFavorites c; _updateFavorite := _updateFavorite c;
     _submitting := _submitting c; _deletingFavorite := _deletingFavorite c;
     _updatingFavorite := _updatingFavorite c; _resolvingService := _resolvingService c;
     _resolvedConfigEntryId := _resolvedConfigEntryId c; _resolvedIdentifier := v;
     _entries := _entries c; _entriesLoaded := _entriesLoaded c; _entityRegistry :=
     _entityRegistry c; _entityRegistryLoaded := _entityRegistryLoaded c;
     _selectedEntryId := _selectedEntryId c; _lastResolveAttempt := _lastResolveAttempt
     c; _lastResolveEntryId := _lastResolveEntryId c |}.

Definition set_entries (v : list ConfigEntrySummary) (c : Card) : Card :=
  {| hass := hass c; _config := _config c; _favoriteDraft := _favoriteDraft c;
     _nameDraft := _nameDraft c; _licensePlateDraft := _licensePlateDraft c;
     _addToFavorites := _addToFavorites c; _updateFavorite := _updateFavorite c;
     _submitting := _submitting c; _deletingFavorite := _deletingFavorite c;
     _updatingFavorite := _updatingFavorite c; _resolvingService := _resolvingService c;
     _resolvedConfigEntryId := _resolvedConfigEntryId c; _resolvedIdentifier :=
     _resolvedIdentifier c; _entries := v; _entriesLoaded := _entriesLoaded c;
     _entityRegistry := _entityRegistry c; _entityRegistryLoaded :=
     _entityRegistryLoaded c; _selectedEntryId := _selectedEntryId c;
     _lastResolveAttempt := _lastResolveAttempt c; _lastResolveEntryId :=
     _lastResolveEntryId c |}.

Definition set_entriesLoaded (v : bool) (c : Card) : Card :=
  {| hass := hass c; _config := _config c; _favoriteDraft := _favoriteDraft c;
     _nameDraft := _nameDraft c; _licensePlateDraft := _licensePlateDraft c;
     _addToFavorites := _addToFavorites c; _updateFavorite := _updateFavorite c;
     _submitting := _submitting c; _deletingFavorite := _deletingFavorite c;
     _updatingFavorite := _updatingFavorite c; _resolvingService := _resolvingService c;
     _resolvedConfigEntryId := _resolvedConfigEntryId c; _resolvedIdentifier :=
     _resolvedIdentifier c; _entries := _entries c; _entriesLoaded := v; _entityRegistry
     := _entityRegistry c; _entityRegistryLoaded := _entityRegistryLoaded c;
     _selectedEntryId := _selectedEntryId c; _lastResolveAttempt := _lastResolveAttempt
     c; _lastResolveEntryId := _lastResolveEntryId c |}.

Definition set_entityRegistry (v : list EntityRegistryEntry) (c : Card) : Card :=
  {| hass := hass c; _config := _config c; _favoriteDraft := _favoriteDraft c;
     _nameDraft := _nameDraft c; _licensePlateDraft := _licensePlateDraft c;
     _addToFavorites := _addToFavorites c; _updateFavorite := _updateFavorite c;
     _submitting := _submitting c; _deletingFavorite := _deletingFavorite c;
     _updatingFavorite := _updatingFavorite c; _resolvingService := _resolvingService c;
     _resolvedConfigEntryId := _resolvedConfigEntryId c; _resolvedIdentifier :=
     _resolvedIdentifier c; _entries := _entries c; _entriesLoaded := _entriesLoaded c;
     _entityRegistry := v; _entityRegistryLoaded := _entityRegistryLoaded c;
     _selectedEntryId := _selectedEntryId c; _lastResolveAttempt := _lastResolveAttempt
     c; _lastResolveEntryId := _lastResolveEntryId c |}.

Definition set_entityRegistryLoaded (v : bool) (c : Card) : Card :=
  {| hass := hass c; _config := _config c; _favoriteDraft := _favoriteDraft c;
     _nameDraft := _nameDraft c; _licensePlateDraft := _licensePlateDraft c;
     _addToFavorites := _addToFavorites c; _updateFavorite := _updateFavorite c;
     _submitting := _submitting c; _deletingFavorite := _deletingFavorite c;
     _updatingFavorite := _updatingFavorite c; _resolvingService := _resolvingService c;
     _resolvedConfigEntryId := _resolvedConfigEntryId c; _resolvedIdentifier :=
     _resolvedIdentifier c; _entries := _entries c; _entriesLoaded := _entriesLoaded c;
     _entityRegistry := _entityRegistry c; _entityRegistryLoaded := v; _selectedEntryId
     := _selectedEntryId c; _lastResolveAttempt := _lastResolveAttempt c;
     _lastResolveEntryId := _lastResolveEntryId c |}.

Definition set_selectedEntryId (v : option string) (c : Card) : Card :=
  {| hass := hass c; _config := _config c; _favoriteDraft := _favoriteDraft c;
     _nameDraft := _nameDraft c; _licensePlateDraft := _licensePlateDraft c;
     _addToFavorites := _addToFavorites c; _updateFavorite := _updateFavorite c;
     _submitting := _submitting c; _deletingFavorite := _deletingFavorite c;
     _updatingFavorite := _updatingFavorite c; _resolvingService := _resolvingService c;
     _resolvedConfigEntryId := _resolvedConfigEntryId c; _resolvedIdentifier :=
     _resolvedIdentifier c; _entries := _entries c; _entriesLoaded := _entriesLoaded c;
     _entityRegistry := _entityRegistry c; _entityRegistryLoaded :=
     _entityRegistryLoaded c; _selectedEntryId := v; _lastResolveAttempt :=
     _lastResolveAttempt c; _lastResolveEntryId := _lastResolveEntryId c |}.

Definition set_lastResolveAttempt (v : option Z) (c : Card) : Card :=
  {| hass := hass c; _config := _config c; _favoriteDraft := _favoriteDraft c;
     _nameDraft := _nameDraft c; _licensePlateDraft := _licensePlateDraft c;
     _addToFavorites := _addToFavorites c; _updateFavorite := _updateFavorite c;
     _submitting := _submitting c; _deletingFavorite := _deletingFavorite c;
     _updatingFavorite := _updatingFavorite c; _resolvingService := _resolvingService c;
     _resolvedConfigEntryId := _resolvedConfigEntryId c; _resolvedIdentifier :=
     _resolvedIdentifier c; _entries := _entries c; _entriesLoaded := _entriesLoaded c;
     _entityRegistry := _entityRegistry c; _entityRegistryLoaded :=
     _entityRegistryLoaded c; _selectedEntryId := _selectedEntryId c;
     _lastResolveAttempt := v; _lastResolveEntryId := _lastResolveEntryId c |}.

Definition set_lastResolveEntryId (v : option string) (c : Card) : Card :=
  {| hass := hass c; _config := _config c; _favoriteDraft := _favoriteDraft c;
     _nameDraft := _nameDraft c; _licensePlateDraft := _licensePlateDraft c;
     _addToFavorites := _addToFavorites c; _updateFavorite := _updateFavorite c;
     _submitting := _submitting c; _deletingFavorite := _deletingFavorite c;
     _updatingFavorite := _updatingFavorite c; _resolvingService := _resolvingService c;
     _resolvedConfigEntryId := _resolvedConfigEntryId c; _resolvedIdentifier :=
     _resolvedIdentifier c; _entries := _entries c; _entriesLoaded := _entriesLoaded c;
     _entityRegistry := _entityRegistry c; _entityRegistryLoaded :=
     _entityRegistryLoaded c; _selectedEntryId := _selectedEntryId c;
     _lastResolveAttempt := _lastResolveAttempt c; _lastResolveEntryId := v |}.

(** ** Entry selection and the favourites source *)

(** [this._config?.config_entry_id]. *)
Definition pinned_entry_id (c : Card) : option string :=
  match _config c with
  | Some cfg => CardConfig.config_entry_id cfg
  | None => None
  end.

Definition _activeEntryId (c : Card) : option string :=
  if truthy_opt (pinned_entry_id c) then pinned_entry_id c
  else if truthy_opt (_selectedEntryId c) then _selectedEntryId c
  else if _entriesLoaded c && (length (_entries c) =? 1)%nat
       then entry_id <$> head (_entries c)
  else None.

Definition _entryIdentifier (c : Card) (entryId : option string) : option string :=
  match entryId with
  | Some e =>
      if truthy e then resolveIdentifierFromEntry <$> find_entry (_entries c) e
      else None
  | None => None
  end.

Definition _slug (c : Card) : option string :=
  let entryId := _activeEntryId c in
  if negb (truthy_opt entryId) then None
  else
    let identifier := _entryIdentifier c entryId in
    if truthy_opt identifier then identifier
    else if bool_decide (_resolvedConfigEntryId c = entryId)
            && truthy_opt (_resolvedIdentifier c)
         then _resolvedIdentifier c
    else None.

Definition _state (c : Card) (entityId : option string) : option HassEntity :=
  match entityId, hass c with
  | Some e, Some h => if truthy e then states h !! e else None
  | _, _ => None
  end.

Definition _favoritesEntityFromRegistry (c : Card) : option string :=
  let entryId := _activeEntryId c in
  if negb (truthy_opt entryId) || negb (_entityRegistryLoaded c) then None
  else
    entity_id <$>
      find (fun item =>
              bool_decide (config_entry_id item = entryId)
              && startsWith "sensor." (entity_id item)
              && endsWith "_favorites" (entity_id item))
           (_entityRegistry c).

(** [this._config?.favorites_entity ?? ""], trimmed. *)
Definition favorites_override (c : Card) : string :=
  trim (or_empty (match _config c with
                  | Some cfg => CardConfig.favorites_entity cfg
                  | None => None
                  end)).

Definition _favoritesEntityId (c : Card) : option string :=
  let override := favorites_override c in
  if truthy override && bool_decide (is_Some (_state c (Some override)))
  then Some override
  else
    let slug := _slug c in
    let registryEntity := _favoritesEntityFromRegistry c in
    if truthy_opt registryEntity then registryEntity
    else
      match slug with
      | Some s =>
          if truthy s
          then Some ("sensor.visitor_parking_" ++ slugifyId s ++ "_favorites")
          else None
      | None => None
      end.

Definition _favoritesState (c : Card) : option HassEntity :=
  _state c (_favoritesEntityId c).

Definition _favorites (c : Card) : list Favorite.t :=
  match _favoritesState c with
  | Some entity => default [] (attributes_favorites entity)
  | None => []
  end.

(** ** Normaliser and favourite matcher *)

Definition _normalizeName (value : string) : string := toLowerCase (trim value).

Definition is_plate_char (c : ascii) : bool := is_upper c || is_digit c.

Definition _normalizePlate (value : string) : string :=
  filter_chars is_plate_char (toUpperCase (trim value)).

Definition _favoriteMatchesDraft (favorite : Favorite.t) (name plate : string) : bool :=
  (_normalizeName (or_empty (Favorite.name favorite)) =? _normalizeName name)
  && (_normalizePlate (or_empty (Favorite.license_plate favorite))
      =? _normalizePlate plate).

(** The [for] loop of [_findFavoriteIndexByDraft], entered at position [i]
    with the favourites from [i] on still to visit. *)
Fixpoint find_from (i : nat) (rest : list Favorite.t) (name plate : string)
  : option nat :=
  match rest with
  | [] => None
  | favorite :: rest' =>
      if _favoriteMatchesDraft favorite name plate then Some i
      else find_from (S i) rest' name plate
  end.

Definition _findFavoriteIndexByDraft (c : Card) (name plate : string) : option nat :=
  if negb (truthy (trim name)) || negb (truthy (trim plate)) then None
  else find_from 0 (_favorites c) name plate.

(** ** Favourite selection *)

Definition number_of_nat (n : nat) : Q := inject_Z (Z.of_nat n).

Definition _selectedFavoriteIndex (c : Card) : option Q :=
  let indexValue := _favoriteDraft c in
  if negb (truthy indexValue) then None
  else
    match Number indexValue with
    | JFin index =>
        if Qltb index 0 || Qgeb index (number_of_nat (length (_favorites c)))
        then None
        else Some index
    | _ => None
    end.

Definition _selectedFavorite (c : Card) : option Favorite.t :=
  match _selectedFavoriteIndex c with
  | Some index => element_at (_favorites c) index
  | None => None
  end.

Definition _selectedFavoriteId (c : Card) : option string :=
  match _selectedFavorite c with
  | Some favorite =>
      match Favorite.id favorite with
      | Some (Favorite.IdNumber n) => Some (String_of_integer n)
      | Some (Favorite.IdString s) =>
          if negb (trim s =? "") then Some (trim s) else None
      | None => None
      end
  | None => None
  end.

Definition _busy (c : Card) : bool :=
  _submitting c || _deletingFavorite c || _updatingFavorite c.

(** ** Reconciliation flags *)

Definition _draftMatchesExistingFavorite (c : Card) : bool :=
  bool_decide
    (_findFavoriteIndexByDraft c (_nameDraft c) (_licensePlateDraft c) <> None).

Definition _selectedFavoriteChanged (c : Card) : bool :=
  match _selectedFavorite c with
  | Some selected =>
      negb (_favoriteMatchesDraft selected (_nameDraft c) (_licensePlateDraft c))
  | None => false
  end.

Definition _selectedFavoriteNameChanged (c : Card) : bool :=
  match _selectedFavorite c with
  | Some selected =>
      negb (_normalizeName (or_empty (Favorite.name selected))
            =? _normalizeName (_nameDraft c))
  | None => false
  end.

Definition _selectedFavoritePlateChanged (c : Card) : bool :=
  match _selectedFavorite c with
  | Some selected =>
      negb (_normalizePlate (or_empty (Favorite.license_plate selected))
            =? _normalizePlate (_licensePlateDraft c))
  | None => false
  end.

Definition _selectedFavoriteChangedBoth (c : Card) : bool :=
  _selectedFavoriteNameChanged c && _selectedFavoritePlateChanged c.

Definition _showAddToFavorites (c : Card) : bool :=
  if negb (truthy (trim (_nameDraft c))) || negb (truthy (trim (_licensePlateDraft c)))
  then false
  else if bool_decide (is_Some (_selectedFavorite c))
          && negb (_selectedFavoriteChangedBoth c)
  then false
  else negb (_draftMatchesExistingFavorite c).

Definition _draftDuplicatesOtherFavorite (c : Card) : bool :=
  match _selectedFavoriteIndex c with
  | None => false
  | Some selectedIndex =>
      match _findFavoriteIndexByDraft c (_nameDraft c) (_licensePlateDraft c) with
      | Some matchingIndex => negb (Qeq_bool (number_of_nat matchingIndex) selectedIndex)
      | None => false
      end
  end.

Definition _offerUpdateFavorite (c : Card) : bool :=
  if negb (bool_decide (is_Some (_selectedFavorite c))) then false
  else _selectedFavoriteChanged c && negb (_selectedFavoriteChangedBoth c).

Definition _canUpdateFavorite (c : Card) : bool :=
  if negb (_offerUpdateFavorite c) then false
  else if negb (truthy (trim (_nameDraft c)))
          || negb (truthy (trim (_licensePlateDraft c)))
  then false
  else negb (_draftDuplicatesOtherFavorite c).

(** From [render]. *)
Definition canDeleteFavorite (c : Card) : bool :=
  bool_decide (is_Some (_selectedFavoriteId c)).

Definition showDeleteFavorite (c : Card) : bool :=
  canDeleteFavorite c && negb (_offerUpdateFavorite c) && negb (_showAddToFavorites c).

Definition showEntryPicker (c : Card) : bool :=
  negb (truthy_opt (pinned_entry_id c))
  && _entriesLoaded c && (1 <? length (_entries c))%nat.

(** ** Draft editing *)

Definition _maybeResetFavoriteSelection (c : Card) : Card :=
  if negb (bool_decide (is_Some (_selectedFavorite c))) then c
  else if negb (_selectedFavoriteChangedBoth c) then c
  else set_updateFavorite false (set_favoriteDraft "" c).

Definition _syncFavoriteToggles (c : Card) : Card :=
  if bool_decide (is_Some (_selectedFavorite c)) then
    let c1 := if negb (_showAddToFavorites c) then set_addToFavorites false c else c in
    if negb (_canUpdateFavorite c1) then set_updateFavorite false c1 else c1
  else
    let c1 := set_updateFavorite false c in
    if negb (_showAddToFavorites c1) then set_addToFavorites false c1 else c1.

Definition _selectFavorite (indexValue : string) (c : Card) : Card :=
  let c := set_updateFavorite false
             (set_addToFavorites false (set_favoriteDraft indexValue c)) in
  if negb (truthy indexValue) then
    _syncFavoriteToggles (set_licensePlateDraft "" (set_nameDraft "" c))
  else
    match Number indexValue with
    | JFin index =>
        if Qltb index 0 || Qgeb index (number_of_nat (length (_favorites c)))
        then c
        else
          match element_at (_favorites c) index with
          | Some favorite =>
              _syncFavoriteToggles
                (set_licensePlateDraft (trim (or_empty (Favorite.license_plate favorite)))
                   (set_nameDraft (trim (or_empty (Favorite.name favorite))) c))
          | None => c
          end
    | _ => c
    end.

(** The [@input] handlers of the name and licence-plate fields. *)
Definition name_input (value : string) (c : Card) : Card :=
  _syncFavoriteToggles (_maybeResetFavoriteSelection (set_nameDraft value c)).

Definition license_plate_input (value : string) (c : Card) : Card :=
  _syncFavoriteToggles (_maybeResetFavoriteSelection (set_licensePlateDraft value c)).

(** ** Entry selection manager *)

Definition _setSelectedEntry (entryId : option string) (c : Card) : Card :=
  let c := set_selectedEntryId entryId c in
  let c := set_resolvedConfigEntryId None c in
  let c := set_resolvedIdentifier None c in
  let c := set_lastResolveAttempt None c in
  let c := set_lastResolveEntryId None c in
  let c := set_favoriteDraft "" c in
  let c := set_nameDraft "" c in
  let c := set_licensePlateDraft "" c in
  let c := set_addToFavorites false c in
  set_updateFavorite false c.

(** [(ev.target as HTMLSelectElement).value || undefined]. *)
Definition _entryChanged (value : string) (c : Card) : Card :=
  _setSelectedEntry (if truthy value then Some value else None) c.

Definition setConfig (config : CardConfig.t) (c : Card) : Card :=
  set_config (Some config) c.

(** What [_loadEntries] does once [fetchConfigEntries] has settled. *)
Definition _loadEntries_settled (outcome : Settled (list ConfigEntrySummary))
    (c : Card) : Card :=
  let c := set_entries (match outcome with
                        | Fulfilled entries => entries
                        | Rejected => []
                        end) c in
  let c := set_entriesLoaded true c in
  if negb (truthy_opt (pinned_entry_id c))
     && negb (truthy_opt (_selectedEntryId c))
     && (length (_entries c) =? 1)%nat
  then _setSelectedEntry (entry_id <$> head (_entries c)) c
  else c.

Definition _loadEntityRegistry_settled (outcome : Settled (list EntityRegistryEntry))
    (c : Card) : Card :=
  let c := set_entityRegistry (match outcome with
                               | Fulfilled entries => entries
                               | Rejected => []
                               end) c in
  set_entityRegistryLoaded true c.

(** ** Identity resolver *)

(** The asynchronous work an update cycle starts. *)
Inductive Request : Type :=
| LoadEntries
| LoadEntityRegistry
| ResolveId (entryId : string).

(** What the cycle is told about the key ["_config"]: [None] when the map
    does not have the key, [Some previous] when it does. *)
Definition ChangedProps : Type := option (option CardConfig.t).

Definition COOLDOWN_MS : Z := 30000.

(** [_resolveIdFromConfigEntry] up to its first [await]. *)
Definition _resolveIdFromConfigEntry_begin (entryId : string) (c : Card)
  : Card * list Request :=
  match hass c with
  | Some h =>
      if callWS h then (set_resolvingService true c, [ResolveId entryId]) else (c, [])
  | None => (c, [])
  end.

(** [_resolveIdFromConfigEntry] from the point the lookup has settled. *)
Definition _resolveIdFromConfigEntry_settled (entryId : string)
    (outcome : Settled (option string)) (c : Card) : Card :=
  let c :=
    match outcome with
    | Fulfilled (Some resolved) =>
        if truthy resolved
        then set_resolvedConfigEntryId (Some entryId)
               (set_resolvedIdentifier (Some resolved) c)
        else set_resolvedConfigEntryId None (set_resolvedIdentifier None c)
    | _ => set_resolvedConfigEntryId None (set_resolvedIdentifier None c)
    end in
  set_resolvingService false c.

(** [entryIdChanged] of [updated]. *)
Definition entryIdChanged (changedProps : ChangedProps) (entryId : string) : bool :=
  match changedProps with
  | Some prevConfig =>
      bool_decide
        (match prevConfig with
         | Some prev => CardConfig.config_entry_id prev
         | None => None
         end <> Some entryId)
  | None => false
  end.

Definition clear_resolution (c : Card) : Card :=
  set_lastResolveEntryId None
    (set_lastResolveAttempt None
       (set_resolvedIdentifier None (set_resolvedConfigEntryId None c))).

(** [retryDue] of [updated] at clock reading [now]. *)
Definition retryDue (c : Card) (entryId : string) (now : Z) : bool :=
  let lastAttemptRelevant := bool_decide (_lastResolveEntryId c = Some entryId) in
  negb lastAttemptRelevant
  || match _lastResolveAttempt c with
     | None => true
     | Some last => (COOLDOWN_MS <? now - last)%Z
     end.

(** The part of [updated] after the two loading blocks. *)
Definition resolve_step (changedProps : ChangedProps) (now : Z)
    (h : HomeAssistant) (favoritesEntity : string) (c : Card)
  : Card * list Request :=
  match _activeEntryId c with
  | None => (c, [])
  | Some entryId =>
      if negb (truthy entryId) || truthy favoritesEntity then (c, [])
      else
        let identifier := _entryIdentifier c (Some entryId) in
        if truthy_opt identifier then
          (set_resolvedConfigEntryId (Some entryId)
             (set_resolvedIdentifier identifier c), [])
        else if negb (is_admin h) then (c, [])
        else if negb (callWS h) then (c, [])
        else
          let c := if entryIdChanged changedProps entryId
                   then clear_resolution c else c in
          if _resolvingService c then (c, [])
          else if bool_decide (_resolvedConfigEntryId c = Some entryId) then (c, [])
          else if negb (retryDue c entryId now) then (c, [])
          else
            _resolveIdFromConfigEntry_begin entryId
              (set_lastResolveEntryId (Some entryId)
                 (set_lastResolveAttempt (Some now) c))
  end.

(** The two loading blocks at the head of [updated]. *)
Definition load_step (h : HomeAssistant) (c : Card) : Card * list Request :=
  let '(c, r1) :=
    if negb (_entriesLoaded c) then
      if negb (is_admin h) || negb (callWS h)
      then (set_entriesLoaded true c, [])
      else (c, [LoadEntries])
    else (c, []) in
  let '(c, r2) :=
    if negb (_entityRegistryLoaded c) then
      if negb (is_admin h) || negb (callWS h)
      then (set_entityRegistryLoaded true c, [])
      else (c, [LoadEntityRegistry])
    else (c, []) in
  (c, (r1 ++ r2)%list).

(** [updated(changedProps)]; [now] is what [Date.now()] returns. *)
Definition updated (changedProps : ChangedProps) (now : Z) (c : Card)
  : Card * list Request :=
  match hass c, _config c with
  | Some h, Some cfg =>
      let favoritesEntity := trim (or_empty (CardConfig.favorites_entity cfg)) in
      let '(c, loads) := load_step h c in
      let '(c, lookups) := resolve_step changedProps now h favoritesEntity c in
      (c, (loads ++ lookups)%list)
  | _, _ => (c, [])
  end.

(** ** Methods that call host services *)

Inductive ServiceCall : Type :=
| create_reservation (license_plate : string) (name : option string)
    (config_entry_id : option string)
| create_favorite (name license_plate : string) (config_entry_id : option string)
| update_favorite (favorite_id : option string) (name license_plate : string)
    (config_entry_id : option string)
| delete_favorite (favorite_id : string) (config_entry_id : option string).

(** What a method lets the outside see, in order: a [hass-notification]
    event carrying the message with the given translation key, or a
    [callService] request. *)
Inductive Output : Type :=
| Notified (key : string)
| Called (call : ServiceCall).

(** A method body runs on the card and the log so far; it completes
    ([Fulfilled]) or throws ([Rejected]). *)
Definition Method (A : Type) : Type :=
  Card -> list Output -> Settled A * Card * list Output.

Definition ret {A : Type} (a : A) : Method A := fun c l => (Fulfilled a, c, l).

Definition bind {A B : Type} (m : Method A) (k : A -> Method B) : Method B :=
  fun c l =>
    match m c l with
    | (Fulfilled a, c', l') => k a c' l'
    | (Rejected, c', l') => (Rejected, c', l')
    end.

Definition read {A : Type} (getter : Card -> A) : Method A :=
  fun c l => (Fulfilled (getter c), c, l).

Definition assign (setter : Card -> Card) : Method unit :=
  fun c l => (Fulfilled tt, setter c, l).

Definition emit (o : Output) : Method unit :=
  fun c l => (Fulfilled tt, c, (l ++ [o])%list).

(** [this._notify(localize(this.hass, key))]. *)
Definition _notify (key : string) : Method unit := emit (Notified key).

(** [try { body } catch (_err) { handler } finally { final }]. *)
Definition try_catch_finally (body handler final : Method unit) : Method unit :=
  fun c l =>
    match body c l with
    | (Fulfilled _, c1, l1) => final c1 l1
    | (Rejected, c1, l1) =>
        match handler c1 l1 with
        | (r, c2, l2) =>
            match final c2 l2 with
            | (Fulfilled _, c3, l3) => (r, c3, l3)
            | (Rejected, c3, l3) => (Rejected, c3, l3)
            end
        end
    end.

Declare Scope method_scope.
Delimit Scope method_scope with method.
Bind Scope method_scope with Method.
Notation "'let*' x ':=' m 'in' k" := (bind m (fun x => k))
  (at level 10, x name, m at level 100, k at level 200) : method_scope.

(** [...(this._activeEntryId && { config_entry_id: this._activeEntryId })]. *)
Definition spread_entry (c : Card) : option string :=
  if truthy_opt (_activeEntryId c) then _activeEntryId c else None.

(** The guard shared by [_deleteFavorite] and [_submit]. *)
Definition cannot_act (c : Card) : bool :=
  negb (bool_decide (is_Some (hass c))) || negb (bool_decide (is_Some (_config c)))
  || (negb (truthy_opt (_activeEntryId c))
      && _entriesLoaded c && (1 <? length (_entries c))%nat).

Section ServiceMethods.

(** How the host settles each service call. *)
Variable host : ServiceCall -> Settled unit.

(** [await this.hass.callService("visitor_parking", ...)]. *)
Definition callService (call : ServiceCall) : Method unit :=
  fun c l => (host call, c, (l ++ [Called call])%list).

Definition _deleteFavorite : Method unit :=
  (let* c := read (fun c => c) in
   if cannot_act c then ret tt
   else
     match _selectedFavoriteId c with
     | None => ret tt
     | Some favorite_id =>
         let* _ := assign (set_deletingFavorite true) in
         try_catch_finally
           (let* _ := callService (delete_favorite favorite_id (spread_entry c)) in
            let* _ := assign (set_favoriteDraft "") in
            let* _ := assign (set_updateFavorite false) in
            assign _syncFavoriteToggles)
           (_notify "new_reservation_card.could_not_remove_favorite")
           (assign (set_deletingFavorite false))
     end)%method.

Definition clear_draft (c : Card) : Card :=
  set_updateFavorite false
    (set_addToFavorites false
       (set_licensePlateDraft "" (set_nameDraft "" (set_favoriteDraft "" c)))).

(** The favourite follow-up of [_submit] after the reservation went
    through. *)
Definition favorite_follow_up (selectedFavoriteId : option string)
    (licensePlate : string) (shouldUpdateFavorite shouldAddFavorite : bool)
  : Method unit :=
  (let* c := read (fun c => c) in
   if shouldUpdateFavorite then
     if negb (truthy (trim (_nameDraft c))) then
       _notify "new_reservation_card.favorite_name_required_error"
     else
       let* _ := assign (set_updatingFavorite true) in
       try_catch_finally
         (callService (update_favorite selectedFavoriteId (trim (_nameDraft c))
                         licensePlate (spread_entry c)))
         (_notify "new_reservation_card.could_not_update_favorite")
         (assign (set_updatingFavorite false))
   else if shouldAddFavorite then
     if negb (truthy (trim (_nameDraft c))) then
       _notify "new_reservation_card.favorite_name_required_error"
     else
       try_catch_finally
         (callService (create_favorite (trim (_nameDraft c)) licensePlate
                         (spread_entry c)))
         (_notify "new_reservation_card.could_not_save_favorite")
         (ret tt)
   else ret tt)%method.

Definition _submit : Method unit :=
  (let* c := read (fun c => c) in
   if cannot_act c then ret tt
   else
     let licensePlate := trim (_licensePlateDraft c) in
     if negb (truthy licensePlate) then
       _notify "new_reservation_card.license_plate_required_error"
     else
       let selectedFavoriteId := _selectedFavoriteId c in
       let shouldUpdateFavorite :=
         truthy_opt selectedFavoriteId && _updateFavorite c
         && _canUpdateFavorite c && _selectedFavoriteChanged c in
       let shouldAddFavorite := _addToFavorites c && _showAddToFavorites c in
       let* _ := assign (set_submitting true) in
       try_catch_finally
         (let* _ := callService
                      (create_reservation licensePlate
                         (if truthy (trim (_nameDraft c))
                          then Some (trim (_nameDraft c)) else None)
                         (spread_entry c)) in
          let* _ := favorite_follow_up selectedFavoriteId licensePlate
                      shouldUpdateFavorite shouldAddFavorite in
          assign clear_draft)
         (_notify "new_reservation_card.could_not_submit")
         (assign (set_submitting false)))%method.

End ServiceMethods.

(** ** The element in its host: events and update cycles *)

(** The card together with what Lit has recorded for the next update
    cycle about the key ["_config"] (the value before the first assignment
    since the previous cycle). *)
Record Element : Type := {
  card : Card;
  changed_config : ChangedProps
}.

Definition new_element : Element := {| card := new_card; changed_config := None |}.

(** What reaches the element: the host assigns [hass] or calls [setConfig],
    Lit runs an update cycle at some clock reading, one of the awaited
    calls settles, or the user acts on a control.  The entry picker exists
    only while [showEntryPicker] holds and reports one of its options. *)
Inductive Event : Type :=
| HassSet (h : HomeAssistant)
| ConfigSet (config : CardConfig.t)
| Cycle (now : Z)
| EntriesSettled (outcome : Settled (list ConfigEntrySummary))
| RegistrySettled (outcome : Settled (list EntityRegistryEntry))
| LookupSettled (entryId : string) (listing : Settled (list ConfigEntrySummary))
| EntryPicked (value : string)
| FavoritePicked (value : string)
| NameTyped (value : string)
| PlateTyped (value : string).

(** The values the entry picker can report: the empty option or one of the
    listed entries. *)
Definition picker_offers (c : Card) (value : string) : bool :=
  (value =? "") || bool_decide (is_Some (find_entry (_entries c) value)).

Definition on_card (f : Card -> Card) (e : Element) : Element * list Request :=
  ({| card := f (card e); changed_config := changed_config e |}, []).

(** One event.  [setConfig] is taken to receive a fresh object, so Lit
    records the assignment; a cycle hands [updated] what was recorded and
    forgets it.  A lookup only starts with [callWS] present, hence the
    [true] given to [resolveIdFromConfigEntry] when it settles. *)
Definition step (ev : Event) (e : Element) : Element * list Request :=
  match ev with
  | HassSet h => on_card (set_hass (Some h)) e
  | ConfigSet config =>
      ({| card := setConfig config (card e);
          changed_config :=
            match changed_config e with
            | Some previous => Some previous
            | None => Some (_config (card e))
            end |}, [])
  | Cycle now =>
      let '(c, requests) := updated (changed_config e) now (card e) in
      ({| card := c; changed_config := None |}, requests)
  | EntriesSettled outcome => on_card (_loadEntries_settled outcome) e
  | RegistrySettled outcome => on_card (_loadEntityRegistry_settled outcome) e
  | LookupSettled entryId listing =>
      on_card (_resolveIdFromConfigEntry_settled entryId
                 (resolveIdFromConfigEntry true listing entryId)) e
  | EntryPicked value =>
      if showEntryPicker (card e) && picker_offers (card e) value
      then on_card (_entryChanged value) e
      else (e, [])
  | FavoritePicked value => on_card (_selectFavorite value) e
  | NameTyped value => on_card (name_input value) e
  | PlateTyped value => on_card (license_plate_input value) e
  end.

(** A resolution attempt: the account and the clock reading it was started
    at. *)
Definition Attempt : Type := (string * Z)%type.

Definition attempts_in (ev : Event) (requests : list Request) : list Attempt :=
  match ev with
  | Cycle now =>
      omap (fun r => match r with
                     | ResolveId entryId => Some (entryId, now)
                     | _ => None
                     end) requests
  | _ => []
  end.

Arguments attempts_in : simpl never.

(** Running a sequence of events: the final element and the attempts
    started on the way, oldest first. *)
Fixpoint run (events : list Event) (e : Element) : Element * list Attempt :=
  match events with
  | [] => (e, [])
  | ev :: rest =>
      let '(e1, requests) := step ev e in
      let '(e2, later) := run rest e1 in
      (e2, (attempts_in ev requests ++ later)%list)
  end.

(** * Specification terms and sample data *)

(** ** Sample cards *)

Definition sample_config (pin favorites : option string) : CardConfig.t :=
  {| CardConfig.type := "custom:visitor-parking-new-reservation-card";
     CardConfig.title := None;
     CardConfig.config_entry_id := pin;
     CardConfig.favorites_entity := favorites |}.

(** A host whose entity [sensor.favorites] carries the given favourites. *)
Definition sample_host (favorites : list Favorite.t) : HomeAssistant :=
  {| states := {[ "sensor.favorites" :=
                    {| state := "1"; attributes_favorites := Some favorites |} ]};
     callWS := true;
     user_is_admin := Some true |}.

(** A card that reads its favourites from [sensor.favorites] and holds the
    given selection and draft. *)
Definition sample_card (favorites : list Favorite.t)
    (selection name plate : string) : Card :=
  set_licensePlateDraft plate
    (set_nameDraft name
       (set_favoriteDraft selection
          (set_config (Some (sample_config None (Some "sensor.favorites")))
             (set_hass (Some (sample_host favorites)) new_card)))).

Definition favorite (i : option Favorite.Id) (n p : string) : Favorite.t :=
  {| Favorite.id := i; Favorite.name := Some n; Favorite.license_plate := Some p |}.

Definition mom : Favorite.t := favorite (Some (Favorite.IdNumber 1)) "Mom" "AB-12-CD".

(** ** Favourite matcher: terms and samples *)

(** [i] is the smallest position of [favorites] whose favourite has the
    normalised name and plate of the draft. *)
Definition first_match (favorites : list Favorite.t) (name plate : string)
    (i : nat) : Prop :=
  (exists f, favorites !! i = Some f /\ _favoriteMatchesDraft f name plate = true)
  /\ forall j f, j < i -> favorites !! j = Some f ->
                 _favoriteMatchesDraft f name plate = false.

(** The draft tests of the source, [!name.trim() || !plate.trim()]. *)
Definition blank (s : string) : Prop := trim s = "".

(** A favourite that has a plate but no name, as [_favoriteLabel]
    provides for. *)
Definition plate_only : Favorite.t :=
  {| Favorite.id := Some (Favorite.IdNumber 7);
     Favorite.name := None;
     Favorite.license_plate := Some "AB-12-CD" |}.

(** C7 as the specification words it: nothing for an empty field,
    otherwise the first match. *)
Definition first_match_unless_empty (c : Card) (name plate : string) : Prop :=
  (name = "" \/ plate = "" -> _findFavoriteIndexByDraft c name plate = None)
  /\ (name <> "" -> plate <> "" ->
      forall i, first_match (_favorites c) name plate i ->
                _findFavoriteIndexByDraft c name plate = Some i).

Definition mom_again : Favorite.t :=
  favorite (Some (Favorite.IdNumber 2)) " MOM" "ab 12 cd".

(** C9 as the specification words it: the favourite at any position,
    matched on its own name and plate, comes back at that position. *)
Definition matching_reflexive (c : Card) : Prop :=
  forall i f, _favorites c !! i = Some f ->
    _findFavoriteIndexByDraft c (or_empty (Favorite.name f))
      (or_empty (Favorite.license_plate f)) = Some i.

(** ** Reconciliation flags: terms and samples *)

(** The selected favourite carries an identifier the delete service can
    use: a number, or a string that is not blank. *)
Definition usable_id (f : Favorite.t) : Prop :=
  match Favorite.id f with
  | Some (Favorite.IdNumber _) => True
  | Some (Favorite.IdString s) => ~ blank s
  | None => False
  end.

Definition mom_without_id : Favorite.t := favorite None "Mom" "AB-12-CD".

(** C2 as the specification words it: [hasSelection] alone decides,
    together with the two other flags. *)
Definition delete_shown_for_selection (c : Card) : Prop :=
  showDeleteFavorite c = true
  <-> is_Some (_selectedFavorite c)
      /\ _offerUpdateFavorite c = false
      /\ _showAddToFavorites c = false.

(** The draft has the normalised name and plate of a favourite at a
    position other than the selected one. *)
Definition matches_other (c : Card) : Prop :=
  exists q j f,
    _selectedFavoriteIndex c = Some q
    /\ ~ (number_of_nat j == q)%Q
    /\ _favorites c !! j = Some f
    /\ _favoriteMatchesDraft f (_nameDraft c) (_licensePlateDraft c) = true.

(** C3 as the specification words it: non-empty fields. *)
Definition update_enabled_for_nonempty (c : Card) : Prop :=
  _canUpdateFavorite c = true
  <-> _offerUpdateFavorite c = true
      /\ _nameDraft c <> ""
      /\ _licensePlateDraft c <> ""
      /\ ~ matches_other c.

(** ** Out-of-range selections: terms and samples *)

(** Everything the card derives from the selection and the draft. *)
Record Derived : Type := {
  selectedIndex : option Q;
  selectedFavorite : option Favorite.t;
  selectedFavoriteId : option string;
  selectedChanged : bool;
  selectedChangedBoth : bool;
  showAdd : bool;
  showUpdate : bool;
  updateEnabled : bool;
  showDelete : bool
}.

Definition derived (c : Card) : Derived :=
  {| selectedIndex := _selectedFavoriteIndex c;
     selectedFavorite := _selectedFavorite c;
     selectedFavoriteId := _selectedFavoriteId c;
     selectedChanged := _selectedFavoriteChanged c;
     selectedChangedBoth := _selectedFavoriteChangedBoth c;
     showAdd := _showAddToFavorites c;
     showUpdate := _offerUpdateFavorite c;
     updateEnabled := _canUpdateFavorite c;
     showDelete := showDeleteFavorite c |}.

(** The selection text is a number that is negative, at least the number
    of favourites, or not a number at all. *)
Definition out_of_range (c : Card) : Prop :=
  match Number (_favoriteDraft c) with
  | JFin index =>
      (index < 0)%Q \/ (number_of_nat (length (_favorites c)) <= index)%Q
  | JInf _ => True
  | JNaN => True
  end.

(** ** Identifier of an account: terms and samples *)

Definition not_open (c : ascii) : bool := negb (c =? "(")%char.
Definition not_close (c : ascii) : bool := negb (c =? ")")%char.




Definition account_none : ConfigEntrySummary :=
  {| entry_id := "01HXYZ"; title := "Den Haag (12345)"; unique_id := Some "None" |}.

(** ** Failed service calls: terms and samples *)

(** The local draft: selection, name, plate and the two toggles. *)
Definition draft (c : Card) : string * string * string * bool * bool :=
  (_favoriteDraft c, _nameDraft c, _licensePlateDraft c,
   _addToFavorites c, _updateFavorite c).

Definition empty_draft : string * string * string * bool * bool :=
  ("", "", "", false, false).

Definition ran {A : Type} (result : Settled A * Card * list Output) : Card :=
  snd (fst result).

Definition logged {A : Type} (result : Settled A * Card * list Output) : list Output :=
  snd result.

(** What the card does about a rejected call: the notification it emits
    and the draft it is left with. *)
Definition failure_handled (before : Card) (result : Settled unit * Card * list Output)
    (call : ServiceCall) : Prop :=
  match call with
  | create_reservation _ _ _ =>
      In (Notified "new_reservation_card.could_not_submit") (logged result)
      /\ draft (ran result) = draft before
  | delete_favorite _ _ =>
      In (Notified "new_reservation_card.could_not_remove_favorite") (logged result)
      /\ draft (ran result) = draft before
  | update_favorite _ _ _ _ =>
      In (Notified "new_reservation_card.could_not_update_favorite") (logged result)
      /\ draft (ran result) = empty_draft
  | create_favorite _ _ _ =>
      In (Notified "new_reservation_card.could_not_save_favorite") (logged result)
      /\ draft (ran result) = empty_draft
  end.

(** A host that rejects whatever touches a favourite and accepts
    reservations. *)
Definition favorites_down (call : ServiceCall) : Settled unit :=
  match call with
  | create_reservation _ _ _ => Fulfilled tt
  | _ => Rejected
  end.

Definition editing_mom : Card :=
  set_updateFavorite true (sample_card [mom] "0" "Mom" "XY-99-ZZ").

(** C10 as the specification words it: any rejected call leaves a
    notification and the draft untouched. *)
Definition failure_keeps_draft (host : ServiceCall -> Settled unit) (before : Card)
    (result : Settled unit * Card * list Output) : Prop :=
  forall call, In (Called call) (logged result) -> host call = Rejected ->
    (exists key, In (Notified key) (logged result))
    /\ draft (ran result) = draft before.

(** ** Changing the account: terms and samples *)

(** The record of the last resolution attempt, when complete. *)
Definition last_attempt (c : Card) : option Attempt :=
  match _lastResolveEntryId c, _lastResolveAttempt c with
  | Some entryId, Some at_ => Some (entryId, at_)
  | _, _ => None
  end.

Definition account_a : ConfigEntrySummary :=
  {| entry_id := "entry-a"; title := "Den Haag"; unique_id := Some "1001" |}.

Definition account_b : ConfigEntrySummary :=
  {| entry_id := "entry-b"; title := "Delft"; unique_id := Some "2002" |}.

Definition dad : Favorite.t := favorite (Some (Favorite.IdNumber 5)) "Dad" "AB-12-CD".

(** A host with the favourites of both accounts: Mom for the first, Dad
    for the second. *)
Definition two_account_host : HomeAssistant :=
  {| states :=
       <[ "sensor.visitor_parking_1001_favorites" :=
            {| state := "1"; attributes_favorites := Some [mom] |} ]>
         {[ "sensor.visitor_parking_2002_favorites" :=
              {| state := "1"; attributes_favorites := Some [dad] |} ]};
     callWS := true;
     user_is_admin := Some true |}.

(** The card is configured for the first account, the account list
    arrives, and the user picks the first favourite. *)
Definition first_account_in_use : list Event :=
  [ HassSet two_account_host;
    ConfigSet (sample_config (Some "entry-a") None);
    Cycle 0;
    EntriesSettled (Fulfilled [account_a; account_b]);
    RegistrySettled (Fulfilled []);
    LookupSettled "entry-a" (Fulfilled [account_a; account_b]);
    Cycle 10;
    FavoritePicked "0" ].

(** Then the configuration is replaced by one for the second account. *)
Definition switch_to_second_account : list Event :=
  [ ConfigSet (sample_config (Some "entry-b") None); Cycle 20 ].

Definition card_after (events : list Event) : Card :=
  card (fst (run events new_element)).

(** ** Retry cool-down: terms and samples *)

(** Attempts are spaced when each one made for the same account as the
    attempt before it comes more than the cool-down later. *)
Fixpoint spaced (previous : option Attempt) (attempts : list Attempt) : Prop :=
  match attempts with
  | [] => True
  | (entryId, at_) :: rest =>
      (forall at0, previous = Some (entryId, at0) -> (COOLDOWN_MS < at_ - at0)%Z)
      /\ spaced (Some (entryId, at_)) rest
  end.

(** The account an update cycle works for. *)
Definition cycle_entry (c : Card) : option string :=
  match hass c with
  | Some h => _activeEntryId (fst (load_step h c))
  | None => None
  end.

(** Events on which the card resets its resolver state: a cycle for which
    [entryIdChanged] holds, a pick in the entry picker, and an account
    list that triggers the automatic selection. *)
Definition resets (ev : Event) (e : Element) : bool :=
  match ev with
  | Cycle _ =>
      match cycle_entry (card e) with
      | Some entryId => entryIdChanged (changed_config e) entryId
      | None => false
      end
  | EntryPicked value => showEntryPicker (card e) && picker_offers (card e) value
  | EntriesSettled outcome =>
      negb (truthy_opt (pinned_entry_id (card e)))
      && negb (truthy_opt (_selectedEntryId (card e)))
      && (length (match outcome with
                  | Fulfilled entries => entries
                  | Rejected => []
                  end) =? 1)%nat
  | _ => false
  end.

(** No event of the sequence, run from [e], is a reset. *)
Fixpoint quiet (events : list Event) (e : Element) : Prop :=
  match events with
  | [] => True
  | ev :: rest => resets ev e = false /\ quiet rest (fst (step ev e))
  end.

(** What one cycle does to the attempt record when it is not a reset:
    either it starts nothing and keeps the record, or it starts one
    attempt, records it, and the attempt respects the cool-down. *)
Definition cycle_outcome (now : Z) (before : Card) (result : Card * list Request)
  : Prop :=
  (attempts_in (Cycle now) (snd result) = []
   /\ last_attempt (fst result) = last_attempt before)
  \/ (exists entryId,
        attempts_in (Cycle now) (snd result) = [(entryId, now)]
        /\ last_attempt (fst result) = Some (entryId, now)
        /\ forall at0, last_attempt before = Some (entryId, at0) ->
                       (COOLDOWN_MS < now - at0)%Z).

(** A host for an administrator, with no entity. *)
Definition admin_host : HomeAssistant :=
  {| states := ∅; callWS := true; user_is_admin := Some true |}.

(** The card is configured for an account that the host does not list;
    the first cycle starts a lookup at 1000. *)
Definition unknown_account_pinned : list Event :=
  [ HassSet admin_host; ConfigSet (sample_config (Some "entry-x") None); Cycle 1000 ].

(** The lookup fails; cycles follow at 11000 and at 32000. *)
Definition failed_then_waiting : list Event :=
  [ LookupSettled "entry-x" (Fulfilled []); Cycle 11000; Cycle 32000 ].

(** [entryId] is the active account before each event of the run and
    after the last. *)
Fixpoint stays (entryId : string) (events : list Event) (e : Element) : Prop :=
  _activeEntryId (card e) = Some entryId
  /\ match events with
     | [] => True
     | ev :: rest => stays entryId rest (fst (step ev e))
     end.

(** The first half of C4 as the specification words it: while the active
    account stays the same, no attempt for it starts within the cool-down
    of the last one. *)
Definition cooldown_while_account_stays : Prop :=
  forall e events entryId at0 at1,
    last_attempt (card e) = Some (entryId, at0) ->
    stays entryId events e ->
    In (entryId, at1) (snd (run events e)) ->
    (COOLDOWN_MS < at1 - at0)%Z.

(** A configuration that pins nothing and carries a card title. *)
Definition titled_config (t : string) : CardConfig.t :=
  {| CardConfig.type := "custom:visitor-parking-new-reservation-card";
     CardConfig.title := Some t;
     CardConfig.config_entry_id := None;
     CardConfig.favorites_entity := None |}.

(** Nothing is pinned.  Two loads of the account list are started by
    successive cycles; the first lists one account, which is selected
    automatically and identified from the list; the second fails and
    empties the list.  The card title is then edited, and the cycle at 1000
    looks the selected account up. *)
Definition selected_account_unlisted : list Event :=
  [ HassSet admin_host; ConfigSet (sample_config None None); Cycle 0;
    HassSet admin_host; Cycle 1;
    EntriesSettled (Fulfilled [account_a]); Cycle 2;
    EntriesSettled Rejected; Cycle 3;
    ConfigSet (titled_config "Visitors"); Cycle 1000 ].

(** The lookup fails, the title is edited again, and a cycle follows at
    2000. *)
Definition configuration_replaced : list Event :=
  [ LookupSettled "entry-a" Rejected; Cycle 1001;
    ConfigSet (titled_config "Guests"); Cycle 2000 ].

(** The second half as worded: once the active account has changed, the
    next cycle that has to look the new account up starts the lookup. *)
Definition restart_on_change : Prop :=
  forall e config now a b h,
    _activeEntryId (card e) = Some a ->
    _activeEntryId (card (fst (step (ConfigSet config) e))) = Some b ->
    a <> b ->
    hass (card e) = Some h -> is_admin h = true -> callWS h = true ->
    blank (or_empty (CardConfig.favorites_entity config)) ->
    find_entry (_entries (card e)) b = None ->
    snd (run [ConfigSet config; Cycle now] e) = [(b, now)].

(** * Further terms: strings and slugs *)

(** The first and the last character of a string satisfy [p]. *)
Definition head_is (p : ascii -> bool) (s : string) : bool :=
  match s with
  | EmptyString => false
  | String c _ => p c
  end.

Fixpoint last_is (p : ascii -> bool) (s : string) : bool :=
  match s with
  | EmptyString => false
  | String c EmptyString => p c
  | String _ r => last_is p r
  end.

(** Two characters in a row satisfy [p]. *)
Fixpoint has_pair (p : ascii -> bool) (s : string) : bool :=
  match s with
  | EmptyString => false
  | String c r => (p c && head_is p r) || has_pair p r
  end.

Definition is_slug_or_underscore (c : ascii) : bool :=
  is_slug_char c || is_underscore c.

(** The form of a slug: lower-case letters, digits and single underscores
    between them. *)
Definition slug_shaped (s : string) : Prop :=
  all_chars is_slug_or_underscore s = true
  /\ head_is is_underscore s = false
  /\ last_is is_underscore s = false
  /\ has_pair is_underscore s = false.

Definition not_space (c : ascii) : bool := negb (is_space c).

Definition is_alnum (c : ascii) : bool := is_upper c || is_lower c || is_digit c.

(** * Further terms: draft editing *)

(** A toggle is on only while its action is available. *)
Definition toggles_consistent (c : Card) : Prop :=
  (_addToFavorites c = true -> _showAddToFavorites c = true)
  /\ (_updateFavorite c = true -> _canUpdateFavorite c = true).

(** ** Service calls: terms *)

(** The service requests of a log, in order. *)
Definition calls (l : list Output) : list ServiceCall :=
  flat_map (fun o => match o with Called call => [call] | Notified _ => [] end) l.


(** Text that is not empty and carries no blank at either end. *)
Definition usable_text (s : string) : Prop := s <> "" /\ trim s = s.

(** A request whose fields the integration can use: plate and favourite
    name are usable text, a reservation's optional name is usable when
    present, the favourite is designated, and an account, when sent, is
    not the empty string. *)
Definition well_formed (call : ServiceCall) : Prop :=
  let account_ok (e : option string) := e <> Some "" in
  match call with
  | create_reservation license_plate name e =>
      usable_text license_plate /\ name <> Some ""
      /\ (forall n, name = Some n -> trim n = n) /\ account_ok e
  | create_favorite name license_plate e =>
      usable_text name /\ usable_text license_plate /\ account_ok e
  | update_favorite favorite_id name license_plate e =>
      (exists i, favorite_id = Some i /\ i <> "")
      /\ usable_text name /\ usable_text license_plate /\ account_ok e
  | delete_favorite favorite_id e => favorite_id <> "" /\ account_ok e
  end.

(** The reservation request [_submit] builds from the card. *)
Definition reservation_of (c : Card) : ServiceCall :=
  create_reservation (trim (_licensePlateDraft c))
    (if truthy (trim (_nameDraft c)) then Some (trim (_nameDraft c)) else None)
    (spread_entry c).

(** The sequences of requests one [_submit] can make: none; the
    reservation alone; or the reservation, accepted by the host, followed
    by one request on a favourite, an update when the update toggle is on
    and enabled, a creation when the add toggle is on and offered. *)
Definition submit_sequence (host : ServiceCall -> Settled unit) (c : Card)
    (requests : list ServiceCall) : Prop :=
  match requests with
  | [] => cannot_act c = true \/ blank (_licensePlateDraft c)
  | [reservation] => reservation = reservation_of c
  | [reservation; update_favorite _ _ _ _] =>
      reservation = reservation_of c /\ host reservation = Fulfilled tt
      /\ _updateFavorite c = true /\ _canUpdateFavorite c = true
  | [reservation; create_favorite _ _ _] =>
      reservation = reservation_of c /\ host reservation = Fulfilled tt
      /\ _addToFavorites c = true /\ _showAddToFavorites c = true
  | _ => False
  end.

(** The card after a [_submit] that got its reservation accepted; [busy]
    tells whether an update of the favourite was attempted on the way. *)
Definition submitted (busy : bool) (c : Card) : Card :=
  set_submitting false
    (clear_draft
       (if busy
        then set_updatingFavorite false (set_updatingFavorite true (set_submitting true c))
        else set_submitting true c)).

(** The notification that answers a rejected request. *)
Definition answer (host : ServiceCall -> Settled unit) (call : ServiceCall)
    (key : string) : list Output :=
  match host call with
  | Fulfilled _ => []
  | Rejected => [Notified key]
  end.

(** The ways a [_submit] can go, each with the state and the log it ends
    with. *)
Inductive SubmitRun (host : ServiceCall -> Settled unit) (c : Card)
  : Card -> list Output -> Prop :=
| submit_guarded :
    cannot_act c = true -> SubmitRun host c c []
| submit_no_plate :
    cannot_act c = false -> truthy (trim (_licensePlateDraft c)) = false ->
    SubmitRun host c c [Notified "new_reservation_card.license_plate_required_error"]
| submit_refused :
    cannot_act c = false -> truthy (trim (_licensePlateDraft c)) = true ->
    host (reservation_of c) = Rejected ->
    SubmitRun host c (set_submitting false (set_submitting true c))
      [Called (reservation_of c); Notified "new_reservation_card.could_not_submit"]
| submit_and_update (i : string) :
    cannot_act c = false -> truthy (trim (_licensePlateDraft c)) = true ->
    host (reservation_of c) = Fulfilled tt ->
    _selectedFavoriteId c = Some i ->
    _updateFavorite c = true -> _canUpdateFavorite c = true ->
    SubmitRun host c (submitted true c)
      (Called (reservation_of c)
       :: Called (update_favorite (Some i) (trim (_nameDraft c))
                    (trim (_licensePlateDraft c)) (spread_entry c))
       :: answer host
            (update_favorite (Some i) (trim (_nameDraft c))
               (trim (_licensePlateDraft c)) (spread_entry c))
            "new_reservation_card.could_not_update_favorite")
| submit_and_add :
    cannot_act c = false -> truthy (trim (_licensePlateDraft c)) = true ->
    host (reservation_of c) = Fulfilled tt ->
    _addToFavorites c = true -> _showAddToFavorites c = true ->
    SubmitRun host c (submitted false c)
      (Called (reservation_of c)
       :: Called (create_favorite (trim (_nameDraft c))
                    (trim (_licensePlateDraft c)) (spread_entry c))
       :: answer host
            (create_favorite (trim (_nameDraft c))
               (trim (_licensePlateDraft c)) (spread_entry c))
            "new_reservation_card.could_not_save_favorite")
| submit_only :
    cannot_act c = false -> truthy (trim (_licensePlateDraft c)) = true ->
    host (reservation_of c) = Fulfilled tt ->
    SubmitRun host c (submitted false c) [Called (reservation_of c)].

(** The host took the reservation that [_submit] builds from the card. *)
Definition accepted (host : ServiceCall -> Settled unit) (c : Card) : Prop :=
  cannot_act c = false /\ ~ blank (_licensePlateDraft c)
  /\ host (reservation_of c) = Fulfilled tt.

(** The card offers no action on a favourite and has none selected. *)
Definition nothing_offered (c : Card) : Prop :=
  _selectedFavorite c = None /\ _showAddToFavorites c = false
  /\ _offerUpdateFavorite c = false /\ showDeleteFavorite c = false.

(** A host that accepts every request. *)
Definition obliging : ServiceCall -> Settled unit := fun _ => Fulfilled tt.

(** A host that rejects every request. *)
Definition unwilling : ServiceCall -> Settled unit := fun _ => Rejected.

(** How a method ended. *)
Definition outcome {A : Type} (result : Settled A * Card * list Output) : Settled A :=
  fst (fst result).


(** ** What [render] disables *)

(** [entryLocked] of [render]: the picker is shown and no account is
    chosen. *)
Definition entryLocked (c : Card) : bool :=
  showEntryPicker c && negb (truthy_opt (_activeEntryId c)).

(** The [disabled] property of the submit button. *)
Definition submit_disabled (c : Card) : bool :=
  entryLocked c || _busy c || negb (truthy (trim (_licensePlateDraft c))).

(** The [disabled] property of the delete button; the button exists only
    while [showDeleteFavorite] holds. *)
Definition delete_disabled (c : Card) : bool := entryLocked c || _busy c.

(** [render] draws the card. *)
Definition rendered (c : Card) : Prop := is_Some (hass c) /\ is_Some (_config c).

(** ** The update cycle: terms *)

(** The user may use the configuration websocket: an administrator on a
    host that provides [callWS]. *)
Definition privileged (h : HomeAssistant) : bool := is_admin h && callWS h.

(** A user who is not an administrator. *)
Definition guest_host (favorites : list Favorite.t) : HomeAssistant :=
  {| states := states (sample_host favorites);
     callWS := true;
     user_is_admin := Some false |}.

(** ** The options of the favourites list *)

(** The value of a run of decimal digits read after [acc]. *)
Fixpoint decimal_value (d : Decimal.uint) (acc : Z) : Z :=
  match d with
  | Decimal.Nil => acc
  | Decimal.D0 l => decimal_value l (acc * 10 + 0)
  | Decimal.D1 l => decimal_value l (acc * 10 + 1)
  | Decimal.D2 l => decimal_value l (acc * 10 + 2)
  | Decimal.D3 l => decimal_value l (acc * 10 + 3)
  | Decimal.D4 l => decimal_value l (acc * 10 + 4)
  | Decimal.D5 l => decimal_value l (acc * 10 + 5)
  | Decimal.D6 l => decimal_value l (acc * 10 + 6)
  | Decimal.D7 l => decimal_value l (acc * 10 + 7)
  | Decimal.D8 l => decimal_value l (acc * 10 + 8)
  | Decimal.D9 l => decimal_value l (acc * 10 + 9)
  end%Z.

(** [String(index)], the value [render] gives the option of the favourite
    at position [index]. *)
Definition option_value (index : nat) : string :=
  String_of_integer (Z.of_nat index).

(** * The editor of the new-reservation card *)

Module ConfigEntryFragment.
Record t : Type := {
  entry_id : string;
  domain : string;
  title : string;
  unique_id : option string
}.
End ConfigEntryFragment.

Module Editor.

(** The fields of [VisitorParkingNewReservationCardEditor]. *)
Record State : Type := {
  hass : option HomeAssistant;
  _config : option CardConfig.t;
  _entries : list ConfigEntryFragment.t;
  _entriesLoaded : bool
}.

Definition new_editor : State :=
  {| hass := None; _config := None; _entries := []; _entriesLoaded := false |}.

Definition set_hass (v : option HomeAssistant) (ed : State) : State :=
  {| hass := v; _config := _config ed; _entries := _entries ed;
     _entriesLoaded := _entriesLoaded ed |}.

Definition set_config (v : option CardConfig.t) (ed : State) : State :=
  {| hass := hass ed; _config := v; _entries := _entries ed;
     _entriesLoaded := _entriesLoaded ed |}.

Definition set_entries (v : list ConfigEntryFragment.t) (ed : State) : State :=
  {| hass := hass ed; _config := _config ed; _entries := v;
     _entriesLoaded := _entriesLoaded ed |}.

Definition set_entriesLoaded (v : bool) (ed : State) : State :=
  {| hass := hass ed; _config := _config ed; _entries := _entries ed;
     _entriesLoaded := v |}.

(** [this._entries.find((e) => e.entry_id === entryId)], for a truthy
    [entryId]. *)
Definition find_fragment (entries : list ConfigEntryFragment.t)
    (entryId : option string) : option ConfigEntryFragment.t :=
  match entryId with
  | Some e =>
      if truthy e
      then find (fun x => ConfigEntryFragment.entry_id x =? e) entries
      else None
  | None => None
  end.

(** The [identifier] of [_applyEntry]. *)
Definition identifier_of (entry : option ConfigEntryFragment.t) : option string :=
  match entry with
  | Some en =>
      let uniqueId :=
        match ConfigEntryFragment.unique_id en with
        | Some u => trim u
        | None => ""
        end in
      if truthy uniqueId && negb (toLowerCase uniqueId =? "none") then Some uniqueId
      else parseIdFromTitle (ConfigEntryFragment.title en)
  | None => None
  end.

(** The [preferredFavorites] of [_applyEntry]. *)
Definition preferredFavorites (entries : list ConfigEntryFragment.t)
    (entryId : option string) : option string :=
  let identifier := identifier_of (find_fragment entries entryId) in
  let slug := if truthy_opt identifier then slugifyId <$> identifier else None in
  if truthy_opt slug
  then (fun s => "sensor.visitor_parking_" ++ s ++ "_favorites") <$> slug
  else None.

(** A method of the editor returns the new state and the configurations
    it announced with [config-changed], in order. *)
Definition _applyEntry (entryId : option string) (ed : State)
  : State * list CardConfig.t :=
  match _config ed with
  | None => (ed, [])
  | Some cfg =>
      let config :=
        {| CardConfig.type := CardConfig.type cfg;
           CardConfig.title := CardConfig.title cfg;
           CardConfig.config_entry_id := entryId;
           CardConfig.favorites_entity := preferredFavorites (_entries ed) entryId |} in
      (set_config (Some config) ed, [config])
  end.

Definition _selectDefaultEntryIfNeeded (ed : State) : State * list CardConfig.t :=
  match _config ed with
  | None => (ed, [])
  | Some cfg =>
      if negb (_entriesLoaded ed) || (length (_entries ed) =? 0)%nat then (ed, [])
      else if truthy_opt (CardConfig.config_entry_id cfg) then
        if negb (truthy_opt (CardConfig.favorites_entity cfg))
        then _applyEntry (CardConfig.config_entry_id cfg) ed
        else (ed, [])
      else if negb (length (_entries ed) =? 1)%nat then (ed, [])
      else _applyEntry (ConfigEntryFragment.entry_id <$> head (_entries ed)) ed
  end.

Definition setConfig (config : CardConfig.t) (ed : State)
  : State * list CardConfig.t :=
  _selectDefaultEntryIfNeeded (set_config (Some config) ed).

(** [updated]: [hass_changed] is [changedProps.has("hass")]; the boolean
    returned tells whether [_loadEntries] was started. *)
Definition updated (hass_changed : bool) (ed : State) : State * bool :=
  match hass ed with
  | None => (ed, false)
  | Some h =>
      if _entriesLoaded ed then (ed, false)
      else if hass_changed then
        if negb (is_admin h) then (set_entriesLoaded true ed, false)
        else (ed, true)
      else (ed, false)
  end.

(** [_loadEntries] from the point [callWS] has settled. *)
Definition _loadEntries_settled (outcome : Settled (list ConfigEntryFragment.t))
    (ed : State) : State * list CardConfig.t :=
  let ed := set_entries (match outcome with
                         | Fulfilled entries => entries
                         | Rejected => []
                         end) ed in
  _selectDefaultEntryIfNeeded (set_entriesLoaded true ed).

(** [(ev.target as HTMLSelectElement).value || undefined]. *)
Definition _entryChanged (value : string) (ed : State) : State * list CardConfig.t :=
  _applyEntry (if truthy value then Some value else None) ed.

End Editor.

(** ** Editor and card side by side *)

(** What the card keeps of an entry of [config_entries/get]. *)
Definition summary (en : ConfigEntryFragment.t) : ConfigEntrySummary :=
  {| entry_id := ConfigEntryFragment.entry_id en;
     title := ConfigEntryFragment.title en;
     unique_id := ConfigEntryFragment.unique_id en |}.

(** The name of a favourites entity built from a slug. *)
Definition favorites_entity_name (slug : string) : string :=
  "sensor.visitor_parking_" ++ slug ++ "_favorites".

(** An editor that has loaded two accounts, and one that has loaded a
    single account. *)
Definition fragment_of (entry : ConfigEntrySummary) : ConfigEntryFragment.t :=
  {| ConfigEntryFragment.entry_id := entry_id entry;
     ConfigEntryFragment.domain := "visitor_parking";
     ConfigEntryFragment.title := title entry;
     ConfigEntryFragment.unique_id := unique_id entry |}.

Definition loaded_editor (entries : list ConfigEntrySummary) : Editor.State :=
  {| Editor.hass := Some admin_host;
     Editor._config := None;
     Editor._entries := map fragment_of entries;
     Editor._entriesLoaded := true |}.

(** * The active-reservation card *)

Module ActiveCard.

Record Config : Type := {
  type : string;
  entity : option string;
  title : option string;
  config_entry_id : option string
}.

(** The part of [hass] that the methods below read. *)
Record Host : Type := {
  callWS : bool;
  user_is_admin : option bool
}.

(** A reservation as [render] sees it: the identifier the sensor gives
    it, and the account [_reservations] attached to it. *)
Record Reservation : Type := {
  id : option Favorite.Id;
  entryId : option string
}.

(** The fields of [VisitorParkingCard] that the methods below use. *)
Record State : Type := {
  hass : option Host;
  _config : option Config;
  _endingReservationIds : gset string;
  _entries : list ConfigEntrySummary;
  _entriesLoaded : bool
}.

Definition set_endingReservationIds (v : gset string) (st : State) : State :=
  {| hass := hass st; _config := _config st; _endingReservationIds := v;
     _entries := _entries st; _entriesLoaded := _entriesLoaded st |}.

(** [delete_reservation] with its [reservation_id] and, when sent, its
    [config_entry_id]. *)
Inductive Request : Type :=
| delete_reservation (reservation_id : string) (config_entry_id : option string).

Definition _reservationsEntityId (st : State) : option string :=
  match _config st with
  | None => None
  | Some cfg =>
      let override := trim (or_empty (entity cfg)) in
      if truthy override then Some override else None
  end.

(** [_reservationId]; [null] is [None]. *)
Definition _reservationId (value : option Favorite.Id) : option string :=
  match value with
  | Some (Favorite.IdNumber n) => Some (String_of_integer n)
  | Some (Favorite.IdString s) =>
      let trimmed := trim s in
      if truthy trimmed then Some trimmed else None
  | None => None
  end.

(** The guard at the head of [_endReservation]. *)
Definition refuses (entryId : option string) (st : State) : bool :=
  negb (bool_decide (is_Some (hass st))) || negb (bool_decide (is_Some (_config st)))
  || (negb (truthy_opt entryId) && _entriesLoaded st && (1 <? length (_entries st))%nat).

(** [_endReservation] up to its [await]: the state while the call is in
    flight and the request made. *)
Definition _endReservation_begin (reservationId : string) (entryId : option string)
    (st : State) : State * list Request :=
  if refuses entryId st then (st, [])
  else
    (set_endingReservationIds ({[ reservationId ]} ∪ _endingReservationIds st) st,
     [delete_reservation reservationId
        (if truthy_opt entryId then entryId else None)]).

(** The [finally] block. *)
Definition _endReservation_finally (reservationId : string) (st : State) : State :=
  set_endingReservationIds (_endingReservationIds st ∖ {[ reservationId ]}) st.

(** [_endReservation]: how the returned promise settles, the state it
    leaves and the requests made.  There is no [catch]: a rejected call
    rejects the promise. *)
Definition _endReservation (host : Request -> Settled unit) (reservationId : string)
    (entryId : option string) (st : State) : Settled unit * State * list Request :=
  match _endReservation_begin reservationId entryId st with
  | (st1, [call]) => (host call, _endReservation_finally reservationId st1, [call])
  | (st1, _) => (Fulfilled tt, st1, [])
  end.

(** [render], one row.  [aggregated] is false when the card shows the
    configured entity and true when it shows every account. *)
Definition aggregated (st : State) : bool :=
  negb (bool_decide (is_Some (_reservationsEntityId st))).

Definition allowEndWithoutEntry (st : State) : bool :=
  _entriesLoaded st && (length (_entries st) <=? 1)%nat.

Definition canEnd (st : State) (r : Reservation) : bool :=
  if aggregated st
  then bool_decide (is_Some (_reservationId (id r)))
       && (allowEndWithoutEntry st || truthy_opt (entryId r))
  else bool_decide (is_Some (_reservationId (id r))).

Definition ending (st : State) (r : Reservation) : bool :=
  match _reservationId (id r) with
  | Some i => bool_decide (i ∈ _endingReservationIds st)
  | None => false
  end.

(** The [disabled] property of the End button of the row. *)
Definition end_disabled (st : State) (r : Reservation) : bool :=
  negb (canEnd st r) || ending st r.

(** The [@click] handler of the End button of the row. *)
Definition end_clicked (host : Request -> Settled unit) (r : Reservation)
    (st : State) : Settled unit * State * list Request :=
  match _reservationId (id r) with
  | Some i =>
      _endReservation host i (if aggregated st then entryId r else None) st
  | None => (Fulfilled tt, st, [])
  end.

End ActiveCard.

(** An active-reservation card of an administrator that has loaded the
    given accounts and shows the given entity. *)
Definition active_card (shown : option string) (entries : list ConfigEntrySummary)
  : ActiveCard.State :=
  {| ActiveCard.hass :=
       Some {| ActiveCard.callWS := true; ActiveCard.user_is_admin := Some true |};
     ActiveCard._config :=
       Some {| ActiveCard.type := "custom:visitor-parking-card";
               ActiveCard.entity := shown;
               ActiveCard.title := None;
               ActiveCard.config_entry_id := None |};
     ActiveCard._endingReservationIds := ∅;
     ActiveCard._entries := entries;
     ActiveCard._entriesLoaded := true |}.

(** Every request is rejected. *)
Definition service_down : ActiveCard.Request -> Settled unit := fun _ => Rejected.

(** * localize.ts: [_format] *)

(** A character of [[a-zA-Z0-9_]]. *)
Definition is_key_char (c : ascii) : bool :=
  is_lower c || is_upper c || is_digit c || (c =? "_")%char.

(** The replacer of [_format] for the match [{key}]. *)
Definition replacer (placeholders : gmap string string) (key : string) : string :=
  let matched := "{" ++ key ++ "}" in
  if negb (truthy key) then matched
  else default matched (placeholders !! key).

(** [template.replaceAll(/\{(?<key>[a-zA-Z0-9_]+)\}/g, replacer)], read
    from left to right.  [pending] is [None] outside a match attempt and
    [Some key] after an opening brace followed by the key characters
    [key].  An attempt succeeds on a closing brace after at least one
    key character.  It fails on any other character; the characters it
    had read are then output as they are, none of them being a brace, and
    a brace that made it fail opens the next attempt. *)
Fixpoint replace_placeholders (placeholders : gmap string string)
    (pending : option string) (s : string) : string :=
  match s with
  | EmptyString =>
      match pending with
      | None => ""
      | Some key => "{" ++ key
      end
  | String c r =>
      match pending with
      | None =>
          if (c =? "{")%char then replace_placeholders placeholders (Some "") r
          else String c (replace_placeholders placeholders None r)
      | Some key =>
          if is_key_char c
          then replace_placeholders placeholders (Some (key ++ String c "")) r
          else if (c =? "}")%char && truthy key
          then replacer placeholders key ++ replace_placeholders placeholders None r
          else if (c =? "{")%char
          then "{" ++ key ++ replace_placeholders placeholders (Some "") r
          else "{" ++ key ++ String c (replace_placeholders placeholders None r)
      end
  end.

Definition _format (template : string) (placeholders : option (gmap string string))
  : string :=
  match placeholders with
  | None => template
  | Some p => replace_placeholders p None template
  end.

(** The text contains no opening brace. *)
Definition no_brace (c : ascii) : bool := negb (c =? "{")%char.

(** ** The resolver record: terms *)

(** The four fields the resolver keeps. *)
Definition resolver_state (c : Card)
  : option string * option string * option Z * option string :=
  (_resolvedConfigEntryId c, _resolvedIdentifier c,
   _lastResolveAttempt c, _lastResolveEntryId c).

(** The resolved account and its identifier are set together, the
    identifier is not the empty string, and the time and the account of
    the last attempt are recorded together. *)
Definition resolver_consistent (c : Card) : Prop :=
  (_resolvedConfigEntryId c = None <-> _resolvedIdentifier c = None)
  /\ _resolvedIdentifier c <> Some ""
  /\ (_lastResolveAttempt c = None <-> _lastResolveEntryId c = None).

(** The accounts a settled [fetchConfigEntries] leaves in [_entries]. *)
Definition listed (outcome : Settled (list ConfigEntrySummary))
  : list ConfigEntrySummary :=
  match outcome with
  | Fulfilled entries => entries
  | Rejected => []
  end.

(** * Properties *)

(** ** Sanity checks of the embedding *)

Example Number_plain : Number "2" = JFin (2 # 1). Proof. reflexivity. Qed.
Example Number_spaces : Number "  12 " = JFin (12 # 1). Proof. reflexivity. Qed.
Example Number_negative : Number "-1" = JFin (-1 # 1). Proof. reflexivity. Qed.
Example Number_fraction : Number "1.5" = JFin (3 # 2). Proof. reflexivity. Qed.
Example Number_exponent : Number "15e-1" = JFin (3 # 2). Proof. reflexivity. Qed.
Example Number_hex : Number "0x1f" = JFin (31 # 1). Proof. reflexivity. Qed.
Example Number_word : Number "abc" = JNaN. Proof. reflexivity. Qed.
Example Number_signed_hex : Number "-0x10" = JNaN. Proof. reflexivity. Qed.
Example Number_dot : Number "." = JNaN. Proof. reflexivity. Qed.
Example Number_infinity : Number "-Infinity" = JInf true. Proof. reflexivity. Qed.

Example parse_trailing : parseIdFromTitle "Den Haag (12345) " = Some "12345".
Proof. reflexivity. Qed.
Example parse_inner_spaces : parseIdFromTitle "Home ( 7 )" = Some "7".
Proof. reflexivity. Qed.
Example parse_not_trailing : parseIdFromTitle "Home (7) x" = None.
Proof. reflexivity. Qed.
Example parse_nested : parseIdFromTitle "Home ((12))" = None.
Proof. reflexivity. Qed.
Example parse_open_inside : parseIdFromTitle "Home (a (b)" = Some "a (b".
Proof. reflexivity. Qed.
Example parse_blank_group : parseIdFromTitle "Home ( )" = None.
Proof. reflexivity. Qed.
Example slug_example : slugifyId " Den Haag--12/3 " = "den_haag_12_3".
Proof. reflexivity. Qed.

(** ** Strings *)

Lemma truthy_true (s : string) : truthy s = true <-> s <> "".
Proof.
  unfold truthy. rewrite negb_true_iff. split.
  - intros H E. subst s. discriminate H.
  - intros H. destruct (String.eqb_spec s ""); [contradiction | reflexivity].
Qed.

Lemma truthy_false (s : string) : truthy s = false <-> s = "".
Proof.
  unfold truthy. rewrite negb_false_iff. apply String.eqb_eq.
Qed.

(** ** Favourite matcher *)

Lemma first_match_unique favorites name plate i j :
  first_match favorites name plate i -> first_match favorites name plate j -> i = j.
Proof.
  intros [[f [Hf Hm]] Hi] [[g [Hg Hn]] Hj].
  destruct (Nat.lt_trichotomy i j) as [Hlt | [Heq | Hgt]]; [| exact Heq |].
  - rewrite (Hj i f Hlt Hf) in Hm. discriminate.
  - rewrite (Hi j g Hgt Hg) in Hn. discriminate.
Qed.

Lemma find_from_Some (rest : list Favorite.t) name plate :
  forall n m, find_from n rest name plate = Some m <->
              exists k, m = n + k /\ first_match rest name plate k.
Proof.
  induction rest as [| f rest IH]; intros n m; simpl.
  - split; [discriminate |].
    intros [k [_ [[g [Hg _]] _]]]. destruct k; discriminate.
  - destruct (_favoriteMatchesDraft f name plate) eqn:Hf.
    + split.
      * intros E. injection E as <-. exists 0. split; [lia |].
        split; [exists f; auto | intros j g Hj; lia].
      * intros [k [-> [_ Hmin]]]. destruct k as [| k]; [f_equal; lia |].
        specialize (Hmin 0 f ltac:(lia) eq_refl). congruence.
    + rewrite IH. split.
      * intros [k [-> [[g [Hg Hm]] Hmin]]]. exists (S k). split; [lia |].
        split; [exists g; auto |].
        intros [| j] g' Hj Hg'; simpl in Hg'; [congruence |].
        apply (Hmin j g'); [lia | exact Hg'].
      * intros [k [-> [[g [Hg Hm]] Hmin]]]. destruct k as [| k].
        { simpl in Hg. congruence. }
        exists k. split; [lia |]. split; [exists g; auto |].
        intros j g' Hj Hg'. apply (Hmin (S j) g'); [lia | exact Hg'].
Qed.

Lemma find_from_None (rest : list Favorite.t) name plate :
  forall n, find_from n rest name plate = None <->
            forall k f, rest !! k = Some f -> _favoriteMatchesDraft f name plate = false.
Proof.
  induction rest as [| f rest IH]; intros n; simpl.
  - split; [intros _ k g Hg; destruct k; discriminate | reflexivity].
  - destruct (_favoriteMatchesDraft f name plate) eqn:Hf.
    + split; [discriminate |]. intros H. specialize (H 0 f eq_refl). congruence.
    + rewrite IH. split.
      * intros H [| k] g Hg; simpl in Hg; [congruence | eauto].
      * intros H k g Hg. apply (H (S k) g Hg).
Qed.

Lemma blank_test (name plate : string) :
  negb (truthy (trim name)) || negb (truthy (trim plate)) = true
  <-> blank name \/ blank plate.
Proof.
  unfold blank. rewrite orb_true_iff, !negb_true_iff, !truthy_false. reflexivity.
Qed.

Lemma blank_test_false (name plate : string) :
  negb (truthy (trim name)) || negb (truthy (trim plate)) = false
  <-> ~ blank name /\ ~ blank plate.
Proof.
  unfold blank. rewrite orb_false_iff, !negb_false_iff, !truthy_true. reflexivity.
Qed.

Lemma empty_is_blank : blank "".
Proof. reflexivity. Qed.

Lemma findFavoriteIndexByDraft_blank (c : Card) (name plate : string) :
  blank name \/ blank plate -> _findFavoriteIndexByDraft c name plate = None.
Proof.
  intros H. unfold _findFavoriteIndexByDraft. apply blank_test in H. rewrite H.
  reflexivity.
Qed.

Lemma findFavoriteIndexByDraft_loop (c : Card) (name plate : string) :
  ~ blank name -> ~ blank plate ->
  _findFavoriteIndexByDraft c name plate = find_from 0 (_favorites c) name plate.
Proof.
  intros Hn Hp. unfold _findFavoriteIndexByDraft.
  assert (E : negb (truthy (trim name)) || negb (truthy (trim plate)) = false)
    by (apply blank_test_false; auto).
  rewrite E. reflexivity.
Qed.

Lemma find_from_first_match (favorites : list Favorite.t) (name plate : string)
    (i : nat) :
  find_from 0 favorites name plate = Some i <-> first_match favorites name plate i.
Proof.
  rewrite find_from_Some. split.
  - intros [k [-> Hk]]. exact Hk.
  - intros Hi. exists i. auto.
Qed.

(** C7, as amended.  [_findFavoriteIndexByDraft] returns nothing when the
    name or the plate of the draft is blank, that is empty once trimmed
    (an empty field is blank, and so is one made of white space only);
    for a draft with neither field blank it returns the smallest position
    whose favourite has the draft's normalised name and normalised plate,
    and nothing exactly when no favourite has them. *)
Theorem findFavoriteIndexByDraft_first_match (c : Card) (name plate : string) :
  (blank name \/ blank plate -> _findFavoriteIndexByDraft c name plate = None)
  /\ (~ blank name -> ~ blank plate ->
      (forall i, _findFavoriteIndexByDraft c name plate = Some i
                 <-> first_match (_favorites c) name plate i)
      /\ (_findFavoriteIndexByDraft c name plate = None
          <-> forall k f, _favorites c !! k = Some f ->
                          _favoriteMatchesDraft f name plate = false)).
Proof.
  split.
  - apply findFavoriteIndexByDraft_blank.
  - intros Hn Hp. rewrite (findFavoriteIndexByDraft_loop c name plate Hn Hp).
    split.
    + intros i. apply find_from_first_match.
    + apply find_from_None.
Qed.

Lemma findFavoriteIndexByDraft_first_match_witness :
  _findFavoriteIndexByDraft (sample_card [plate_only; mom] "" "" "") "mom" " ab 12 cd"
  = Some 1.
Proof.
  apply (findFavoriteIndexByDraft_first_match
           (sample_card [plate_only; mom] "" "" "") "mom" " ab 12 cd").
  - vm_compute. discriminate.
  - vm_compute. discriminate.
  - split.
    + exists mom. split; vm_compute; reflexivity.
    + intros [| j] f Hj Hf; [| lia].
      vm_compute in Hf. injection Hf as <-. vm_compute. reflexivity.
Defined.

(** A name of one space is not empty and, normalised, equals the missing
    name of [plate_only]; the source still returns nothing for it. *)
Lemma findFavoriteIndexByDraft_blank_name_counterexample :
  ~ first_match_unless_empty (sample_card [plate_only] "" "" "") " " "AB-12-CD".
Proof.
  intros [_ H].
  assert (E : _findFavoriteIndexByDraft (sample_card [plate_only] "" "" "")
                " " "AB-12-CD" = Some 0).
  { apply H; [discriminate | discriminate |]. split.
    - exists plate_only. split; vm_compute; reflexivity.
    - intros j f Hj. lia. }
  vm_compute in E. discriminate E.
Qed.

Lemma favoriteMatchesDraft_own (f : Favorite.t) :
  _favoriteMatchesDraft f (or_empty (Favorite.name f))
    (or_empty (Favorite.license_plate f)) = true.
Proof.
  unfold _favoriteMatchesDraft. rewrite !String.eqb_refl. reflexivity.
Qed.

(** C9, as amended.  For the favourite at position [i], when neither its
    name nor its plate is blank, matching its own name and plate returns
    the smallest position [j] whose favourite has the same normalised name
    and plate; [j] is at most [i], and it is [i] itself exactly when no
    earlier favourite has them. *)
Theorem findFavoriteIndexByDraft_own_fields (c : Card) (i : nat) (f : Favorite.t) :
  _favorites c !! i = Some f ->
  ~ blank (or_empty (Favorite.name f)) ->
  ~ blank (or_empty (Favorite.license_plate f)) ->
  exists j,
    _findFavoriteIndexByDraft c (or_empty (Favorite.name f))
      (or_empty (Favorite.license_plate f)) = Some j
    /\ j <= i
    /\ first_match (_favorites c) (or_empty (Favorite.name f))
         (or_empty (Favorite.license_plate f)) j
    /\ (j = i <->
        forall k g, k < i -> _favorites c !! k = Some g ->
                    _favoriteMatchesDraft g (or_empty (Favorite.name f))
                      (or_empty (Favorite.license_plate f)) = false).
Proof.
  intros Hi Hn Hp.
  set (name := or_empty (Favorite.name f)) in *.
  set (plate := or_empty (Favorite.license_plate f)) in *.
  rewrite (findFavoriteIndexByDraft_loop c name plate Hn Hp).
  pose proof (find_from_first_match (_favorites c) name plate) as Hsome.
  pose proof (find_from_None (_favorites c) name plate 0) as Hnone.
  assert (Hown : _favoriteMatchesDraft f name plate = true)
    by apply favoriteMatchesDraft_own.
  destruct (find_from 0 (_favorites c) name plate) as [j |] eqn:E.
  - assert (Hj : first_match (_favorites c) name plate j) by (apply Hsome; reflexivity).
    assert (Hle : j <= i).
    { destruct (Nat.le_gt_cases j i) as [Hle | Hgt]; [exact Hle |].
      destruct Hj as [_ Hmin]. rewrite (Hmin i f Hgt Hi) in Hown. discriminate. }
    exists j. repeat split; try assumption.
    + apply Hj.
    + apply Hj.
    + intros -> k g Hk Hg. destruct Hj as [_ Hmin]. eauto.
    + intros Hnone'. destruct (Nat.eq_dec j i) as [Heq | Hne]; [exact Heq |].
      destruct Hj as [[g [Hg Hm]] _].
      rewrite (Hnone' j g ltac:(lia) Hg) in Hm. discriminate.
  - destruct Hnone as [Hnone _]. rewrite (Hnone eq_refl i f Hi) in Hown. discriminate.
Qed.

Lemma findFavoriteIndexByDraft_own_fields_witness :
  exists j,
    _findFavoriteIndexByDraft (sample_card [mom; mom_again] "" "" "") " MOM" "ab 12 cd"
    = Some j
    /\ j <= 1
    /\ first_match [mom; mom_again] " MOM" "ab 12 cd" j
    /\ (j = 1 <->
        forall k g, k < 1 -> [mom; mom_again] !! k = Some g ->
                    _favoriteMatchesDraft g " MOM" "ab 12 cd" = false).
Proof.
  apply (findFavoriteIndexByDraft_own_fields
           (sample_card [mom; mom_again] "" "" "") 1 mom_again).
  - vm_compute. reflexivity.
  - vm_compute. discriminate.
  - vm_compute. discriminate.
Defined.

(** Where an earlier favourite has the same normalised fields the earlier
    position is returned. *)
Lemma findFavoriteIndexByDraft_duplicate_counterexample :
  ~ matching_reflexive (sample_card [mom; mom_again] "" "" "").
Proof.
  intros H. specialize (H 1 mom_again eq_refl). vm_compute in H. discriminate H.
Qed.

(** ** Selection *)

Lemma array_index_position (q : Q) (s m : nat) :
  array_index q = Some s ->
  (Qeq_bool (number_of_nat m) q = true <-> m = s).
Proof.
  unfold array_index. intros H.
  destruct ((Qden (Qred q) =? 1)%positive && (0 <=? Qnum (Qred q))%Z) eqn:E;
    [| discriminate].
  injection H as <-. apply andb_true_iff in E as [Hden Hnum].
  apply Pos.eqb_eq in Hden. apply Z.leb_le in Hnum.
  rewrite Qeq_bool_iff.
  assert (Hred : (number_of_nat m == q)%Q <-> (number_of_nat m == Qred q)%Q).
  { split; intros H.
    - apply Qeq_trans with q; [exact H | apply Qeq_sym, Qred_correct].
    - apply Qeq_trans with (Qred q); [exact H | apply Qred_correct]. }
  rewrite Hred. unfold number_of_nat, Qeq. simpl. rewrite Hden. lia.
Qed.

Lemma selectedFavorite_position (c : Card) (f : Favorite.t) :
  _selectedFavorite c = Some f ->
  exists q s, _selectedFavoriteIndex c = Some q
              /\ array_index q = Some s
              /\ _favorites c !! s = Some f.
Proof.
  unfold _selectedFavorite, element_at.
  destruct (_selectedFavoriteIndex c) as [q |]; [| discriminate].
  destruct (array_index q) as [s |] eqn:E; [| discriminate].
  intros H. exists q, s. auto.
Qed.

(** The selection does not influence where the favourites come from. *)
Lemma favorites_set_favoriteDraft (v : string) (c : Card) :
  _favorites (set_favoriteDraft v c) = _favorites c.
Proof. reflexivity. Qed.

(** ** Reconciliation flags *)

(** The first favourite is picked, then its plate is edited, then its
    name as well. *)
Example picked_favorite_can_be_deleted :
  let c := _selectFavorite "0" (sample_card [mom] "" "" "") in
  draft c = ("0", "Mom", "AB-12-CD", false, false)
  /\ (_showAddToFavorites c, _offerUpdateFavorite c, showDeleteFavorite c)
     = (false, false, true).
Proof. vm_compute. split; reflexivity. Qed.

Example edited_plate_offers_update :
  let c := license_plate_input "XY-99-ZZ"
             (_selectFavorite "0" (sample_card [mom] "" "" "")) in
  _favoriteDraft c = "0"
  /\ (_showAddToFavorites c, _offerUpdateFavorite c, _canUpdateFavorite c,
      showDeleteFavorite c) = (false, true, true, false).
Proof. vm_compute. split; reflexivity. Qed.

Example edited_both_offers_add :
  let c := name_input "Dad"
             (license_plate_input "XY-99-ZZ"
                (_selectFavorite "0" (sample_card [mom] "" "" ""))) in
  _favoriteDraft c = ""
  /\ (_showAddToFavorites c, _offerUpdateFavorite c, showDeleteFavorite c)
     = (true, false, false).
Proof. vm_compute. split; reflexivity. Qed.

(** C1.  In every state of the card at most one of "add to favourites"
    and "update favourite" is offered. *)
Theorem add_and_update_exclusive (c : Card) :
  _showAddToFavorites c && _offerUpdateFavorite c = false.
Proof.
  unfold _showAddToFavorites, _offerUpdateFavorite.
  destruct (negb (truthy (trim (_nameDraft c)))
            || negb (truthy (trim (_licensePlateDraft c)))); [reflexivity |].
  destruct (bool_decide (is_Some (_selectedFavorite c))),
    (_selectedFavoriteChangedBoth c), (_selectedFavoriteChanged c),
    (_draftMatchesExistingFavorite c); reflexivity.
Qed.

Lemma canDeleteFavorite_usable (c : Card) :
  canDeleteFavorite c = true
  <-> exists f, _selectedFavorite c = Some f /\ usable_id f.
Proof.
  unfold canDeleteFavorite, _selectedFavoriteId, usable_id, blank.
  rewrite bool_decide_eq_true. split.
  - intros [x Hx]. destruct (_selectedFavorite c) as [f |]; [| discriminate].
    exists f. split; [reflexivity |].
    destruct (Favorite.id f) as [[n | s] |]; [exact I | | discriminate].
    destruct (String.eqb_spec (trim s) ""); [discriminate | assumption].
  - intros [f [-> Hu]].
    destruct (Favorite.id f) as [[n | s] |]; [eexists; reflexivity | | contradiction].
    destruct (String.eqb_spec (trim s) ""); [contradiction | eexists; reflexivity].
Qed.

(** C2, as amended.  The delete action is shown exactly when the selected
    favourite has a usable identifier and neither "update favourite" nor
    "add to favourites" is offered. *)
Theorem showDeleteFavorite_iff (c : Card) :
  showDeleteFavorite c = true
  <-> (exists f, _selectedFavorite c = Some f /\ usable_id f)
      /\ _offerUpdateFavorite c = false
      /\ _showAddToFavorites c = false.
Proof.
  unfold showDeleteFavorite.
  rewrite !andb_true_iff, !negb_true_iff, canDeleteFavorite_usable. tauto.
Qed.

(** A selected favourite whose identifier is not known yet: nothing is
    offered, the delete action included. *)
Lemma showDeleteFavorite_without_id_counterexample :
  ~ delete_shown_for_selection (sample_card [mom_without_id] "0" "Mom" "AB-12-CD").
Proof.
  intros [_ H].
  assert (E : showDeleteFavorite (sample_card [mom_without_id] "0" "Mom" "AB-12-CD")
              = true).
  { apply H. split; [| split].
    - exists mom_without_id. vm_compute. reflexivity.
    - vm_compute. reflexivity.
    - vm_compute. reflexivity. }
  vm_compute in E. discriminate E.
Qed.

Lemma offerUpdateFavorite_true (c : Card) :
  _offerUpdateFavorite c = true ->
  exists f, _selectedFavorite c = Some f
            /\ _favoriteMatchesDraft f (_nameDraft c) (_licensePlateDraft c) = false.
Proof.
  unfold _offerUpdateFavorite, _selectedFavoriteChanged.
  destruct (_selectedFavorite c) as [f |]; simpl; [| discriminate].
  intros H. apply andb_true_iff in H as [H _]. apply negb_true_iff in H.
  exists f. auto.
Qed.

Lemma draftDuplicatesOtherFavorite_iff (c : Card) :
  _offerUpdateFavorite c = true ->
  ~ blank (_nameDraft c) -> ~ blank (_licensePlateDraft c) ->
  (_draftDuplicatesOtherFavorite c = true <-> matches_other c).
Proof.
  intros Hoffer Hn Hp.
  destruct (offerUpdateFavorite_true c Hoffer) as [fs [Hsel Hdiff]].
  destruct (selectedFavorite_position c fs Hsel) as [q [s [Hq [Hs Hfs]]]].
  pose proof (find_from_first_match (_favorites c) (_nameDraft c)
                (_licensePlateDraft c)) as Hsome.
  pose proof (find_from_None (_favorites c) (_nameDraft c) (_licensePlateDraft c) 0)
    as Hnone.
  unfold _draftDuplicatesOtherFavorite, matches_other.
  rewrite Hq, (findFavoriteIndexByDraft_loop c _ _ Hn Hp).
  destruct (find_from 0 (_favorites c) (_nameDraft c) (_licensePlateDraft c))
    as [m |] eqn:E.
  - destruct (proj1 (Hsome m) eq_refl) as [[g [Hg Hm]] _].
    assert (Hms : m <> s) by (intros ->; congruence).
    assert (Hneq : Qeq_bool (number_of_nat m) q = false).
    { destruct (Qeq_bool (number_of_nat m) q) eqn:B; [| reflexivity].
      apply (array_index_position q s m Hs) in B. contradiction. }
    rewrite Hneq. simpl. split; [intros _ | reflexivity].
    exists q, m, g. repeat split; try assumption.
    intros Heq. apply Qeq_bool_iff in Heq. congruence.
  - split; [discriminate |].
    intros [q' [j [g [_ [_ [Hg Hm]]]]]].
    rewrite (proj1 Hnone eq_refl j g Hg) in Hm. discriminate.
Qed.

(** C3, as amended.  "Update favourite" is enabled exactly when it is
    offered, neither the name nor the plate of the draft is blank (empty
    once trimmed), and the draft does not have the normalised name and
    plate of a favourite at a position other than the selected one. *)
Theorem canUpdateFavorite_iff (c : Card) :
  _canUpdateFavorite c = true
  <-> _offerUpdateFavorite c = true
      /\ ~ blank (_nameDraft c)
      /\ ~ blank (_licensePlateDraft c)
      /\ ~ matches_other c.
Proof.
  unfold _canUpdateFavorite.
  destruct (_offerUpdateFavorite c) eqn:Hoffer; simpl.
  - destruct (negb (truthy (trim (_nameDraft c)))
              || negb (truthy (trim (_licensePlateDraft c)))) eqn:Hblank.
    + apply blank_test in Hblank. split; [discriminate | tauto].
    + apply blank_test_false in Hblank as [Hn Hp].
      rewrite negb_true_iff, <- not_true_iff_false.
      rewrite (draftDuplicatesOtherFavorite_iff c Hoffer Hn Hp). tauto.
  - split; [discriminate | intros [H _]; discriminate].
Qed.

(** The name of the selected favourite replaced by one space: the update
    is offered, both fields are non-empty, no favourite matches, and the
    update is not enabled. *)
Lemma canUpdateFavorite_blank_name_counterexample :
  ~ update_enabled_for_nonempty (sample_card [mom] "0" " " "AB-12-CD").
Proof.
  intros [_ H].
  assert (E : _canUpdateFavorite (sample_card [mom] "0" " " "AB-12-CD") = true).
  { apply H. split; [vm_compute; reflexivity |].
    split; [discriminate |]. split; [discriminate |].
    intros [q [j [f [_ [_ [Hf Hm]]]]]].
    destruct j as [| j]; vm_compute in Hf; [| discriminate].
    injection Hf as <-. vm_compute in Hm. discriminate. }
  vm_compute in E. discriminate E.
Qed.

(** ** Out-of-range selections *)




Example out_of_range_negative : out_of_range (sample_card [mom] "-1" "Mom" "AB-12-CD").
Proof. left. vm_compute. reflexivity. Qed.

Example out_of_range_word : out_of_range (sample_card [mom] "first" "Mom" "AB-12-CD").
Proof. exact I. Qed.

Example in_range_first : ~ out_of_range (sample_card [mom] "0" "Mom" "AB-12-CD").
Proof. intros [H | H]; vm_compute in H; [discriminate H | apply H; reflexivity]. Qed.


Lemma canUpdateFavorite_iff_witness :
  _canUpdateFavorite (sample_card [mom] "0" "Mom" "XY-99-ZZ") = true.
Proof.
  apply (canUpdateFavorite_iff (sample_card [mom] "0" "Mom" "XY-99-ZZ")).
  split; [vm_compute; reflexivity |].
  split; [vm_compute; discriminate |]. split; [vm_compute; discriminate |].
  intros [q [j [f [_ [_ [Hf Hm]]]]]].
  destruct j as [| j]; vm_compute in Hf; [| discriminate].
  injection Hf as <-. vm_compute in Hm. discriminate.
Defined.

Lemma showDeleteFavorite_iff_witness :
  showDeleteFavorite (sample_card [mom] "0" "mom" "ab12cd") = true.
Proof.
  apply (showDeleteFavorite_iff (sample_card [mom] "0" "mom" "ab12cd")).
  split; [| split; vm_compute; reflexivity].
  exists mom. split; [vm_compute; reflexivity | exact I].
Defined.

(** ** Identifier of an account *)

Lemma until_close_body (body rest : string) :
  all_chars not_close body = true ->
  until_close (body ++ String ")" rest) = Some (body, rest).
Proof.
  induction body as [| a body IH]; simpl; [reflexivity |].
  unfold not_close at 1. intros H. apply andb_true_iff in H as [Ha Hb].
  apply negb_true_iff in Ha. rewrite Ha, (IH Hb). reflexivity.
Qed.

Lemma title_match_here_other (a : ascii) (r : string) :
  not_open a = true -> title_match_here (String a r) = None.
Proof.
  destruct a as [[] [] [] [] [] [] [] []]; intros H; try reflexivity;
    discriminate H.
Qed.

Lemma title_exec_step (a : ascii) (r : string) :
  title_exec (String a r)
  = match title_match_here (String a r) with
    | Some group => Some group
    | None => title_exec r
    end.
Proof. reflexivity. Qed.


Lemma parseIdFromTitle_truthy (t v : string) :
  parseIdFromTitle t = Some v -> truthy v = true.
Proof.
  unfold parseIdFromTitle. destruct (title_exec t) as [g |]; [| discriminate].
  destruct (truthy (trim g)) eqn:E; [| discriminate].
  intros H. injection H as <-. exact E.
Qed.



Lemma find_entry_Some (entries : list ConfigEntrySummary) (entryId : string)
    (entry : ConfigEntrySummary) :
  find_entry entries entryId = Some entry ->
  In entry entries /\ entry_id entry = entryId.
Proof.
  unfold find_entry. intros H. apply find_some in H as [Hin Heq].
  apply String.eqb_eq in Heq. auto.
Qed.

Lemma resolveIdentifierFromEntry_truthy (entry : ConfigEntrySummary) :
  truthy (entry_id entry) = true ->
  truthy (resolveIdentifierFromEntry entry) = true.
Proof.
  intros He. unfold resolveIdentifierFromEntry.
  destruct (truthy _ && negb _) eqn:E.
  - apply andb_true_iff in E as [E _]. exact E.
  - destruct (parseIdFromTitle (title entry)) as [v |] eqn:P; [| exact He].
    apply (parseIdFromTitle_truthy _ _ P).
Qed.

(** ** The update cycle *)

(** The loading blocks only raise the two "loaded" flags. *)
Lemma load_step_card (h : HomeAssistant) (c : Card) :
  exists b1 b2,
    fst (load_step h c) = set_entityRegistryLoaded b2 (set_entriesLoaded b1 c)
    /\ (_entriesLoaded c = true -> b1 = true).
Proof.
  unfold load_step. destruct c as [? ? ? ? ? ? ? ? ? ? ? ? ? ? el ? rl ? ? ?].
  simpl.
  exists (el || (negb (is_admin h) || negb (callWS h))),
         (rl || (negb (is_admin h) || negb (callWS h))).
  destruct el, rl, (negb (is_admin h) || negb (callWS h)); simpl;
    (split; [reflexivity | intros H; first [reflexivity | discriminate H]]).
Qed.

Lemma load_step_requests (h : HomeAssistant) (c : Card) (entryId : string) :
  ~ In (ResolveId entryId) (snd (load_step h c)).
Proof.
  unfold load_step.
  destruct (negb (_entriesLoaded c)), (negb (is_admin h) || negb (callWS h));
    simpl;
    destruct (negb (_entityRegistryLoaded _)); simpl;
    intros H; repeat (destruct H as [H | H]; [discriminate H |]); exact H.
Qed.



Lemma slug_local_identifier (c : Card) (entryId : string)
    (entry : ConfigEntrySummary) :
  _activeEntryId c = Some entryId -> truthy entryId = true ->
  find_entry (_entries c) entryId = Some entry ->
  _slug c = Some (resolveIdentifierFromEntry entry).
Proof.
  intros Ha Ht Hf. unfold _slug, _entryIdentifier. rewrite Ha. simpl.
  rewrite Ht, Hf. simpl.
  destruct (find_entry_Some _ _ _ Hf) as [_ Hid].
  rewrite resolveIdentifierFromEntry_truthy by (rewrite Hid; exact Ht).
  reflexivity.
Qed.




Example resolve_none_takes_title : resolveIdentifierFromEntry account_none = "12345".
Proof. reflexivity. Qed.

(** ** Failed service calls *)

Lemma deleteFavorite_failure (host : ServiceCall -> Settled unit) (c : Card)
    (call : ServiceCall) :
  In (Called call) (logged (_deleteFavorite host c [])) ->
  host call = Rejected ->
  failure_handled c (_deleteFavorite host c []) call.
Proof.
  unfold _deleteFavorite, try_catch_finally, bind, read, assign, callService,
    _notify, emit, ret, logged, ran.
  destruct (cannot_act c); [intros [] |].
  destruct (_selectedFavoriteId c) as [favorite_id |]; [| intros []].
  destruct (host (delete_favorite favorite_id (spread_entry c))) eqn:Hhost; simpl.
  - intros [H | []] Hrej. injection H as <-. congruence.
  - intros [H | [H | []]] Hrej; [| discriminate H].
    injection H as <-. simpl. split; [right; left; reflexivity | reflexivity].
Qed.

Lemma submit_failure (host : ServiceCall -> Settled unit) (c : Card)
    (call : ServiceCall) :
  In (Called call) (logged (_submit host c [])) ->
  host call = Rejected ->
  failure_handled c (_submit host c []) call.
Proof.
  unfold _submit, favorite_follow_up, try_catch_finally, bind, read, assign,
    callService, _notify, emit, ret, logged, ran.
  destruct (cannot_act c); [intros [] |].
  destruct (negb (truthy (trim (_licensePlateDraft c))));
    [simpl; intros [H | []]; discriminate H |].
  cbn beta iota zeta.
  destruct (host (create_reservation _ _ _)) eqn:Hres; simpl.
  2:{ intros [H | [H | []]] Hrej; [| discriminate H].
      injection H as <-. simpl. split; [right; left; reflexivity | reflexivity]. }
  destruct (truthy_opt (_selectedFavoriteId c) && _updateFavorite c
            && _canUpdateFavorite c && _selectedFavoriteChanged c).
  - destruct (negb (truthy (trim (_nameDraft c)))); simpl.
    + intros [H | [H | []]] Hrej; [| discriminate H].
      injection H as <-. congruence.
    + destruct (host (update_favorite _ _ _ _)) eqn:Hupd; simpl.
      * intros [H | [H | []]] Hrej; injection H as <-; congruence.
      * intros [H | [H | [H | []]]] Hrej; try discriminate H; injection H as <-.
        { congruence. }
        simpl. split; [right; right; left; reflexivity | reflexivity].
  - destruct (_addToFavorites c && _showAddToFavorites c).
    + destruct (negb (truthy (trim (_nameDraft c)))); simpl.
      * intros [H | [H | []]] Hrej; [| discriminate H].
        injection H as <-. congruence.
      * destruct (host (create_favorite _ _ _)) eqn:Hadd; simpl.
        { intros [H | [H | []]] Hrej; injection H as <-; congruence. }
        intros [H | [H | [H | []]]] Hrej; try discriminate H; injection H as <-.
        { congruence. }
        simpl. split; [right; right; left; reflexivity | reflexivity].
    + simpl. intros [H | []] Hrej. injection H as <-. congruence.
Qed.

(** C10, as amended.  Every rejected service call is answered by a
    notification.  When [create_reservation] or [delete_favorite] is
    rejected the draft (selection, name, plate, toggles) is what it was
    before the method ran.  When the reservation went through and the
    follow-up [update_favorite] or [create_favorite] is rejected, the
    draft is cleared as after a submit without failure. *)
Theorem mutation_failure_handled (host : ServiceCall -> Settled unit) (c : Card)
    (call : ServiceCall) :
  host call = Rejected ->
  (In (Called call) (logged (_submit host c [])) ->
   failure_handled c (_submit host c []) call)
  /\ (In (Called call) (logged (_deleteFavorite host c [])) ->
      failure_handled c (_deleteFavorite host c []) call).
Proof.
  intros Hrej. split; intros Hin.
  - apply submit_failure; assumption.
  - apply deleteFavorite_failure; assumption.
Qed.

Example submit_with_update_down :
  _submit favorites_down editing_mom []
  = (Fulfilled tt,
     clear_draft editing_mom,
     [Called (create_reservation "XY-99-ZZ" (Some "Mom") None);
      Called (update_favorite (Some "1") "Mom" "XY-99-ZZ" None);
      Notified "new_reservation_card.could_not_update_favorite"]).
Proof. vm_compute. reflexivity. Qed.

Lemma mutation_failure_handled_witness :
  failure_handled editing_mom (_submit favorites_down editing_mom [])
    (update_favorite (Some "1") "Mom" "XY-99-ZZ" None).
Proof.
  apply (mutation_failure_handled favorites_down editing_mom
           (update_favorite (Some "1") "Mom" "XY-99-ZZ" None)).
  - reflexivity.
  - vm_compute. right. left. reflexivity.
Defined.

(** The reservation is made, the update of the favourite is rejected, and
    the draft is cleared all the same. *)
Lemma submit_update_rejected_counterexample :
  ~ failure_keeps_draft favorites_down editing_mom
      (_submit favorites_down editing_mom []).
Proof.
  intros H.
  destruct (H (update_favorite (Some "1") "Mom" "XY-99-ZZ" None)) as [_ E].
  - rewrite submit_with_update_down. right. left. reflexivity.
  - reflexivity.
  - rewrite submit_with_update_down in E. vm_compute in E. discriminate E.
Qed.

(** ** Changing the account *)

(** [_setSelectedEntry] empties the draft and the resolver state, stores
    the selection, and leaves every other field alone. *)
Lemma setSelectedEntry_resets (entryId : option string) (c : Card) :
  let c' := _setSelectedEntry entryId c in
  _selectedEntryId c' = entryId
  /\ draft c' = empty_draft
  /\ _resolvedConfigEntryId c' = None /\ _resolvedIdentifier c' = None
  /\ _lastResolveAttempt c' = None /\ _lastResolveEntryId c' = None
  /\ hass c' = hass c /\ _config c' = _config c
  /\ _entries c' = _entries c /\ _entriesLoaded c' = _entriesLoaded c
  /\ _entityRegistry c' = _entityRegistry c
  /\ _entityRegistryLoaded c' = _entityRegistryLoaded c
  /\ _submitting c' = _submitting c /\ _deletingFavorite c' = _deletingFavorite c
  /\ _updatingFavorite c' = _updatingFavorite c
  /\ _resolvingService c' = _resolvingService c.
Proof. repeat split. Qed.

(** Neither [setConfig] nor an update cycle ever writes the draft. *)
Lemma updated_keeps_draft (changedProps : ChangedProps) (now : Z) (c : Card) :
  draft (fst (updated changedProps now c)) = draft c.
Proof.
  unfold updated.
  destruct (hass c) as [h |]; [| reflexivity].
  destruct (_config c) as [cfg |]; [| reflexivity].
  destruct (load_step_card h c) as [b1 [b2 [Hc1 _]]].
  destruct (load_step h c) as [c1 loads]. cbn [fst] in Hc1.
  assert (Hd : draft c1 = draft c) by (rewrite Hc1; reflexivity).
  rewrite <- Hd. clear Hd Hc1.
  unfold resolve_step, _resolveIdFromConfigEntry_begin.
  destruct (_activeEntryId c1) as [entryId |]; [| reflexivity].
  destruct (negb (truthy entryId) || truthy _); [reflexivity |].
  destruct (truthy_opt (_entryIdentifier c1 (Some entryId))); [reflexivity |].
  destruct (negb (is_admin h)); [reflexivity |].
  destruct (negb (callWS h)); [reflexivity |].
  destruct (entryIdChanged changedProps entryId);
    cbn [_resolvingService clear_resolution set_lastResolveEntryId
         set_lastResolveAttempt set_resolvedIdentifier set_resolvedConfigEntryId];
    destruct (_resolvingService c1); try reflexivity;
    (destruct (bool_decide _); [reflexivity |]);
    (destruct (negb (retryDue _ entryId now)); [reflexivity |]);
    cbn [hass set_lastResolveEntryId set_lastResolveAttempt clear_resolution
         set_resolvedIdentifier set_resolvedConfigEntryId];
    destruct (hass c1) as [h1 |]; try reflexivity;
    destruct (callWS h1); reflexivity.
Qed.

Lemma setConfig_keeps_draft (config : CardConfig.t) (c : Card) :
  draft (setConfig config c) = draft c.
Proof. reflexivity. Qed.

(** C5, on the code.  When the active account changes because the
    configuration is replaced, the draft and the favourite selection keep
    their values: the selection made among the first account's favourites
    now designates a favourite of the second account, for which the card
    offers an update.  Only [_setSelectedEntry] resets them. *)
Theorem config_change_keeps_draft :
  let before := card_after first_account_in_use in
  let after := card_after (first_account_in_use ++ switch_to_second_account) in
  _activeEntryId before = Some "entry-a"
  /\ _activeEntryId after = Some "entry-b"
  /\ draft before = ("0", "Mom", "AB-12-CD", false, false)
  /\ draft after = ("0", "Mom", "AB-12-CD", false, false)
  /\ _selectedFavorite before = Some mom
  /\ _selectedFavorite after = Some dad
  /\ _offerUpdateFavorite after = true
  /\ _canUpdateFavorite after = true
  /\ draft (_setSelectedEntry (Some "entry-b") before) = empty_draft.
Proof. vm_compute. repeat split. Qed.

(** ** Retry cool-down *)

Ltac break_ifs :=
  repeat match goal with
         | |- context [if ?b then _ else _] => destruct b
         | |- context [match ?x with _ => _ end] => destruct x
         end.

Lemma syncFavoriteToggles_last_attempt (c : Card) :
  last_attempt (_syncFavoriteToggles c) = last_attempt c.
Proof. unfold _syncFavoriteToggles. break_ifs; reflexivity. Qed.

Lemma maybeResetFavoriteSelection_last_attempt (c : Card) :
  last_attempt (_maybeResetFavoriteSelection c) = last_attempt c.
Proof. unfold _maybeResetFavoriteSelection. break_ifs; reflexivity. Qed.

Lemma selectFavorite_last_attempt (v : string) (c : Card) :
  last_attempt (_selectFavorite v c) = last_attempt c.
Proof.
  unfold _selectFavorite.
  repeat match goal with
         | |- context [if ?b then _ else _] => destruct b
         | |- context [match Number ?x with _ => _ end] => destruct (Number x)
         | |- context [match element_at ?l ?q with _ => _ end] =>
             destruct (element_at l q)
         end;
    rewrite ?syncFavoriteToggles_last_attempt; reflexivity.
Qed.

Lemma name_input_last_attempt (v : string) (c : Card) :
  last_attempt (name_input v c) = last_attempt c.
Proof.
  unfold name_input.
  rewrite syncFavoriteToggles_last_attempt, maybeResetFavoriteSelection_last_attempt.
  reflexivity.
Qed.

Lemma license_plate_input_last_attempt (v : string) (c : Card) :
  last_attempt (license_plate_input v c) = last_attempt c.
Proof.
  unfold license_plate_input.
  rewrite syncFavoriteToggles_last_attempt, maybeResetFavoriteSelection_last_attempt.
  reflexivity.
Qed.

Lemma load_step_no_attempt (now : Z) (h : HomeAssistant) (c : Card) :
  attempts_in (Cycle now) (snd (load_step h c)) = [].
Proof.
  unfold load_step.
  destruct (negb (_entriesLoaded c)), (negb (is_admin h) || negb (callWS h));
    simpl; destruct (negb (_entityRegistryLoaded _)); reflexivity.
Qed.

Lemma attempts_in_app (now : Z) (r1 r2 : list Request) :
  attempts_in (Cycle now) (r1 ++ r2)
  = (attempts_in (Cycle now) r1 ++ attempts_in (Cycle now) r2)%list.
Proof. unfold attempts_in. apply omap_app. Qed.

Lemma retryDue_spacing (c : Card) (entryId : string) (now at0 : Z) :
  retryDue c entryId now = true ->
  last_attempt c = Some (entryId, at0) ->
  (COOLDOWN_MS < now - at0)%Z.
Proof.
  unfold retryDue, last_attempt.
  destruct (_lastResolveEntryId c) as [e |]; [| discriminate].
  destruct (_lastResolveAttempt c) as [t |]; [| discriminate].
  intros Hdue H. injection H as -> ->.
  rewrite bool_decide_eq_true_2 in Hdue by reflexivity. simpl in Hdue.
  apply Z.ltb_lt. exact Hdue.
Qed.

Lemma resolve_step_quiet (changedProps : ChangedProps) (now : Z)
    (h : HomeAssistant) (favoritesEntity : string) (c : Card) :
  hass c = Some h ->
  match _activeEntryId c with
  | Some entryId => entryIdChanged changedProps entryId
  | None => false
  end = false ->
  cycle_outcome now c (resolve_step changedProps now h favoritesEntity c).
Proof.
  intros Hh Hq. unfold resolve_step, cycle_outcome.
  destruct (_activeEntryId c) as [entryId |]; [| left; split; reflexivity].
  rewrite Hq.
  destruct (negb (truthy entryId) || truthy favoritesEntity);
    [left; split; reflexivity |].
  destruct (truthy_opt (_entryIdentifier c (Some entryId)));
    [left; split; reflexivity |].
  destruct (negb (is_admin h)); [left; split; reflexivity |].
  destruct (negb (callWS h)) eqn:Hws; [left; split; reflexivity |].
  destruct (_resolvingService c); [left; split; reflexivity |].
  destruct (bool_decide (_resolvedConfigEntryId c = Some entryId));
    [left; split; reflexivity |].
  destruct (negb (retryDue c entryId now)) eqn:Hdue; [left; split; reflexivity |].
  apply negb_false_iff in Hws, Hdue.
  right. exists entryId.
  unfold _resolveIdFromConfigEntry_begin. simpl. rewrite Hh, Hws. simpl.
  repeat split. intros at0. apply retryDue_spacing. exact Hdue.
Qed.

Lemma updated_quiet (changedProps : ChangedProps) (now : Z) (c : Card) :
  match cycle_entry c with
  | Some entryId => entryIdChanged changedProps entryId
  | None => false
  end = false ->
  cycle_outcome now c (updated changedProps now c).
Proof.
  unfold cycle_entry, updated. intros Hq.
  destruct (hass c) as [h |] eqn:Hh; [| left; split; reflexivity].
  destruct (_config c) as [cfg |]; [| left; split; reflexivity].
  pose proof (load_step_no_attempt now h c) as Hloads.
  destruct (load_step_card h c) as [b1 [b2 [Hc1 _]]].
  destruct (load_step h c) as [c1 loads]. cbn [fst snd] in Hq, Hloads, Hc1.
  assert (Hh1 : hass c1 = Some h) by (rewrite Hc1; exact Hh).
  assert (Hl1 : last_attempt c1 = last_attempt c) by (rewrite Hc1; reflexivity).
  pose proof (resolve_step_quiet changedProps now h
                (trim (or_empty (CardConfig.favorites_entity cfg))) c1 Hh1 Hq) as H.
  destruct (resolve_step changedProps now h _ c1) as [c2 lookups].
  unfold cycle_outcome in *. cbn [fst snd] in *.
  rewrite attempts_in_app, Hloads, app_nil_l, <- Hl1. exact H.
Qed.

Lemma step_quiet (ev : Event) (e : Element) :
  resets ev e = false ->
  (attempts_in ev (snd (step ev e)) = []
   /\ last_attempt (card (fst (step ev e))) = last_attempt (card e))
  \/ (exists entryId now,
        attempts_in ev (snd (step ev e)) = [(entryId, now)]
        /\ last_attempt (card (fst (step ev e))) = Some (entryId, now)
        /\ forall at0, last_attempt (card e) = Some (entryId, at0) ->
                       (COOLDOWN_MS < now - at0)%Z).
Proof.
  destruct ev as [h | config | now | outcome | outcome | entryId listing
                 | value | value | value | value]; simpl; intros Hq.
  - left. split; reflexivity.
  - left. split; reflexivity.
  - pose proof (updated_quiet (changed_config e) now (card e) Hq) as H.
    destruct (updated (changed_config e) now (card e)) as [c requests].
    destruct H as [H | [entryId H]]; [left; exact H |].
    right. exists entryId, now. exact H.
  - left. split; [reflexivity |]. unfold _loadEntries_settled.
    match goal with
    | |- context [if ?b then _ else _] =>
        replace b with false by (symmetry; exact Hq)
    end.
    reflexivity.
  - left. split; reflexivity.
  - left. split; [reflexivity |]. unfold _resolveIdFromConfigEntry_settled.
    break_ifs; reflexivity.
  - rewrite Hq. left. split; reflexivity.
  - left. split; [reflexivity | apply selectFavorite_last_attempt].
  - left. split; [reflexivity | apply name_input_last_attempt].
  - left. split; [reflexivity | apply license_plate_input_last_attempt].
Qed.

Lemma run_quiet_spaced (events : list Event) :
  forall e, quiet events e -> spaced (last_attempt (card e)) (snd (run events e)).
Proof.
  induction events as [| ev rest IH]; intros e Hq; simpl; [exact I |].
  destruct Hq as [Hev Hrest]. specialize (IH (fst (step ev e)) Hrest).
  pose proof (step_quiet ev e Hev) as Hstep.
  destruct (step ev e) as [e1 requests]. cbn [fst snd] in *.
  destruct (run rest e1) as [e2 later]. cbn [fst snd] in *.
  destruct Hstep as [[Hnone Hlast] | [entryId [now [Hone [Hlast Hgap]]]]].
  - rewrite Hnone, <- Hlast. exact IH.
  - rewrite Hone. simpl. rewrite Hlast in IH. split; [exact Hgap | exact IH].
Qed.

(** A cycle that finds the pinned account replaced and has to look the
    new one up clears the resolver state; it starts the lookup in that
    same cycle unless one is still in flight. *)
Lemma updated_after_pin_change (changedProps : ChangedProps) (now : Z) (c : Card)
    (h : HomeAssistant) (cfg : CardConfig.t) (entryId : string) :
  hass c = Some h -> _config c = Some cfg ->
  is_admin h = true -> callWS h = true ->
  blank (or_empty (CardConfig.favorites_entity cfg)) ->
  CardConfig.config_entry_id cfg = Some entryId -> truthy entryId = true ->
  find_entry (_entries c) entryId = None ->
  entryIdChanged changedProps entryId = true ->
  _resolvedIdentifier (fst (updated changedProps now c)) = None
  /\ _resolvedConfigEntryId (fst (updated changedProps now c)) = None
  /\ if _resolvingService c
     then attempts_in (Cycle now) (snd (updated changedProps now c)) = []
          /\ last_attempt (fst (updated changedProps now c)) = None
     else attempts_in (Cycle now) (snd (updated changedProps now c)) = [(entryId, now)]
          /\ last_attempt (fst (updated changedProps now c)) = Some (entryId, now).
Proof.
  intros Hh Hc Hadmin Hws Hb Hpin Ht Hf Hchanged. unfold updated. rewrite Hh, Hc.
  pose proof (load_step_no_attempt now h c) as Hloads.
  destruct (load_step_card h c) as [b1 [b2 [Hc1 _]]].
  destruct (load_step h c) as [c1 loads]. cbn [fst snd] in Hloads, Hc1.
  assert (Ha : _activeEntryId c1 = Some entryId).
  { rewrite Hc1. unfold _activeEntryId, pinned_entry_id. simpl.
    rewrite Hc, Hpin. simpl. rewrite Ht. reflexivity. }
  assert (He : _entries c1 = _entries c) by (rewrite Hc1; reflexivity).
  assert (Hh1 : hass c1 = Some h) by (rewrite Hc1; exact Hh).
  assert (Hr : _resolvingService c1 = _resolvingService c)
    by (rewrite Hc1; reflexivity).
  unfold resolve_step. rewrite Ha, Ht. unfold blank in Hb. rewrite Hb.
  unfold _entryIdentifier. rewrite Ht, He, Hf, Hadmin, Hws, Hchanged. simpl.
  rewrite Hr. destruct (_resolvingService c).
  - cbn [fst snd]. rewrite attempts_in_app, Hloads. repeat split.
  - simpl. unfold _resolveIdFromConfigEntry_begin. simpl. rewrite Hh1, Hws.
    cbn [fst snd]. rewrite attempts_in_app, Hloads. repeat split.
Qed.

(** C4, as amended.  Over a run of events that contains no reset (a pick
    in the entry picker or the automatic selection, both through
    [_setSelectedEntry], or an update cycle for which [entryIdChanged]
    holds: the configuration was replaced and the one before it did not
    pin the account now active), every resolution attempt made for the
    same account as the attempt before it starts more than 30000 ms later
    on the card's clock.  [_setSelectedEntry] clears the cached identity
    and the record of the last attempt.  A cycle that finds the pinned
    account replaced and has to look the new one up clears them too and
    starts the lookup in that same cycle, unless a lookup is still in
    flight, in which case it starts none. *)
Theorem resolution_cooldown :
  (forall events e,
      quiet events e -> spaced (last_attempt (card e)) (snd (run events e)))
  /\ (forall entryId c,
        last_attempt (_setSelectedEntry entryId c) = None
        /\ _resolvedIdentifier (_setSelectedEntry entryId c) = None
        /\ _resolvedConfigEntryId (_setSelectedEntry entryId c) = None)
  /\ (forall changedProps now c h cfg entryId,
        hass c = Some h -> _config c = Some cfg ->
        is_admin h = true -> callWS h = true ->
        blank (or_empty (CardConfig.favorites_entity cfg)) ->
        CardConfig.config_entry_id cfg = Some entryId -> truthy entryId = true ->
        find_entry (_entries c) entryId = None ->
        entryIdChanged changedProps entryId = true ->
        _resolvedIdentifier (fst (updated changedProps now c)) = None
        /\ _resolvedConfigEntryId (fst (updated changedProps now c)) = None
        /\ if _resolvingService c
           then attempts_in (Cycle now) (snd (updated changedProps now c)) = []
                /\ last_attempt (fst (updated changedProps now c)) = None
           else attempts_in (Cycle now) (snd (updated changedProps now c))
                = [(entryId, now)]
                /\ last_attempt (fst (updated changedProps now c))
                   = Some (entryId, now)).
Proof.
  split; [| split].
  - intros events e. apply run_quiet_spaced.
  - intros entryId c. repeat split.
  - apply updated_after_pin_change.
Qed.

Example retry_after_cooldown :
  snd (run unknown_account_pinned new_element) = [("entry-x", 1000%Z)]
  /\ snd (run failed_then_waiting (fst (run unknown_account_pinned new_element)))
     = [("entry-x", 32000%Z)].
Proof. vm_compute. split; reflexivity. Qed.

Lemma resolution_cooldown_witness :
  spaced (Some ("entry-x", 1000%Z))
    (snd (run failed_then_waiting (fst (run unknown_account_pinned new_element)))).
Proof.
  apply (proj1 resolution_cooldown failed_then_waiting
           (fst (run unknown_account_pinned new_element))).
  vm_compute. repeat split.
Defined.

Example lookups_one_second_apart :
  snd (run (selected_account_unlisted ++ configuration_replaced) new_element)
  = [("entry-a", 1000%Z); ("entry-a", 2000%Z)].
Proof. vm_compute. reflexivity. Qed.

(** C4 as worded fails in both halves.  With the account not pinned, a
    replaced configuration makes [entryIdChanged] hold although the
    account is the same, and the lookup is repeated 1000 ms after the
    failed one.  And while a lookup is in flight for the account that was
    active before, the lookup of the new account is not started. *)
Lemma resolution_cooldown_counterexample :
  ~ cooldown_while_account_stays /\ ~ restart_on_change.
Proof.
  split.
  - intros H.
    specialize (H (fst (run selected_account_unlisted new_element))
                  configuration_replaced "entry-a" 1000%Z 2000%Z).
    assert (E : (COOLDOWN_MS < 2000 - 1000)%Z).
    { apply H.
      - vm_compute. reflexivity.
      - vm_compute. repeat split.
      - vm_compute. left. reflexivity. }
    vm_compute in E. discriminate E.
  - intros H.
    specialize (H (fst (run unknown_account_pinned new_element))
                  (sample_config (Some "entry-y") None) 1001%Z
                  "entry-x" "entry-y" admin_host).
    assert (E : snd (run [ConfigSet (sample_config (Some "entry-y") None); Cycle 1001]
                       (fst (run unknown_account_pinned new_element)))
                = [("entry-y", 1001%Z)]).
    { apply H; try (vm_compute; reflexivity). discriminate. }
    vm_compute in E. discriminate E.
Qed.

(** * Further properties *)

(** ** Characters and strings *)


Lemma is_space_upper_char (c : ascii) : is_space (upper_char c) = is_space c.
Proof. destruct c as [[] [] [] [] [] [] [] []]; reflexivity. Qed.


Lemma lower_upper_char (c : ascii) : lower_char (upper_char c) = lower_char c.
Proof. destruct c as [[] [] [] [] [] [] [] []]; reflexivity. Qed.

Lemma upper_lower_char (c : ascii) : upper_char (lower_char c) = upper_char c.
Proof. destruct c as [[] [] [] [] [] [] [] []]; reflexivity. Qed.



Lemma lower_char_slug (c : ascii) :
  is_slug_or_underscore c = true -> lower_char c = c.
Proof. destruct c as [[] [] [] [] [] [] [] []]; intros H; try reflexivity; discriminate H. Qed.

Lemma underscore_not_slug (c : ascii) : is_underscore c = true -> is_slug_char c = false.
Proof. destruct c as [[] [] [] [] [] [] [] []]; intros H; try reflexivity; discriminate H. Qed.



Lemma map_chars_id_on (p : ascii -> bool) (f : ascii -> ascii) (s : string) :
  (forall c, p c = true -> f c = c) -> all_chars p s = true -> map_chars f s = s.
Proof.
  intros H. induction s as [| c r IH]; simpl; [reflexivity |].
  intros Hs. apply andb_true_iff in Hs as [Hc Hr].
  rewrite (H c Hc), (IH Hr). reflexivity.
Qed.

Lemma all_chars_impl (p q : ascii -> bool) (s : string) :
  (forall c, p c = true -> q c = true) -> all_chars p s = true -> all_chars q s = true.
Proof.
  intros H. induction s as [| c r IH]; simpl; [reflexivity |].
  intros Hs. apply andb_true_iff in Hs as [Hc Hr].
  rewrite (H c Hc), (IH Hr). reflexivity.
Qed.

Lemma all_chars_filter (p : ascii -> bool) (s : string) :
  all_chars p (filter_chars p s) = true.
Proof.
  induction s as [| c r IH]; simpl; [reflexivity |].
  destruct (p c) eqn:E; simpl; [rewrite E |]; exact IH.
Qed.


Lemma drop_start_head (p : ascii -> bool) (s : string) :
  head_is p (drop_start p s) = false.
Proof.
  induction s as [| c r IH]; simpl; [reflexivity |].
  destruct (p c) eqn:E; [exact IH | simpl; exact E].
Qed.

Lemma drop_start_fixed (p : ascii -> bool) (s : string) :
  head_is p s = false -> drop_start p s = s.
Proof. destruct s as [| c r]; simpl; [reflexivity | intros ->; reflexivity]. Qed.

Lemma drop_end_step (p : ascii -> bool) (c : ascii) (r : string) :
  drop_end p (String c r)
  = match drop_end p r with
    | EmptyString => if p c then EmptyString else String c EmptyString
    | String d r' => String c (String d r')
    end.
Proof. reflexivity. Qed.

Lemma drop_end_idem (p : ascii -> bool) (s : string) :
  drop_end p (drop_end p s) = drop_end p s.
Proof.
  induction s as [| c r IH]; [reflexivity |].
  rewrite drop_end_step. destruct (drop_end p r) as [| d r'] eqn:E.
  - destruct (p c) eqn:Hc; [reflexivity |].
    rewrite drop_end_step. simpl. rewrite Hc. reflexivity.
  - rewrite drop_end_step, IH. reflexivity.
Qed.

Lemma drop_end_last (p : ascii -> bool) (s : string) :
  last_is p (drop_end p s) = false.
Proof.
  induction s as [| c r IH]; [reflexivity |].
  rewrite drop_end_step. destruct (drop_end p r) as [| d r'] eqn:E.
  - destruct (p c) eqn:Hc; simpl; [reflexivity | exact Hc].
  - exact IH.
Qed.

Lemma drop_end_fixed (p : ascii -> bool) (s : string) :
  last_is p s = false -> drop_end p s = s.
Proof.
  induction s as [| c r IH]; [reflexivity |].
  rewrite drop_end_step. destruct r as [| d r'].
  - simpl. intros ->. reflexivity.
  - intros H. change (last_is p (String d r') = false) in H.
    rewrite (IH H). reflexivity.
Qed.

Lemma drop_end_head (p : ascii -> bool) (s : string) :
  head_is p s = false -> head_is p (drop_end p s) = false.
Proof.
  destruct s as [| c r]; [reflexivity |].
  rewrite drop_end_step. simpl. intros Hc.
  destruct (drop_end p r); [rewrite Hc |]; simpl; [exact Hc | exact Hc].
Qed.

Lemma all_chars_drop_start (p q : ascii -> bool) (s : string) :
  all_chars q s = true -> all_chars q (drop_start p s) = true.
Proof.
  induction s as [| c r IH]; simpl; [reflexivity |].
  intros Hs. destruct (p c); [| exact Hs].
  apply andb_true_iff in Hs as [_ Hr]. exact (IH Hr).
Qed.

Lemma all_chars_drop_end (p q : ascii -> bool) (s : string) :
  all_chars q s = true -> all_chars q (drop_end p s) = true.
Proof.
  induction s as [| c r IH]; [reflexivity |].
  rewrite drop_end_step. simpl. intros Hs.
  apply andb_true_iff in Hs as [Hc Hr]. specialize (IH Hr).
  destruct (drop_end p r) as [| d r'].
  - destruct (p c); simpl; [reflexivity | rewrite Hc; reflexivity].
  - simpl. simpl in IH. rewrite Hc, IH. reflexivity.
Qed.

Lemma trim_idem (s : string) : trim (trim s) = trim s.
Proof.
  unfold trim.
  rewrite (drop_start_fixed is_space (drop_end is_space (drop_start is_space s))).
  - apply drop_end_idem.
  - apply drop_end_head, drop_start_head.
Qed.

Lemma trim_fixed (s : string) : all_chars not_space s = true -> trim s = s.
Proof.
  intros H. unfold trim.
  assert (Hh : head_is is_space s = false).
  { destruct s as [| c r]; [reflexivity |]. simpl in *.
    apply andb_true_iff in H as [Hc _]. apply negb_true_iff in Hc. exact Hc. }
  rewrite (drop_start_fixed _ _ Hh). apply drop_end_fixed.
  clear Hh. induction s as [| c r IH]; [reflexivity |].
  simpl in H. apply andb_true_iff in H as [Hc Hr]. apply negb_true_iff in Hc.
  destruct r as [| d r']; [exact Hc | exact (IH Hr)].
Qed.




Lemma slug_char_not_underscore (c : ascii) :
  is_slug_char c = true -> is_underscore c = false.
Proof. destruct c as [[] [] [] [] [] [] [] []]; intros H; try reflexivity; discriminate H. Qed.

Lemma plate_char_upper (c : ascii) : is_plate_char (upper_char c) = is_alnum c.
Proof. destruct c as [[] [] [] [] [] [] [] []]; reflexivity. Qed.

Lemma space_not_alnum (c : ascii) : is_space c = true -> is_alnum c = false.
Proof. destruct c as [[] [] [] [] [] [] [] []]; intros H; try reflexivity; discriminate H. Qed.

Lemma filter_chars_map (p : ascii -> bool) (f : ascii -> ascii) (s : string) :
  filter_chars p (map_chars f s) = map_chars f (filter_chars (fun c => p (f c)) s).
Proof.
  induction s as [| c r IH]; simpl; [reflexivity |].
  destruct (p (f c)); simpl; rewrite IH; reflexivity.
Qed.

Lemma filter_chars_ext (p q : ascii -> bool) (s : string) :
  (forall c, p c = q c) -> filter_chars p s = filter_chars q s.
Proof.
  intros H. induction s as [| c r IH]; simpl; [reflexivity |].
  rewrite H, IH. reflexivity.
Qed.

Lemma filter_chars_drop_start (p q : ascii -> bool) (s : string) :
  (forall c, q c = true -> p c = false) ->
  filter_chars p (drop_start q s) = filter_chars p s.
Proof.
  intros H. induction s as [| c r IH]; simpl; [reflexivity |].
  destruct (q c) eqn:E; [| reflexivity]. rewrite (H c E). exact IH.
Qed.

Lemma filter_chars_drop_end (p q : ascii -> bool) (s : string) :
  (forall c, q c = true -> p c = false) ->
  filter_chars p (drop_end q s) = filter_chars p s.
Proof.
  intros H. induction s as [| c r IH]; [reflexivity |].
  rewrite drop_end_step. simpl. rewrite <- IH.
  destruct (drop_end q r) as [| d r']; simpl.
  - destruct (q c) eqn:E; simpl; [rewrite (H c E) |]; reflexivity.
  - reflexivity.
Qed.

(** ** Normaliser *)


(** X2.  The normalised plate is the letters and digits of the text, in
    order and in upper case; every other character, white space included,
    is dropped wherever it stands.  So a plate compares equal however it is
    spaced, hyphenated or cased. *)
Theorem normalizePlate_letters_and_digits (value : string) :
  _normalizePlate value = toUpperCase (filter_chars is_alnum value)
  /\ all_chars is_plate_char (_normalizePlate value) = true.
Proof.
  split; [| apply all_chars_filter].
  unfold _normalizePlate, toUpperCase, trim.
  rewrite filter_chars_map.
  rewrite (filter_chars_ext _ is_alnum) by apply plate_char_upper.
  rewrite (filter_chars_drop_end is_alnum is_space) by apply space_not_alnum.
  rewrite (filter_chars_drop_start is_alnum is_space) by apply space_not_alnum.
  reflexivity.
Qed.

Example normalizePlate_spelling :
  _normalizePlate " ab-12 cd" = "AB12CD" /\ _normalizePlate "AB12CD" = "AB12CD".
Proof. split; reflexivity. Qed.

(** ** Slugs *)

Lemma underscore_char (c : ascii) : is_underscore c = true -> c = "_"%char.
Proof. unfold is_underscore. apply Ascii.eqb_eq. Qed.

Lemma slug_or_underscore_cases (c : ascii) :
  is_slug_or_underscore c = true -> is_slug_char c = false -> is_underscore c = true.
Proof.
  unfold is_slug_or_underscore. intros H E. rewrite E in H. exact H.
Qed.

Lemma squash_foreign_chars (s : string) :
  forall b, all_chars is_slug_or_underscore (squash_foreign b s) = true.
Proof.
  induction s as [| c r IH]; intros b; simpl; [reflexivity |].
  destruct (is_slug_char c) eqn:E; simpl.
  - unfold is_slug_or_underscore at 1. rewrite E. simpl. apply IH.
  - destruct b; simpl; apply IH.
Qed.

Lemma squash_foreign_pairs (s : string) :
  forall b,
    has_pair is_underscore (squash_foreign b s) = false
    /\ (b = true -> head_is is_underscore (squash_foreign b s) = false).
Proof.
  induction s as [| c r IH]; intros b; simpl; [split; reflexivity |].
  destruct (is_slug_char c) eqn:E.
  - destruct (IH false) as [Hp _]. simpl.
    rewrite (slug_char_not_underscore c E), Hp. split; reflexivity.
  - destruct b.
    + apply IH.
    + destruct (IH true) as [Hp Hh]. simpl. rewrite (Hh eq_refl), Hp.
      split; [reflexivity | discriminate].
Qed.

Lemma has_pair_drop_start (p q : ascii -> bool) (s : string) :
  has_pair p s = false -> has_pair p (drop_start q s) = false.
Proof.
  induction s as [| c r IH]; simpl; [reflexivity |].
  intros H. destruct (q c); [| exact H].
  apply orb_false_iff in H as [_ Hr]. exact (IH Hr).
Qed.

Lemma drop_end_keeps_head (q : ascii -> bool) (s : string) (d : ascii) (r' : string) :
  drop_end q s = String d r' -> exists r, s = String d r.
Proof.
  destruct s as [| c r]; [discriminate |].
  rewrite drop_end_step. destruct (drop_end q r); [destruct (q c) |];
    intros H; try discriminate H; injection H as <- _; eauto.
Qed.

Lemma has_pair_drop_end (p q : ascii -> bool) (s : string) :
  has_pair p s = false -> has_pair p (drop_end q s) = false.
Proof.
  induction s as [| c r IH]; [reflexivity |].
  rewrite drop_end_step. simpl. intros H.
  apply orb_false_iff in H as [Hc Hr]. specialize (IH Hr).
  destruct (drop_end q r) as [| d r'] eqn:E.
  - destruct (q c); simpl; [reflexivity |]. rewrite andb_false_r. reflexivity.
  - destruct (drop_end_keeps_head q r d r' E) as [r'' ->].
    simpl in Hc. change (has_pair p (String c (String d r')))
      with ((p c && p d) || has_pair p (String d r')).
    rewrite Hc, IH. reflexivity.
Qed.

Lemma slugifyId_shaped (value : string) : slug_shaped (slugifyId value).
Proof.
  unfold slugifyId, slug_shaped.
  set (t := squash_foreign false (toLowerCase value)).
  destruct (squash_foreign_pairs (toLowerCase value) false) as [Hp _]. fold t in Hp.
  repeat split.
  - apply all_chars_drop_end, all_chars_drop_start, squash_foreign_chars.
  - apply drop_end_head, drop_start_head.
  - apply drop_end_last.
  - apply has_pair_drop_end, has_pair_drop_start, Hp.
Qed.

Lemma squash_foreign_fixed (s : string) :
  forall b,
    all_chars is_slug_or_underscore s = true ->
    has_pair is_underscore s = false ->
    (b = true -> head_is is_underscore s = false) ->
    squash_foreign b s = s.
Proof.
  induction s as [| c r IH]; intros b Ha Hp Hh; simpl; [reflexivity |].
  simpl in Ha, Hp. apply andb_true_iff in Ha as [Hc Hr].
  apply orb_false_iff in Hp as [Hcp Hrp].
  destruct (is_slug_char c) eqn:E.
  - rewrite (IH false Hr Hrp); [reflexivity | discriminate].
  - pose proof (slug_or_underscore_cases c Hc E) as Hu.
    destruct b.
    + simpl in Hh. rewrite (Hh eq_refl) in Hu. discriminate Hu.
    + rewrite Hu in Hcp. simpl in Hcp.
      rewrite (IH true Hr Hrp (fun _ => Hcp)), (underscore_char c Hu). reflexivity.
Qed.

Lemma slugifyId_fixed (s : string) : slug_shaped s -> slugifyId s = s.
Proof.
  intros [Ha [Hh [Hl Hp]]]. unfold slugifyId, toLowerCase.
  rewrite (map_chars_id_on is_slug_or_underscore lower_char s lower_char_slug Ha).
  rewrite (squash_foreign_fixed s false Ha Hp) by discriminate.
  rewrite (drop_start_fixed _ _ Hh). apply drop_end_fixed, Hl.
Qed.

(** X3.  A slug consists of lower-case letters, digits and underscores
    only, neither begins nor ends with an underscore, and never has two
    underscores in a row. *)
Theorem slugifyId_form (value : string) :
  all_chars is_slug_or_underscore (slugifyId value) = true
  /\ head_is is_underscore (slugifyId value) = false
  /\ last_is is_underscore (slugifyId value) = false
  /\ has_pair is_underscore (slugifyId value) = false.
Proof.
  destruct (slugifyId_shaped value) as [Hchars [Hhead [Hlast Hpair]]].
  repeat split; assumption.
Qed.

(** X4.  The texts [slugifyId] leaves unchanged are exactly the texts of
    that form; in particular slugifying a slug again gives the same
    slug. *)
Theorem slugifyId_fixed_points (s : string) :
  (slugifyId s = s <-> slug_shaped s)
  /\ slugifyId (slugifyId s) = slugifyId s.
Proof.
  split; [split |].
  - intros H. rewrite <- H. apply slugifyId_shaped.
  - apply slugifyId_fixed.
  - apply slugifyId_fixed, slugifyId_shaped.
Qed.

Example slugifyId_messy : slugifyId "__Den  Haag (12/3)!" = "den_haag_12_3".
Proof. reflexivity. Qed.

(** ** Identifier in the title *)

Lemma until_close_Some (s body rest : string) :
  until_close s = Some (body, rest) ->
  s = body ++ String ")" rest /\ all_chars not_close body = true.
Proof.
  revert body. induction s as [| c r IH]; intros body; simpl; [discriminate |].
  destruct (c =? ")")%char eqn:E.
  - intros H. injection H as <- <-. apply Ascii.eqb_eq in E. subst c.
    split; reflexivity.
  - destruct (until_close r) as [[b rest'] |]; [| discriminate].
    intros H. injection H as <- <-. destruct (IH b eq_refl) as [-> Hb].
    split; [reflexivity |]. simpl. unfold not_close at 1. rewrite E. exact Hb.
Qed.

Lemma until_close_None (s : string) :
  all_chars not_close s = true -> until_close s = None.
Proof.
  induction s as [| c r IH]; simpl; [reflexivity |].
  unfold not_close at 1. intros H. apply andb_true_iff in H as [Hc Hr].
  apply negb_true_iff in Hc. rewrite Hc, (IH Hr). reflexivity.
Qed.

Lemma title_match_here_Some (s group : string) :
  title_match_here s = Some group ->
  exists rest,
    s = String "(" (group ++ String ")" rest)
    /\ group <> "" /\ all_chars not_close group = true
    /\ all_chars is_space rest = true.
Proof.
  destruct s as [| a r]; [discriminate |].
  destruct (not_open a) eqn:Ha.
  - rewrite (title_match_here_other a r Ha). discriminate.
  - apply negb_false_iff, Ascii.eqb_eq in Ha. subst a. simpl.
    destruct (until_close r) as [[body rest] |] eqn:E; [| discriminate].
    destruct body as [| c b]; [discriminate |].
    destruct (all_chars is_space rest) eqn:Hs; [| discriminate].
    intros H. injection H as <-.
    destruct (until_close_Some r _ rest E) as [-> Hb].
    exists rest. split; [reflexivity |]. split; [discriminate |].
    split; [exact Hb | exact Hs].
Qed.

Lemma title_exec_Some (t group : string) :
  title_exec t = Some group ->
  exists pre rest,
    t = pre ++ String "(" (group ++ String ")" rest)
    /\ group <> "" /\ all_chars not_close group = true
    /\ all_chars is_space rest = true.
Proof.
  induction t as [| a r IH].
  - simpl. discriminate.
  - rewrite title_exec_step.
    destruct (title_match_here (String a r)) as [g |] eqn:E.
    + intros H. injection H as <-.
      destruct (title_match_here_Some _ _ E) as [rest [Hs H]].
      exists "", rest. split; [exact Hs | exact H].
    + intros H. destruct (IH H) as [pre [rest [-> Hrest]]].
      exists (String a pre), rest. split; [reflexivity | exact Hrest].
Qed.

Lemma title_exec_None (t : string) :
  all_chars not_close t = true -> title_exec t = None.
Proof.
  induction t as [| a r IH]; [reflexivity |].
  intros H. rewrite title_exec_step.
  assert (Hr : all_chars not_close r = true)
    by (simpl in H; apply andb_true_iff in H as [_ Hr]; exact Hr).
  destruct (title_match_here (String a r)) as [g |] eqn:E; [| exact (IH Hr)].
  destruct (title_match_here_Some _ _ E) as [rest [Hs _]].
  injection Hs as _ ->.
  assert (Hnone : until_close (g ++ String ")" rest) = None)
    by (apply until_close_None, Hr).
  destruct (title_match_here_Some _ _ E) as [rest' [_ [_ [Hg _]]]].
  rewrite (until_close_body g rest Hg) in Hnone. discriminate Hnone.
Qed.

(** X5.  Whatever [parseIdFromTitle] returns is the trimmed content of a
    parenthetical that ends the title (only white space may follow it): it
    is not empty, carries no white space at either end and contains no
    closing parenthesis.  A title without a closing parenthesis yields
    nothing. *)
Theorem parseIdFromTitle_sound (t : string) :
  (forall v, parseIdFromTitle t = Some v ->
     v <> "" /\ trim v = v /\ all_chars not_close v = true
     /\ exists pre group rest,
          t = pre ++ String "(" (group ++ String ")" rest)
          /\ all_chars not_close group = true
          /\ all_chars is_space rest = true
          /\ v = trim group)
  /\ (all_chars not_close t = true -> parseIdFromTitle t = None).
Proof.
  unfold parseIdFromTitle. split.
  - intros v. destruct (title_exec t) as [g |] eqn:E; [| discriminate].
    destruct (truthy (trim g)) eqn:Ht; [| discriminate].
    intros H. injection H as <-.
    destruct (title_exec_Some t g E) as [pre [rest [Hs [_ [Hg Hrest]]]]].
    split; [apply truthy_true, Ht |]. split; [apply trim_idem |]. split.
    + unfold trim. apply all_chars_drop_end, all_chars_drop_start, Hg.
    + exists pre, g, rest. auto.
  - intros H. rewrite (title_exec_None t H). reflexivity.
Qed.

Lemma parseIdFromTitle_sound_witness :
  "12345" <> "" /\ trim "12345" = "12345" /\ all_chars not_close "12345" = true
  /\ exists pre group rest,
       "Den Haag ( 12345 ) " = pre ++ String "(" (group ++ String ")" rest)
       /\ all_chars not_close group = true
       /\ all_chars is_space rest = true
       /\ "12345" = trim group.
Proof.
  apply (proj1 (parseIdFromTitle_sound "Den Haag ( 12345 ) ") "12345").
  reflexivity.
Defined.

(** ** Lookup of an account *)

Lemma find_entry_None (entries : list ConfigEntrySummary) (entryId : string) :
  find_entry entries entryId = None
  <-> forall e, In e entries -> entry_id e <> entryId.
Proof.
  unfold find_entry. split.
  - intros H e He Heq. pose proof (find_none _ _ H e He) as Hn. simpl in Hn.
    apply String.eqb_neq in Hn. contradiction.
  - intros H. destruct (find _ entries) as [e |] eqn:E; [| reflexivity].
    apply find_some in E as [He Heq]. apply String.eqb_eq in Heq.
    exfalso. exact (H e He Heq).
Qed.

(** X6.  [resolveIdFromConfigEntry] gives up without asking when the host
    has no [callWS], and rejects only when the listing call rejects.
    Otherwise it yields nothing exactly when no listed account has the
    entry id, and else the identifier of a listed account with that id,
    which is not empty when the entry id is not. *)
Theorem resolveIdFromConfigEntry_outcome (entryId : string) :
  (forall listing, resolveIdFromConfigEntry false listing entryId = Fulfilled None)
  /\ resolveIdFromConfigEntry true Rejected entryId = Rejected
  /\ forall entries,
       resolveIdFromConfigEntry true (Fulfilled entries) entryId <> Rejected
       /\ (resolveIdFromConfigEntry true (Fulfilled entries) entryId = Fulfilled None
           <-> forall e, In e entries -> entry_id e <> entryId)
       /\ forall v,
            resolveIdFromConfigEntry true (Fulfilled entries) entryId
            = Fulfilled (Some v) ->
            exists entry,
              In entry entries /\ entry_id entry = entryId
              /\ v = resolveIdentifierFromEntry entry
              /\ (entryId <> "" -> v <> "").
Proof.
  split; [reflexivity |]. split; [reflexivity |].
  intros entries. unfold resolveIdFromConfigEntry. simpl.
  destruct (find_entry entries entryId) as [entry |] eqn:E.
  - destruct (find_entry_Some _ _ _ E) as [Hin Hid].
    split; [discriminate |]. split.
    + split; [discriminate |]. intros H. exfalso. exact (H entry Hin Hid).
    + intros v H. injection H as <-. exists entry. repeat split; try assumption.
      intros Hne. apply truthy_true, resolveIdentifierFromEntry_truthy.
      rewrite Hid. apply truthy_true, Hne.
  - split; [discriminate |]. split.
    + split; [intros _; apply find_entry_None, E | reflexivity].
    + discriminate.
Qed.

Lemma resolveIdFromConfigEntry_outcome_witness :
  exists entry,
    In entry [account_b; account_a] /\ entry_id entry = "entry-a"
    /\ "1001" = resolveIdentifierFromEntry entry
    /\ ("entry-a" <> "" -> "1001" <> "").
Proof.
  destruct (resolveIdFromConfigEntry_outcome "entry-a") as [_ [_ H]].
  destruct (H [account_b; account_a]) as [_ [_ Hsome]].
  apply (Hsome "1001"). reflexivity.
Defined.

(** ** Draft editing *)

(** [_syncFavoriteToggles] writes the two toggles only. *)
Lemma syncFavoriteToggles_toggles (c : Card) :
  derived (_syncFavoriteToggles c) = derived c
  /\ draft (_syncFavoriteToggles c)
     = (_favoriteDraft c, _nameDraft c, _licensePlateDraft c,
        _addToFavorites c && _showAddToFavorites c,
        _updateFavorite c && _canUpdateFavorite c).
Proof.
  unfold _syncFavoriteToggles.
  destruct (bool_decide (is_Some (_selectedFavorite c))) eqn:Hsel.
  - destruct (_showAddToFavorites c) eqn:Ha; simpl.
    + destruct (_canUpdateFavorite c) eqn:Hu; simpl;
        (split; [reflexivity | unfold draft; simpl; rewrite ?andb_true_r, ?andb_false_r;
                               reflexivity]).
    + change (_canUpdateFavorite (set_addToFavorites false c))
        with (_canUpdateFavorite c).
      destruct (_canUpdateFavorite c) eqn:Hu; simpl;
        (split; [reflexivity | unfold draft; simpl; rewrite ?andb_true_r, ?andb_false_r;
                               reflexivity]).
  - assert (Hu : _canUpdateFavorite c = false).
    { unfold _canUpdateFavorite, _offerUpdateFavorite. rewrite Hsel. reflexivity. }
    change (_showAddToFavorites (set_updateFavorite false c))
      with (_showAddToFavorites c).
    rewrite Hu. destruct (_showAddToFavorites c) eqn:Ha; simpl;
      (split; [reflexivity | unfold draft; simpl; rewrite ?andb_true_r, ?andb_false_r;
                             reflexivity]).
Qed.

Lemma syncFavoriteToggles_consistent (c : Card) :
  toggles_consistent (_syncFavoriteToggles c).
Proof.
  destruct (syncFavoriteToggles_toggles c) as [Hd Hdraft].
  assert (Ha : _showAddToFavorites (_syncFavoriteToggles c) = _showAddToFavorites c)
    by exact (f_equal showAdd Hd).
  assert (Hu : _canUpdateFavorite (_syncFavoriteToggles c) = _canUpdateFavorite c)
    by exact (f_equal updateEnabled Hd).
  unfold draft in Hdraft. injection Hdraft as _ _ _ Hadd Hupd.
  unfold toggles_consistent. rewrite Ha, Hu, Hadd, Hupd.
  split; intros H; apply andb_true_iff in H as [_ H]; exact H.
Qed.

(** X7.  After the name or the plate is typed, and after any choice in the
    favourites list, a toggle that is on has its action available: "add to
    favourites" is on only while it is offered, "update favourite" only
    while it is enabled. *)
Theorem toggles_consistent_after_edit (value : string) (c : Card) :
  toggles_consistent (name_input value c)
  /\ toggles_consistent (license_plate_input value c)
  /\ toggles_consistent (_selectFavorite value c).
Proof.
  split; [| split].
  - apply syncFavoriteToggles_consistent.
  - apply syncFavoriteToggles_consistent.
  - unfold _selectFavorite.
    destruct (negb (truthy value)); [apply syncFavoriteToggles_consistent |].
    destruct (Number value) as [| neg | index];
      try (split; intros H; discriminate H).
    destruct (Qltb index 0 || Qgeb index _); [split; intros H; discriminate H |].
    destruct (element_at _ index); [apply syncFavoriteToggles_consistent |].
    split; intros H; discriminate H.
Qed.

Lemma maybeResetFavoriteSelection_result (c : Card) :
  _maybeResetFavoriteSelection c
  = if _selectedFavoriteChangedBoth c
    then set_updateFavorite false (set_favoriteDraft "" c)
    else c.
Proof.
  unfold _maybeResetFavoriteSelection, _selectedFavoriteChangedBoth,
    _selectedFavoriteNameChanged.
  destruct (_selectedFavorite c); simpl; [| reflexivity].
  destruct (negb _ && _); reflexivity.
Qed.

Lemma no_selection_without_text (c : Card) :
  _favoriteDraft c = "" -> _selectedFavorite c = None.
Proof.
  unfold _selectedFavorite, _selectedFavoriteIndex. intros ->. reflexivity.
Qed.

Lemma changedBoth_needs_selection (c : Card) :
  _selectedFavorite c = None -> _selectedFavoriteChangedBoth c = false.
Proof.
  unfold _selectedFavoriteChangedBoth, _selectedFavoriteNameChanged.
  intros ->. reflexivity.
Qed.

Lemma maybeResetFavoriteSelection_settled (c : Card) :
  _selectedFavoriteChangedBoth (_maybeResetFavoriteSelection c) = false.
Proof.
  rewrite maybeResetFavoriteSelection_result.
  destruct (_selectedFavoriteChangedBoth c) eqn:E; [| exact E].
  apply changedBoth_needs_selection, no_selection_without_text. reflexivity.
Qed.

Lemma showAdd_needs_no_selection (c : Card) :
  _selectedFavoriteChangedBoth c = false ->
  _showAddToFavorites c = true -> _selectedFavorite c = None.
Proof.
  unfold _showAddToFavorites. intros ->.
  destruct (negb _ || negb _); [discriminate |].
  destruct (_selectedFavorite c); simpl; [discriminate | reflexivity].
Qed.

(** X8.  Typing a name (or a plate) that leaves both the name and the
    plate different from the selected favourite drops the selection and
    switches "update favourite" off; any other typing keeps the
    selection.  Either way, once the input is handled the draft never
    differs in both fields from a favourite that is still selected, and
    "add to favourites" is offered only with no favourite selected. *)
Theorem typing_settles_selection (value : string) (c : Card) :
  (let typed := set_nameDraft value c in
   let c' := name_input value c in
   _nameDraft c' = value /\ _licensePlateDraft c' = _licensePlateDraft c
   /\ _favoriteDraft c'
      = (if _selectedFavoriteChangedBoth typed then "" else _favoriteDraft c)
   /\ (_selectedFavoriteChangedBoth typed = true -> _updateFavorite c' = false)
   /\ _selectedFavoriteChangedBoth c' = false
   /\ (_showAddToFavorites c' = true -> _selectedFavorite c' = None))
  /\ (let typed := set_licensePlateDraft value c in
      let c' := license_plate_input value c in
      _licensePlateDraft c' = value /\ _nameDraft c' = _nameDraft c
      /\ _favoriteDraft c'
         = (if _selectedFavoriteChangedBoth typed then "" else _favoriteDraft c)
      /\ (_selectedFavoriteChangedBoth typed = true -> _updateFavorite c' = false)
      /\ _selectedFavoriteChangedBoth c' = false
      /\ (_showAddToFavorites c' = true -> _selectedFavorite c' = None)).
Proof.
  assert (H : forall typed : Card,
             let c' := _syncFavoriteToggles (_maybeResetFavoriteSelection typed) in
             _nameDraft c' = _nameDraft typed
             /\ _licensePlateDraft c' = _licensePlateDraft typed
             /\ _favoriteDraft c'
                = (if _selectedFavoriteChangedBoth typed then ""
                   else _favoriteDraft typed)
             /\ (_selectedFavoriteChangedBoth typed = true -> _updateFavorite c' = false)
             /\ _selectedFavoriteChangedBoth c' = false
             /\ (_showAddToFavorites c' = true -> _selectedFavorite c' = None)).
  { intros typed c'. subst c'.
    set (r := _maybeResetFavoriteSelection typed).
    destruct (syncFavoriteToggles_toggles r) as [Hd Hdraft].
    unfold draft in Hdraft. injection Hdraft as Hf Hn Hp _ Hu.
    assert (Hboth : _selectedFavoriteChangedBoth (_syncFavoriteToggles r) = false).
    { transitivity (_selectedFavoriteChangedBoth r).
      - exact (f_equal selectedChangedBoth Hd).
      - apply maybeResetFavoriteSelection_settled. }
    rewrite Hf, Hn, Hp, Hu. unfold r at 1 2 3 4.
    rewrite maybeResetFavoriteSelection_result.
    destruct (_selectedFavoriteChangedBoth typed) eqn:E; simpl;
      (repeat split; try reflexivity; try discriminate;
       try exact Hboth; try apply (showAdd_needs_no_selection _ Hboth)). }
  split.
  - exact (H (set_nameDraft value c)).
  - destruct (H (set_licensePlateDraft value c)) as [Hn [Hp Hrest]].
    split; [exact Hp |]. split; [exact Hn | exact Hrest].
Qed.

Lemma typing_settles_selection_witness :
  _updateFavorite (name_input "Dad" editing_mom) = false.
Proof.
  pose proof (proj1 (typing_settles_selection "Dad" editing_mom)) as H.
  cbv zeta in H. destruct H as (_ & _ & _ & H & _).
  apply H. vm_compute. reflexivity.
Defined.

Lemma favoriteMatchesDraft_trimmed (f : Favorite.t) :
  _favoriteMatchesDraft f (trim (or_empty (Favorite.name f)))
    (trim (or_empty (Favorite.license_plate f))) = true.
Proof.
  unfold _favoriteMatchesDraft, _normalizeName, _normalizePlate.
  rewrite !trim_idem, !String.eqb_refl. reflexivity.
Qed.

Lemma selected_favorite_matching (c : Card) (f : Favorite.t) :
  _selectedFavorite c = Some f ->
  _favoriteMatchesDraft f (_nameDraft c) (_licensePlateDraft c) = true ->
  _showAddToFavorites c = false /\ _offerUpdateFavorite c = false.
Proof.
  intros Hsel Hm.
  assert (Hchanged : _selectedFavoriteChanged c = false).
  { unfold _selectedFavoriteChanged. rewrite Hsel, Hm. reflexivity. }
  assert (Hboth : _selectedFavoriteChangedBoth c = false).
  { unfold _selectedFavoriteChangedBoth, _selectedFavoriteNameChanged. rewrite Hsel.
    unfold _favoriteMatchesDraft in Hm. apply andb_true_iff in Hm as [Hn _].
    rewrite Hn. reflexivity. }
  unfold _showAddToFavorites, _offerUpdateFavorite.
  rewrite Hsel, Hchanged, Hboth. simpl.
  split; [| reflexivity].
  destruct (negb _ || negb _); reflexivity.
Qed.

(** [_selectFavorite] applies the tests of [_selectedFavorite] to the value
    it has just stored. *)
Lemma selectFavorite_cases (value : string) (c : Card) :
  let picked := set_updateFavorite false
                  (set_addToFavorites false (set_favoriteDraft value c)) in
  _selectFavorite value c
  = if truthy value then
      match _selectedFavorite (set_favoriteDraft value c) with
      | Some f =>
          _syncFavoriteToggles
            (set_licensePlateDraft (trim (or_empty (Favorite.license_plate f)))
               (set_nameDraft (trim (or_empty (Favorite.name f))) picked))
      | None => picked
      end
    else _syncFavoriteToggles (set_licensePlateDraft "" (set_nameDraft "" picked)).
Proof.
  unfold _selectFavorite, _selectedFavorite, _selectedFavoriteIndex.
  cbn [_favoriteDraft set_favoriteDraft].
  change (_favorites (set_favoriteDraft value c)) with (_favorites c).
  change (_favorites (set_updateFavorite false
                        (set_addToFavorites false (set_favoriteDraft value c))))
    with (_favorites c).
  destruct (truthy value); simpl; [| reflexivity].
  destruct (Number value) as [| neg | index]; try reflexivity.
  destruct (Qltb index 0 || Qgeb index _); reflexivity.
Qed.

(** X9.  What choosing a value in the favourites list does.  A value that
    designates a favourite loads that favourite's trimmed name and plate,
    keeps it selected, and offers neither "add" nor "update"; only the
    delete action can show.  The empty value clears the name and the
    plate.  Any other value leaves the typed name and plate as they are
    and selects nothing.  In every case both toggles end switched off. *)
Theorem selectFavorite_result (value : string) (c : Card) :
  (forall f, _selectedFavorite (set_favoriteDraft value c) = Some f ->
     _selectedFavorite (_selectFavorite value c) = Some f
     /\ draft (_selectFavorite value c)
        = (value, trim (or_empty (Favorite.name f)),
           trim (or_empty (Favorite.license_plate f)), false, false)
     /\ _showAddToFavorites (_selectFavorite value c) = false
     /\ _offerUpdateFavorite (_selectFavorite value c) = false
     /\ showDeleteFavorite (_selectFavorite value c)
        = canDeleteFavorite (_selectFavorite value c))
  /\ (_selectedFavorite (set_favoriteDraft value c) = None ->
      _selectedFavorite (_selectFavorite value c) = None
      /\ draft (_selectFavorite value c)
         = (value,
            (if truthy value then _nameDraft c else ""),
            (if truthy value then _licensePlateDraft c else ""),
            false, false)).
Proof.
  rewrite selectFavorite_cases. cbv zeta. split.
  - intros f Hf.
    assert (Ht : truthy value = true).
    { destruct (truthy value) eqn:Ht; [reflexivity |].
      apply truthy_false in Ht. subst value.
      rewrite no_selection_without_text in Hf by reflexivity. discriminate Hf. }
    rewrite Ht, Hf.
    set (loaded := set_licensePlateDraft _ (set_nameDraft _ _)).
    destruct (syncFavoriteToggles_toggles loaded) as [Hd Hdraft].
    assert (Hsel : _selectedFavorite loaded = Some f) by exact Hf.
    destruct (selected_favorite_matching loaded f Hsel
                (favoriteMatchesDraft_trimmed f)) as [Hadd Hupd].
    assert (Ha : _showAddToFavorites (_syncFavoriteToggles loaded) = false)
      by (rewrite <- Hadd; exact (f_equal showAdd Hd)).
    assert (Hu : _offerUpdateFavorite (_syncFavoriteToggles loaded) = false)
      by (rewrite <- Hupd; exact (f_equal showUpdate Hd)).
    split; [rewrite <- Hsel; exact (f_equal selectedFavorite Hd) |].
    split; [rewrite Hdraft; reflexivity |].
    split; [exact Ha |]. split; [exact Hu |].
    unfold showDeleteFavorite. rewrite Ha, Hu, !andb_true_r. reflexivity.
  - intros Hnone. rewrite Hnone. destruct (truthy value) eqn:Ht.
    + split; [exact Hnone | reflexivity].
    + set (cleared := set_licensePlateDraft "" (set_nameDraft "" _)).
      destruct (syncFavoriteToggles_toggles cleared) as [Hd Hdraft].
      apply truthy_false in Ht. subst value. split.
      * transitivity (_selectedFavorite cleared);
          [exact (f_equal selectedFavorite Hd) |].
        apply no_selection_without_text. reflexivity.
      * rewrite Hdraft. reflexivity.
Qed.

Lemma selectFavorite_result_witness :
  _selectedFavorite (_selectFavorite "1" (sample_card [mom; dad] "" "x" "y")) = Some dad
  /\ draft (_selectFavorite "1" (sample_card [mom; dad] "" "x" "y"))
     = ("1", trim (or_empty (Favorite.name dad)),
        trim (or_empty (Favorite.license_plate dad)), false, false)
  /\ _showAddToFavorites (_selectFavorite "1" (sample_card [mom; dad] "" "x" "y")) = false
  /\ _offerUpdateFavorite (_selectFavorite "1" (sample_card [mom; dad] "" "x" "y")) = false
  /\ showDeleteFavorite (_selectFavorite "1" (sample_card [mom; dad] "" "x" "y"))
     = canDeleteFavorite (_selectFavorite "1" (sample_card [mom; dad] "" "x" "y")).
Proof.
  apply (proj1 (selectFavorite_result "1" (sample_card [mom; dad] "" "x" "y")) dad).
  vm_compute. reflexivity.
Defined.

(** ** Requests sent to the host *)

Lemma String_of_integer_not_empty (n : Z) : String_of_integer n <> "".
Proof.
  unfold String_of_integer, NilZero.string_of_int, NilZero.string_of_uint.
  destruct (Z.to_int n) as [d | d]; destruct d; discriminate.
Qed.

Lemma selectedFavoriteId_not_empty (c : Card) (i : string) :
  _selectedFavoriteId c = Some i -> i <> "".
Proof.
  unfold _selectedFavoriteId.
  destruct (_selectedFavorite c) as [f |]; [| discriminate].
  destruct (Favorite.id f) as [[n | s] |]; [| | discriminate].
  - intros H. injection H as <-. apply String_of_integer_not_empty.
  - destruct (trim s =? "") eqn:E; [discriminate |].
    intros H. injection H as <-. intros E'. rewrite E' in E. discriminate E.
Qed.

Lemma usable_text_trim (s : string) : truthy (trim s) = true -> usable_text (trim s).
Proof.
  intros H. split; [apply truthy_true; exact H | apply trim_idem].
Qed.

Lemma spread_entry_not_empty (c : Card) : spread_entry c <> Some "".
Proof.
  unfold spread_entry. destruct (_activeEntryId c) as [s |]; simpl; [| discriminate].
  destruct (truthy s) eqn:E; [| discriminate].
  intros H. injection H as ->. discriminate E.
Qed.

Lemma canUpdateFavorite_texts (c : Card) :
  _canUpdateFavorite c = true ->
  truthy (trim (_nameDraft c)) = true /\ truthy (trim (_licensePlateDraft c)) = true.
Proof.
  unfold _canUpdateFavorite.
  destruct (_offerUpdateFavorite c); simpl; [| discriminate].
  destruct (truthy (trim (_nameDraft c))), (truthy (trim (_licensePlateDraft c)));
    simpl; try discriminate. split; reflexivity.
Qed.

Lemma showAddToFavorites_texts (c : Card) :
  _showAddToFavorites c = true ->
  truthy (trim (_nameDraft c)) = true /\ truthy (trim (_licensePlateDraft c)) = true.
Proof.
  unfold _showAddToFavorites.
  destruct (truthy (trim (_nameDraft c))), (truthy (trim (_licensePlateDraft c)));
    simpl; try discriminate. split; reflexivity.
Qed.

Lemma reservation_of_well_formed (c : Card) :
  truthy (trim (_licensePlateDraft c)) = true -> well_formed (reservation_of c).
Proof.
  intros Hp. unfold reservation_of, well_formed.
  split; [apply usable_text_trim; exact Hp |].
  destruct (truthy (trim (_nameDraft c))) eqn:Hn.
  - split; [| split].
    + intros H. injection H as H. rewrite H in Hn. discriminate Hn.
    + intros n H. injection H as <-. apply trim_idem.
    + apply spread_entry_not_empty.
  - split; [discriminate |]. split; [discriminate | apply spread_entry_not_empty].
Qed.

Lemma settled_unit (r : Settled unit) : r = Fulfilled tt \/ r = Rejected.
Proof. destruct r as [[] |]; [left | right]; reflexivity. Qed.

(** Every [_submit] completes, and goes one of the ways of [SubmitRun]:
    the branches that ask for a favourite's name are never taken, because
    the update and the add offers both require one. *)
Lemma submit_runs (host : ServiceCall -> Settled unit) (c : Card) :
  exists c' l,
    _submit host c [] = (Fulfilled tt, c', l) /\ SubmitRun host c c' l.
Proof.
  unfold _submit, favorite_follow_up, try_catch_finally, bind, read, assign,
    callService, _notify, emit, ret.
  fold (reservation_of c).
  destruct (cannot_act c) eqn:Hact.
  { exists c, []. split; [reflexivity | constructor; exact Hact]. }
  destruct (truthy (trim (_licensePlateDraft c))) eqn:Hp; simpl.
  2:{ eexists _, _. split; [reflexivity | constructor; assumption]. }
  destruct (settled_unit (host (reservation_of c))) as [Hres | Hres]; rewrite Hres.
  2:{ eexists _, _. split; [reflexivity | constructor; assumption]. }
  destruct (_selectedFavoriteId c) as [i |] eqn:Hid; simpl.
  - destruct (truthy i && _updateFavorite c && _canUpdateFavorite c
              && _selectedFavoriteChanged c) eqn:Hup.
    + apply andb_true_iff in Hup as [Hup _].
      apply andb_true_iff in Hup as [Hup Hcan].
      apply andb_true_iff in Hup as [_ Htoggle].
      destruct (canUpdateFavorite_texts c Hcan) as [Hn _]. rewrite Hn. simpl.
      eexists _, _. split; [| apply (submit_and_update host c i); eassumption].
      unfold answer, submitted.
      destruct (host (update_favorite _ _ _ _)) as [[] |]; reflexivity.
    + destruct (_addToFavorites c && _showAddToFavorites c) eqn:Hadd.
      * apply andb_true_iff in Hadd as [Htoggle Hshow].
        destruct (showAddToFavorites_texts c Hshow) as [Hn _]. rewrite Hn. simpl.
        eexists _, _. split; [| apply (submit_and_add host c); eassumption].
        unfold answer, submitted.
        destruct (host (create_favorite _ _ _)) as [[] |]; reflexivity.
      * eexists _, _. split; [reflexivity | apply submit_only; assumption].
  - destruct (_addToFavorites c && _showAddToFavorites c) eqn:Hadd.
    + apply andb_true_iff in Hadd as [Htoggle Hshow].
      destruct (showAddToFavorites_texts c Hshow) as [Hn _]. rewrite Hn. simpl.
      eexists _, _. split; [| apply (submit_and_add host c); eassumption].
      unfold answer, submitted.
      destruct (host (create_favorite _ _ _)) as [[] |]; reflexivity.
    + eexists _, _. split; [reflexivity | apply submit_only; assumption].
Qed.

Lemma blank_iff (s : string) : blank s <-> truthy (trim s) = false.
Proof. unfold blank. symmetry. apply truthy_false. Qed.

Lemma not_blank_iff (s : string) : ~ blank s <-> truthy (trim s) = true.
Proof. unfold blank. symmetry. apply truthy_true. Qed.

Lemma empty_card_offers_nothing (c : Card) :
  _favoriteDraft c = "" -> _nameDraft c = "" -> nothing_offered c.
Proof.
  intros Hf Hn. pose proof (no_selection_without_text c Hf) as Hsel.
  unfold nothing_offered, showDeleteFavorite, canDeleteFavorite, _selectedFavoriteId,
    _offerUpdateFavorite, _showAddToFavorites.
  rewrite Hsel, Hn. repeat split; reflexivity.
Qed.

Lemma submitted_draft (busy : bool) (c : Card) :
  draft (submitted busy c) = empty_draft /\ nothing_offered (submitted busy c)
  /\ _submitting (submitted busy c) = false
  /\ _deletingFavorite (submitted busy c) = _deletingFavorite c
  /\ _updatingFavorite (submitted busy c)
     = if busy then false else _updatingFavorite c.
Proof.
  destruct busy; (split; [reflexivity |]);
    (split; [apply empty_card_offers_nothing; reflexivity |]);
    repeat split; reflexivity.
Qed.

Lemma answer_cases (host : ServiceCall -> Settled unit) (call : ServiceCall)
    (key : string) :
  (host call = Fulfilled tt /\ answer host call key = [])
  \/ (host call = Rejected /\ answer host call key = [Notified key]).
Proof.
  unfold answer. destruct (host call) as [[] |]; [left | right]; split; reflexivity.
Qed.

(** X10.  The sequence of requests of one [_submit].  It is empty only
    when the card cannot act or the plate is blank; otherwise it starts
    with the reservation, and goes on, with one request on a favourite at
    most, only when the host accepted the reservation: an update only if
    the update toggle is on and the update enabled, a creation only if
    the add toggle is on and adding is offered.  [_submit] never deletes
    a favourite and never makes a third request. *)
Theorem submit_request_sequence (host : ServiceCall -> Settled unit) (c : Card) :
  submit_sequence host c (calls (logged (_submit host c []))).
Proof.
  destruct (submit_runs host c) as (c' & l & -> & Hrun). unfold logged. simpl.
  destruct Hrun as [Hact | Hact Hp | Hact Hp Hres | i Hact Hp Hres Hid Ht Hcan
                    | Hact Hp Hres Ht Hshow | Hact Hp Hres].
  - left. exact Hact.
  - right. apply blank_iff. exact Hp.
  - reflexivity.
  - destruct (answer_cases host
                (update_favorite (Some i) (trim (_nameDraft c))
                   (trim (_licensePlateDraft c)) (spread_entry c))
                "new_reservation_card.could_not_update_favorite")
      as [[_ ->] | [_ ->]]; simpl; repeat split; assumption.
  - destruct (answer_cases host
                (create_favorite (trim (_nameDraft c))
                   (trim (_licensePlateDraft c)) (spread_entry c))
                "new_reservation_card.could_not_save_favorite")
      as [[_ ->] | [_ ->]]; simpl; repeat split; assumption.
  - reflexivity.
Qed.

(** The ways a [_deleteFavorite] can go. *)
Lemma deleteFavorite_runs (host : ServiceCall -> Settled unit) (c : Card) :
  (( cannot_act c = true \/ _selectedFavoriteId c = None)
   /\ _deleteFavorite host c [] = (Fulfilled tt, c, []))
  \/ (exists i,
        cannot_act c = false /\ _selectedFavoriteId c = Some i
        /\ ((host (delete_favorite i (spread_entry c)) = Fulfilled tt
             /\ _deleteFavorite host c []
                = (Fulfilled tt,
                   set_deletingFavorite false
                     (_syncFavoriteToggles
                        (set_updateFavorite false
                           (set_favoriteDraft "" (set_deletingFavorite true c)))),
                   [Called (delete_favorite i (spread_entry c))]))
            \/ (host (delete_favorite i (spread_entry c)) = Rejected
                /\ _deleteFavorite host c []
                   = (Fulfilled tt,
                      set_deletingFavorite false (set_deletingFavorite true c),
                      [Called (delete_favorite i (spread_entry c));
                       Notified "new_reservation_card.could_not_remove_favorite"])))).
Proof.
  unfold _deleteFavorite, try_catch_finally, bind, read, assign, callService,
    _notify, emit, ret.
  destruct (cannot_act c) eqn:Hact; [left; split; [left |]; reflexivity |].
  destruct (_selectedFavoriteId c) as [i |] eqn:Hid;
    [| left; split; [right |]; reflexivity].
  right. exists i. split; [reflexivity |]. split; [reflexivity |].
  destruct (settled_unit (host (delete_favorite i (spread_entry c)))) as [H | H];
    rewrite H; [left | right]; split; reflexivity.
Qed.

(** X11.  Every request the card sends is one the integration can use.
    The plate of a reservation or of a favourite is trimmed and not
    empty, and so is the name of a favourite; a reservation carries a
    name only when one was typed; an update or a deletion designates its
    favourite by a non-empty identifier; and the account, when sent, is
    not the empty string. *)
Theorem requests_well_formed (host : ServiceCall -> Settled unit) (c : Card)
    (call : ServiceCall) :
  In call (calls (logged (_submit host c [])))
  \/ In call (calls (logged (_deleteFavorite host c []))) ->
  well_formed call.
Proof.
  intros [Hin | Hin].
  - destruct (submit_runs host c) as (c' & l & E & Hrun). rewrite E in Hin.
    unfold logged in Hin. simpl in Hin.
    destruct Hrun as [Hact | Hact Hp | Hact Hp Hres | i Hact Hp Hres Hid Ht Hcan
                      | Hact Hp Hres Ht Hshow | Hact Hp Hres]; simpl in Hin.
    + destruct Hin.
    + destruct Hin.
    + destruct Hin as [<- | []]. apply reservation_of_well_formed. exact Hp.
    + destruct Hin as [<- | [<- | Hin]].
      * apply reservation_of_well_formed. exact Hp.
      * destruct (canUpdateFavorite_texts c Hcan) as [Hn _]. simpl.
        split; [exists i; split;
                  [reflexivity | exact (selectedFavoriteId_not_empty c i Hid)] |].
        split; [apply usable_text_trim; exact Hn |].
        split; [apply usable_text_trim; exact Hp | apply spread_entry_not_empty].
      * unfold answer in Hin. destruct (host _) in Hin; destruct Hin.
    + destruct Hin as [<- | [<- | Hin]].
      * apply reservation_of_well_formed. exact Hp.
      * destruct (showAddToFavorites_texts c Hshow) as [Hn _]. simpl.
        split; [apply usable_text_trim; exact Hn |].
        split; [apply usable_text_trim; exact Hp | apply spread_entry_not_empty].
      * unfold answer in Hin. destruct (host _) in Hin; destruct Hin.
    + destruct Hin as [<- | []]. apply reservation_of_well_formed. exact Hp.
  - destruct (deleteFavorite_runs host c)
      as [[_ E] | (i & _ & Hid & [[_ E] | [_ E]])];
      rewrite E in Hin; unfold logged in Hin; simpl in Hin.
    + destruct Hin.
    + destruct Hin as [<- | []]. simpl.
      split; [exact (selectedFavoriteId_not_empty c i Hid)
             | apply spread_entry_not_empty].
    + destruct Hin as [<- | []]. simpl.
      split; [exact (selectedFavoriteId_not_empty c i Hid)
             | apply spread_entry_not_empty].
Qed.

Lemma requests_well_formed_witness :
  well_formed (update_favorite (Some "1") "Mom" "XY-99-ZZ" None).
Proof.
  apply (requests_well_formed favorites_down editing_mom).
  left. vm_compute. right. left. reflexivity.
Defined.


(** X13.  No rejection escapes [_submit] or [_deleteFavorite]: whatever
    the host answers, both complete normally.  Neither leaves a busy flag
    raised that was not raised before, so a card that was idle is idle
    again and its controls are enabled. *)
Theorem service_methods_settle (host : ServiceCall -> Settled unit) (c : Card) :
  (outcome (_submit host c []) = Fulfilled tt
   /\ (_busy (ran (_submit host c [])) = true -> _busy c = true))
  /\ (outcome (_deleteFavorite host c []) = Fulfilled tt
      /\ (_busy (ran (_deleteFavorite host c [])) = true -> _busy c = true)).
Proof.
  split.
  - destruct (submit_runs host c) as (c' & l & -> & Hrun). unfold outcome, ran. simpl.
    split; [reflexivity |].
    destruct Hrun as [Hact | Hact Hp | Hact Hp Hres | i Hact Hp Hres Hid Ht Hcan
                      | Hact Hp Hres Ht Hshow | Hact Hp Hres];
      try (intros H; exact H); unfold _busy; simpl;
      destruct (_submitting c), (_deletingFavorite c), (_updatingFavorite c);
      simpl; intros H; try reflexivity; discriminate H.
  - destruct (deleteFavorite_runs host c)
      as [[_ E] | (i & _ & Hid & [[_ E] | [_ E]])];
      rewrite E; unfold outcome, ran; simpl; (split; [reflexivity |]).
    + intros H. exact H.
    + set (d := _syncFavoriteToggles _).
      assert (Hs : _submitting d = _submitting c
                   /\ _updatingFavorite d = _updatingFavorite c).
      { unfold d, _syncFavoriteToggles. break_ifs; split; reflexivity. }
      destruct Hs as [Hs Hu]. unfold _busy. simpl. rewrite Hs, Hu.
      destruct (_submitting c), (_deletingFavorite c), (_updatingFavorite c);
        simpl; intros H; try reflexivity; discriminate H.
    + unfold _busy. simpl.
      destruct (_submitting c), (_deletingFavorite c), (_updatingFavorite c);
        simpl; intros H; try reflexivity; discriminate H.
Qed.

Lemma service_methods_settle_witness :
  _busy (set_deletingFavorite true editing_mom) = true.
Proof.
  apply (proj2 (proj1 (service_methods_settle unwilling
                         (set_deletingFavorite true editing_mom)))).
  vm_compute. reflexivity.
Defined.

(** X14.  [_submit] clears the draft exactly when the host accepted the
    reservation.  Then the selection, the name, the plate and both
    toggles are reset, whether or not the request on the favourite that
    followed went through, and the card has nothing selected and offers
    no action on a favourite.  In every other case the draft is what it
    was before. *)
Theorem submit_clears_when_accepted (host : ServiceCall -> Settled unit) (c : Card) :
  (accepted host c ->
   draft (ran (_submit host c [])) = empty_draft
   /\ nothing_offered (ran (_submit host c [])))
  /\ (~ accepted host c -> draft (ran (_submit host c [])) = draft c).
Proof.
  destruct (submit_runs host c) as (c' & l & -> & Hrun). unfold ran. simpl.
  destruct Hrun as [Hact | Hact Hp | Hact Hp Hres | i Hact Hp Hres Hid Ht Hcan
                    | Hact Hp Hres Ht Hshow | Hact Hp Hres].
  - split; [| reflexivity]. intros (H & _ & _). congruence.
  - split; [| reflexivity]. intros (_ & H & _). apply not_blank_iff in H. congruence.
  - split; [| reflexivity]. intros (_ & _ & H). congruence.
  - split.
    + intros _. destruct (submitted_draft true c) as (Hd & Hn & _).
      split; assumption.
    + intros H. exfalso. apply H. split; [exact Hact |].
      split; [apply not_blank_iff; exact Hp | exact Hres].
  - split.
    + intros _. destruct (submitted_draft false c) as (Hd & Hn & _).
      split; assumption.
    + intros H. exfalso. apply H. split; [exact Hact |].
      split; [apply not_blank_iff; exact Hp | exact Hres].
  - split.
    + intros _. destruct (submitted_draft false c) as (Hd & Hn & _).
      split; assumption.
    + intros H. exfalso. apply H. split; [exact Hact |].
      split; [apply not_blank_iff; exact Hp | exact Hres].
Qed.

Lemma submit_clears_when_accepted_witness :
  draft (ran (_submit favorites_down editing_mom [])) = empty_draft
  /\ nothing_offered (ran (_submit favorites_down editing_mom [])).
Proof.
  apply (proj1 (submit_clears_when_accepted favorites_down editing_mom)).
  split; [reflexivity |]. split; [| reflexivity].
  unfold blank. vm_compute. discriminate.
Defined.

(** X15.  [_deleteFavorite] asks the host exactly when the card can act
    and the selected favourite has a usable identifier, which is when
    [render] enables the delete action; it then makes one request, for
    that identifier.  When the host accepts, the selection is dropped
    while the name and the plate stay as typed, the update toggle is off,
    and the toggles left on are offered. *)
Theorem deleteFavorite_result (host : ServiceCall -> Settled unit) (c : Card) :
  (calls (logged (_deleteFavorite host c []))
   = match _selectedFavoriteId c with
     | Some i =>
         if cannot_act c then [] else [delete_favorite i (spread_entry c)]
     | None => []
     end)
  /\ (forall call, calls (logged (_deleteFavorite host c [])) = [call] ->
      canDeleteFavorite c = true
      /\ (host call = Fulfilled tt ->
          _selectedFavorite (ran (_deleteFavorite host c [])) = None
          /\ _nameDraft (ran (_deleteFavorite host c [])) = _nameDraft c
          /\ _licensePlateDraft (ran (_deleteFavorite host c []))
             = _licensePlateDraft c
          /\ _updateFavorite (ran (_deleteFavorite host c [])) = false
          /\ toggles_consistent (ran (_deleteFavorite host c [])))).
Proof.
  destruct (deleteFavorite_runs host c)
    as [[Hno E] | (i & Hact & Hid & [[Hhost E] | [Hhost E]])];
    rewrite E; unfold logged, ran; simpl.
  - split; [| discriminate].
    destruct Hno as [-> | ->]; [destruct (_selectedFavoriteId c) |]; reflexivity.
  - rewrite Hid, Hact. split; [reflexivity |]. intros call H. injection H as <-.
    split; [unfold canDeleteFavorite; rewrite Hid; reflexivity |]. intros _.
    set (d := set_updateFavorite false (set_favoriteDraft "" _)).
    destruct (syncFavoriteToggles_toggles d) as [Hder Hdraft].
    pose proof (syncFavoriteToggles_consistent d) as Hcons.
    assert (Hsel : _selectedFavorite d = None)
      by (apply no_selection_without_text; reflexivity).
    split; [exact (eq_trans (f_equal selectedFavorite Hder) Hsel) |].
    unfold draft in Hdraft. injection Hdraft as _ Hn Hp _ Hu.
    split; [exact Hn |]. split; [exact Hp |]. split; [exact Hu |]. exact Hcons.
  - rewrite Hid, Hact. split; [reflexivity |]. intros call H. injection H as <-.
    split; [unfold canDeleteFavorite; rewrite Hid; reflexivity |]. congruence.
Qed.

Lemma deleteFavorite_result_witness :
  _selectedFavorite
    (ran (_deleteFavorite obliging (sample_card [mom] "0" "Mom" "AB-12-CD") []))
  = None
  /\ _nameDraft
       (ran (_deleteFavorite obliging (sample_card [mom] "0" "Mom" "AB-12-CD") []))
     = _nameDraft (sample_card [mom] "0" "Mom" "AB-12-CD")
  /\ _licensePlateDraft
       (ran (_deleteFavorite obliging (sample_card [mom] "0" "Mom" "AB-12-CD") []))
     = _licensePlateDraft (sample_card [mom] "0" "Mom" "AB-12-CD")
  /\ _updateFavorite
       (ran (_deleteFavorite obliging (sample_card [mom] "0" "Mom" "AB-12-CD") []))
     = false
  /\ toggles_consistent
       (ran (_deleteFavorite obliging (sample_card [mom] "0" "Mom" "AB-12-CD") [])).
Proof.
  assert (Hcall : calls (logged (_deleteFavorite obliging
                                   (sample_card [mom] "0" "Mom" "AB-12-CD") []))
                  = [delete_favorite "1" None])
    by (vm_compute; reflexivity).
  apply (proj2 (proj2 (deleteFavorite_result obliging
                         (sample_card [mom] "0" "Mom" "AB-12-CD"))
                  (delete_favorite "1" None) Hcall)).
  reflexivity.
Defined.

(** ** Controls and guards *)

Lemma active_entry_pinned (c : Card) :
  truthy_opt (pinned_entry_id c) = true ->
  truthy_opt (_activeEntryId c) = true.
Proof.
  intros H. unfold _activeEntryId. rewrite H. exact H.
Qed.

Lemma cannot_act_locked (c : Card) :
  rendered c -> cannot_act c = entryLocked c.
Proof.
  intros [[h Hh] [cfg Hc]]. unfold cannot_act, entryLocked, showEntryPicker.
  rewrite Hh, Hc. rewrite !bool_decide_eq_true_2 by eauto. simpl.
  destruct (truthy_opt (pinned_entry_id c)) eqn:Hpin; simpl.
  - rewrite (active_entry_pinned c Hpin). reflexivity.
  - destruct (truthy_opt (_activeEntryId c)), (_entriesLoaded c),
      (1 <? length (_entries c))%nat; reflexivity.
Qed.

(** X16.  The guard of [_submit] and [_deleteFavorite] refuses exactly
    when [render] locks the controls for want of an account.  A click on
    an enabled submit button therefore always sends the reservation, and
    a click on an enabled delete button always sends the deletion; while
    the card is locked neither method sends anything. *)
Theorem enabled_controls_act (host : ServiceCall -> Settled unit) (c : Card) :
  rendered c ->
  cannot_act c = entryLocked c
  /\ (submit_disabled c = false ->
      head (calls (logged (_submit host c []))) = Some (reservation_of c))
  /\ (showDeleteFavorite c = true -> delete_disabled c = false ->
      exists i, calls (logged (_deleteFavorite host c []))
                = [delete_favorite i (spread_entry c)])
  /\ (entryLocked c = true ->
      calls (logged (_submit host c [])) = []
      /\ calls (logged (_deleteFavorite host c [])) = []).
Proof.
  intros Hr. pose proof (cannot_act_locked c Hr) as Hguard.
  split; [exact Hguard |]. split; [| split].
  - unfold submit_disabled. intros H.
    apply orb_false_iff in H as [H Hp]. apply orb_false_iff in H as [Hlock _].
    apply negb_false_iff in Hp. rewrite <- Hguard in Hlock.
    destruct (submit_runs host c) as (c' & l & -> & Hrun). unfold logged. simpl.
    destruct Hrun; try congruence; reflexivity.
  - unfold showDeleteFavorite, delete_disabled, canDeleteFavorite. intros Hshow H.
    apply orb_false_iff in H as [Hlock _]. rewrite <- Hguard in Hlock.
    apply andb_true_iff in Hshow as [Hshow _].
    apply andb_true_iff in Hshow as [Hid _].
    apply bool_decide_eq_true_1 in Hid as [i Hid].
    destruct (deleteFavorite_runs host c)
      as [[[Hno | Hno] _] | (j & _ & _ & [[_ E] | [_ E]])];
      try congruence; exists j; rewrite E; reflexivity.
  - intros Hlock. rewrite <- Hguard in Hlock. split.
    + destruct (submit_runs host c) as (c' & l & -> & Hrun). unfold logged. simpl.
      destruct Hrun; try congruence; reflexivity.
    + destruct (deleteFavorite_runs host c)
        as [[_ E] | (i & Hact & _)]; [rewrite E; reflexivity | congruence].
Qed.

Lemma enabled_controls_act_witness :
  head (calls (logged (_submit unwilling editing_mom [])))
  = Some (reservation_of editing_mom).
Proof.
  assert (Hr : rendered editing_mom) by (split; eexists; reflexivity).
  apply (proj1 (proj2 (enabled_controls_act unwilling editing_mom Hr))).
  vm_compute. reflexivity.
Defined.

(** ** The update cycle *)

Lemma load_step_unprivileged (h : HomeAssistant) (c : Card) :
  privileged h = false ->
  load_step h c
  = (set_entityRegistryLoaded true (set_entriesLoaded true c), []).
Proof.
  unfold privileged, load_step. intros Hp.
  assert (Hn : negb (is_admin h) || negb (callWS h) = true)
    by (destruct (is_admin h), (callWS h); try reflexivity; discriminate Hp).
  rewrite Hn. destruct c as [? ? ? ? ? ? ? ? ? ? ? ? ? ? el ? rl ? ? ?].
  cbn. destruct el; cbn; destruct rl; reflexivity.
Qed.

Lemma load_step_privileged (h : HomeAssistant) (c : Card) :
  privileged h = true -> fst (load_step h c) = c.
Proof.
  unfold privileged, load_step. intros Hp.
  apply andb_true_iff in Hp as [-> ->].
  destruct (_entriesLoaded c) eqn:El, (_entityRegistryLoaded c) eqn:Rl;
    simpl; rewrite ?Rl; reflexivity.
Qed.

Lemma resolve_step_unprivileged (changedProps : ChangedProps) (now : Z)
    (h : HomeAssistant) (favoritesEntity : string) (c : Card) :
  privileged h = false ->
  snd (resolve_step changedProps now h favoritesEntity c) = []
  /\ last_attempt (fst (resolve_step changedProps now h favoritesEntity c))
     = last_attempt c
  /\ _resolvingService (fst (resolve_step changedProps now h favoritesEntity c))
     = _resolvingService c
  /\ _entriesLoaded (fst (resolve_step changedProps now h favoritesEntity c))
     = _entriesLoaded c
  /\ _entityRegistryLoaded (fst (resolve_step changedProps now h favoritesEntity c))
     = _entityRegistryLoaded c.
Proof.
  unfold privileged, resolve_step. intros Hp.
  destruct (_activeEntryId c) as [entryId |]; [| repeat split].
  destruct (negb (truthy entryId) || truthy favoritesEntity); [repeat split |].
  cbv zeta. destruct (truthy_opt _); [repeat split |].
  destruct (is_admin h); simpl; [| repeat split].
  simpl in Hp. rewrite Hp. simpl. repeat split.
Qed.

(** X17.  A cycle of a user who is not an administrator, or on a host
    without [callWS], asks the host for nothing: no account list, no
    entity registry, no lookup.  It marks both lists as loaded and leaves
    the attempt record and the in-flight flag alone.  Before [hass] or the
    configuration is set a cycle does nothing at all. *)
Theorem updated_unprivileged (changedProps : ChangedProps) (now : Z) (c : Card) :
  (forall h cfg,
      hass c = Some h -> _config c = Some cfg -> privileged h = false ->
      snd (updated changedProps now c) = []
      /\ _entriesLoaded (fst (updated changedProps now c)) = true
      /\ _entityRegistryLoaded (fst (updated changedProps now c)) = true
      /\ last_attempt (fst (updated changedProps now c)) = last_attempt c
      /\ _resolvingService (fst (updated changedProps now c)) = _resolvingService c)
  /\ (hass c = None \/ _config c = None -> updated changedProps now c = (c, [])).
Proof.
  split.
  - intros h cfg Hh Hc Hp. unfold updated. rewrite Hh, Hc.
    rewrite (load_step_unprivileged h c Hp).
    set (loaded := set_entityRegistryLoaded true (set_entriesLoaded true c)).
    destruct (resolve_step_unprivileged changedProps now h
                (trim (or_empty (CardConfig.favorites_entity cfg))) loaded Hp)
      as (Hreq & Hlast & Hfly & Hel & Hrl).
    destruct (resolve_step _ _ _ _ loaded) as [c' requests]. simpl in *.
    subst requests. rewrite Hel, Hrl, Hlast, Hfly. repeat split.
  - unfold updated. intros [-> | ->]; [reflexivity |].
    destruct (hass c); reflexivity.
Qed.

Lemma updated_unprivileged_witness :
  snd (updated None 0 (set_hass (Some (guest_host [mom])) (sample_card [mom] "" "" "")))
  = []
  /\ _entriesLoaded
       (fst (updated None 0
               (set_hass (Some (guest_host [mom])) (sample_card [mom] "" "" ""))))
     = true.
Proof.
  destruct (proj1 (updated_unprivileged None 0
                     (set_hass (Some (guest_host [mom])) (sample_card [mom] "" "" "")))
              (guest_host [mom]) (sample_config None (Some "sensor.favorites"))
                 eq_refl eq_refl eq_refl)
    as (H1 & H2 & _).
  split; assumption.
Defined.

Lemma entryIdentifier_unlisted (c : Card) (entryId : string) :
  truthy entryId = true ->
  truthy_opt (_entryIdentifier c (Some entryId)) = false ->
  find_entry (_entries c) entryId = None.
Proof.
  unfold _entryIdentifier. intros Ht. rewrite Ht.
  destruct (find_entry (_entries c) entryId) as [entry |] eqn:Hfind; [| reflexivity].
  simpl. destruct (find_entry_Some _ _ _ Hfind) as [_ <-].
  rewrite (resolveIdentifierFromEntry_truthy entry Ht). discriminate.
Qed.

(** What has to hold for [resolve_step] to start a lookup. *)
Lemma resolve_step_lookup (changedProps : ChangedProps) (now : Z)
    (h : HomeAssistant) (favoritesEntity : string) (c : Card) (e : string) :
  hass c = Some h ->
  In (ResolveId e) (snd (resolve_step changedProps now h favoritesEntity c)) ->
  privileged h = true /\ favoritesEntity = ""
  /\ _activeEntryId c = Some e /\ e <> ""
  /\ find_entry (_entries c) e = None
  /\ _resolvingService c = false
  /\ (entryIdChanged changedProps e = false -> _resolvedConfigEntryId c <> Some e)
  /\ (entryIdChanged changedProps e = false -> retryDue c e now = true)
  /\ _resolvingService (fst (resolve_step changedProps now h favoritesEntity c)) = true
  /\ last_attempt (fst (resolve_step changedProps now h favoritesEntity c))
     = Some (e, now)
  /\ snd (resolve_step changedProps now h favoritesEntity c) = [ResolveId e].
Proof.
  unfold resolve_step, privileged. intros Hh.
  destruct (_activeEntryId c) as [entryId |]; [| intros []].
  destruct (truthy entryId) eqn:Hid; cbn [negb orb]; [| intros []].
  destruct (truthy favoritesEntity) eqn:Hfav; [intros [] |].
  cbv zeta.
  destruct (truthy_opt (_entryIdentifier c (Some entryId))) eqn:Hlocal; [intros [] |].
  destruct (is_admin h); cbn [negb andb]; [| intros []].
  destruct (callWS h) eqn:Hws; cbn [negb]; [| intros []].
  assert (Hbegin : forall d, hass d = Some h ->
            _resolveIdFromConfigEntry_begin entryId d
            = (set_resolvingService true d, [ResolveId entryId])).
  { intros d Hd. unfold _resolveIdFromConfigEntry_begin. rewrite Hd, Hws.
    reflexivity. }
  destruct (entryIdChanged changedProps entryId) eqn:Hchanged.
  - change (_resolvingService (clear_resolution c)) with (_resolvingService c).
    destruct (_resolvingService c) eqn:Hfly; [intros [] |].
    change (bool_decide (_resolvedConfigEntryId (clear_resolution c) = Some entryId))
      with (bool_decide (@None string = Some entryId)).
    rewrite bool_decide_eq_false_2 by discriminate.
    change (retryDue (clear_resolution c) entryId now)
      with (negb (bool_decide (@None string = Some entryId)) || true).
    rewrite bool_decide_eq_false_2 by discriminate. cbn [negb orb].
    rewrite Hbegin by exact Hh. cbn [fst snd].
    intros [H | []]. injection H as <-. rewrite Hchanged.
    split; [reflexivity |]. split; [apply truthy_false; exact Hfav |].
    split; [reflexivity |]. split; [apply truthy_true; exact Hid |].
    split; [apply entryIdentifier_unlisted; assumption |].
    repeat split; try reflexivity; discriminate.
  - destruct (_resolvingService c) eqn:Hfly; [intros [] |].
    destruct (bool_decide (_resolvedConfigEntryId c = Some entryId)) eqn:Hres;
      [intros [] |].
    destruct (retryDue c entryId now) eqn:Hdue; cbn [negb]; [| intros []].
    rewrite Hbegin by exact Hh. cbn [fst snd].
    intros [H | []]. injection H as <-. rewrite Hdue.
    split; [reflexivity |]. split; [apply truthy_false; exact Hfav |].
    split; [reflexivity |]. split; [apply truthy_true; exact Hid |].
    split; [apply entryIdentifier_unlisted; assumption |].
    split; [reflexivity |].
    split; [intros _; apply bool_decide_eq_false_1 in Hres; exact Hres |].
    repeat split; reflexivity.
Qed.

(** X18.  A cycle starts a lookup only for the active account, and only
    when all of this holds: the user may use the websocket, the
    configuration names no favourites entity, the account is not in the
    loaded list, and no lookup is in flight.  Unless the configuration
    change reset the resolver, the account is also not the one already
    resolved and a retry is due.  The cycle then raises the in-flight
    flag, records the attempt with the clock reading, and starts that one
    lookup only. *)
Theorem updated_lookup_guard (changedProps : ChangedProps) (now : Z) (c : Card)
    (e : string) :
  In (ResolveId e) (snd (updated changedProps now c)) ->
  (exists h cfg,
      hass c = Some h /\ _config c = Some cfg /\ privileged h = true
      /\ blank (or_empty (CardConfig.favorites_entity cfg)))
  /\ _activeEntryId c = Some e /\ e <> ""
  /\ find_entry (_entries c) e = None
  /\ _resolvingService c = false
  /\ (entryIdChanged changedProps e = false ->
      _resolvedConfigEntryId c <> Some e /\ retryDue c e now = true)
  /\ _resolvingService (fst (updated changedProps now c)) = true
  /\ last_attempt (fst (updated changedProps now c)) = Some (e, now)
  /\ attempts_in (Cycle now) (snd (updated changedProps now c)) = [(e, now)].
Proof.
  unfold updated.
  destruct (hass c) as [h |] eqn:Hh; [| intros []].
  destruct (_config c) as [cfg |] eqn:Hc; [| intros []].
  destruct (privileged h) eqn:Hp.
  2:{ rewrite (load_step_unprivileged h c Hp).
      destruct (resolve_step_unprivileged changedProps now h
                  (trim (or_empty (CardConfig.favorites_entity cfg)))
                  (set_entityRegistryLoaded true (set_entriesLoaded true c)) Hp)
        as (Hreq & _).
      destruct (resolve_step _ _ _ _ _) as [c' requests]. simpl in Hreq.
      subst requests. intros []. }
  pose proof (load_step_privileged h c Hp) as Hload.
  pose proof (load_step_requests h c e) as Hnone.
  pose proof (load_step_no_attempt now h c) as Hquiet.
  destruct (load_step h c) as [c1 loads]. simpl in Hload, Hnone, Hquiet. subst c1.
  pose proof (resolve_step_lookup changedProps now h
                (trim (or_empty (CardConfig.favorites_entity cfg))) c e Hh) as Hstep.
  destruct (resolve_step _ _ _ _ c) as [c' lookups]. simpl in Hstep. simpl.
  intros Hin. apply in_app_or in Hin as [Hin | Hin]; [contradiction |].
  destruct (Hstep Hin)
    as (_ & Hfav & Hact & He & Hfind & Hfly & Hres & Hdue & Hfly' & Hlast & Hreq).
  split; [exists h, cfg; repeat split; assumption |].
  repeat split; try assumption; try (apply Hres; assumption);
    try (apply Hdue; assumption).
  rewrite attempts_in_app, Hquiet, Hreq. reflexivity.
Qed.

Lemma updated_lookup_guard_witness :
  _resolvingService
    (fst (updated None 1000
            (set_config (Some (sample_config (Some "entry-x") None))
               (set_hass (Some admin_host) new_card))))
  = true.
Proof.
  apply (updated_lookup_guard None 1000
           (set_config (Some (sample_config (Some "entry-x") None))
              (set_hass (Some admin_host) new_card)) "entry-x").
  vm_compute. right. right. left. reflexivity.
Defined.

(** ** The identifier behind the entity name *)

(** X19.  Where a slug comes from.  [_slug] is never the empty string,
    and it exists only for an active account: it is the identifier of
    that account's entry in the loaded list or, when the account is not
    listed, the identifier a lookup resolved for that very account.  An
    identifier resolved for another account is never used. *)
Theorem slug_provenance (c : Card) (s : string) :
  _slug c = Some s ->
  s <> ""
  /\ exists e,
       _activeEntryId c = Some e /\ e <> ""
       /\ ((exists entry,
              In entry (_entries c) /\ entry_id entry = e
              /\ s = resolveIdentifierFromEntry entry)
           \/ (find_entry (_entries c) e = None
               /\ _resolvedConfigEntryId c = Some e
               /\ _resolvedIdentifier c = Some s)).
Proof.
  unfold _slug. cbv zeta.
  destruct (_activeEntryId c) as [e |] eqn:Hact; [| discriminate].
  cbn [truthy_opt]. destruct (truthy e) eqn:He; cbn [negb]; [| discriminate].
  destruct (truthy_opt (_entryIdentifier c (Some e))) eqn:Hlocal.
  - intros Hs. rewrite Hs in Hlocal. simpl in Hlocal.
    split; [apply truthy_true; exact Hlocal |].
    exists e. split; [reflexivity |]. split; [apply truthy_true; exact He |].
    left. unfold _entryIdentifier in Hs. rewrite He in Hs.
    destruct (find_entry (_entries c) e) as [entry |] eqn:Hfind; [| discriminate].
    injection Hs as <-. destruct (find_entry_Some _ _ _ Hfind) as [Hin Hid].
    exists entry. repeat split; assumption.
  - destruct (bool_decide (_resolvedConfigEntryId c = Some e)) eqn:Hres;
      simpl; [| discriminate].
    destruct (truthy_opt (_resolvedIdentifier c)) eqn:Hv; [| discriminate].
    intros Hs. rewrite Hs in Hv. simpl in Hv.
    split; [apply truthy_true; exact Hv |].
    exists e. split; [reflexivity |]. split; [apply truthy_true; exact He |].
    right. split; [apply entryIdentifier_unlisted; assumption |].
    split; [apply bool_decide_eq_true_1 in Hres; exact Hres | exact Hs].
Qed.

Lemma slug_unlisted (c : Card) (a : string) :
  _activeEntryId c = Some a -> a <> "" ->
  find_entry (_entries c) a = None ->
  _slug c
  = if bool_decide (_resolvedConfigEntryId c = Some a)
       && truthy_opt (_resolvedIdentifier c)
    then _resolvedIdentifier c else None.
Proof.
  intros Hact Ha Hfind. unfold _slug, _entryIdentifier. rewrite Hact. simpl.
  apply truthy_true in Ha. rewrite Ha, Hfind. reflexivity.
Qed.

(** X20.  When a lookup settles.  The in-flight flag drops, and neither
    the draft nor the attempt record is touched.  For an active account
    that the loaded list does not hold, the slug afterwards is the
    resolved identifier exactly when the lookup was for that account and
    gave a non-empty identifier; a rejected or empty answer, and an
    answer for another account, leave the card without a slug.  For a
    listed account the slug stays the identifier of its entry. *)
Theorem lookup_settled (e : string) (outcome : Settled (option string)) (c : Card) :
  _resolvingService (_resolveIdFromConfigEntry_settled e outcome c) = false
  /\ draft (_resolveIdFromConfigEntry_settled e outcome c) = draft c
  /\ last_attempt (_resolveIdFromConfigEntry_settled e outcome c) = last_attempt c
  /\ forall a,
       _activeEntryId c = Some a -> a <> "" ->
       (find_entry (_entries c) a = None ->
        _slug (_resolveIdFromConfigEntry_settled e outcome c)
        = match outcome with
          | Fulfilled (Some v) =>
              if truthy v && bool_decide (e = a) then Some v else None
          | _ => None
          end)
       /\ (forall entry,
             find_entry (_entries c) a = Some entry ->
             _slug (_resolveIdFromConfigEntry_settled e outcome c)
             = Some (resolveIdentifierFromEntry entry)).
Proof.
  set (c' := _resolveIdFromConfigEntry_settled e outcome c).
  assert (Hsame : _activeEntryId c' = _activeEntryId c /\ _entries c' = _entries c).
  { unfold c', _resolveIdFromConfigEntry_settled.
    destruct outcome as [[v |] |]; [destruct (truthy v) | |]; split; reflexivity. }
  destruct Hsame as [Hact' Hentries].
  split; [| split; [| split]].
  - unfold c', _resolveIdFromConfigEntry_settled.
    destruct outcome as [[v |] |]; [destruct (truthy v) | |]; reflexivity.
  - unfold c', _resolveIdFromConfigEntry_settled.
    destruct outcome as [[v |] |]; [destruct (truthy v) | |]; reflexivity.
  - unfold c', _resolveIdFromConfigEntry_settled.
    destruct outcome as [[v |] |]; [destruct (truthy v) | |]; reflexivity.
  - intros a Hact Ha. rewrite <- Hact' in Hact. split.
    + intros Hfind. rewrite <- Hentries in Hfind.
      rewrite (slug_unlisted c' a Hact Ha Hfind).
      unfold c', _resolveIdFromConfigEntry_settled.
      destruct outcome as [[v |] |]; [destruct (truthy v) eqn:Hv | |];
        cbn [_resolvedConfigEntryId _resolvedIdentifier set_resolvingService
               set_resolvedConfigEntryId set_resolvedIdentifier truthy_opt andb];
        try (rewrite bool_decide_eq_false_2 by discriminate; reflexivity).
      rewrite Hv. destruct (decide (e = a)) as [-> | Hne].
      * rewrite !bool_decide_eq_true_2 by reflexivity. reflexivity.
      * rewrite !bool_decide_eq_false_2 by congruence. reflexivity.
    + intros entry Hfind. rewrite <- Hentries in Hfind.
      apply (slug_local_identifier c' a entry Hact); [| exact Hfind].
      apply truthy_true. exact Ha.
Qed.

Lemma lookup_settled_witness :
  _slug
    (_resolveIdFromConfigEntry_settled "entry-x" (Fulfilled (Some "1001"))
       (set_config (Some (sample_config (Some "entry-x") None))
          (set_hass (Some admin_host) new_card)))
  = Some "1001".
Proof.
  apply (proj1 (proj2 (proj2 (proj2
           (lookup_settled "entry-x" (Fulfilled (Some "1001"))
              (set_config (Some (sample_config (Some "entry-x") None))
                 (set_hass (Some admin_host) new_card))))) "entry-x" eq_refl
           ltac:(discriminate))).
  reflexivity.
Defined.

Lemma slug_provenance_witness :
  exists e,
    _activeEntryId (card_after first_account_in_use) = Some e /\ e <> ""
    /\ ((exists entry,
           In entry (_entries (card_after first_account_in_use))
           /\ entry_id entry = e
           /\ "1001" = resolveIdentifierFromEntry entry)
        \/ (find_entry (_entries (card_after first_account_in_use)) e = None
            /\ _resolvedConfigEntryId (card_after first_account_in_use) = Some e
            /\ _resolvedIdentifier (card_after first_account_in_use) = Some "1001")).
Proof.
  apply (slug_provenance (card_after first_account_in_use) "1001").
  vm_compute. reflexivity.
Defined.

(** ** The options of the favourites list *)

Lemma digits_of_uint (d : Decimal.uint) (acc : Z) (n : nat) :
  digits 10 (NilEmpty.string_of_uint d) acc n
  = (decimal_value d acc, (n + Decimal.nb_digits d)%nat, "").
Proof.
  revert acc n.
  induction d; intros acc n;
    cbn [NilEmpty.string_of_uint decimal_value Decimal.nb_digits digits];
    [rewrite Nat.add_0_r; reflexivity | ..];
    match goal with
    | |- context [digit_of 10 ?c] =>
        let v := eval vm_compute in (digit_of 10 c) in
        change (digit_of 10 c) with v
    end;
    cbv iota beta; change (Z.of_N 10) with 10%Z;
    rewrite IHd, Nat.add_succ_r; reflexivity.
Qed.

Lemma decimal_value_pos (d : Decimal.uint) (acc : positive) :
  decimal_value d (Z.pos acc) = Z.pos (Pos.of_uint_acc d acc).
Proof.
  revert acc. induction d; intros acc; cbn [decimal_value Pos.of_uint_acc];
    [reflexivity | ..];
    rewrite <- IHd; f_equal; lia.
Qed.

Lemma decimal_value_of_uint (d : Decimal.uint) :
  decimal_value d 0 = Z.of_N (Pos.of_uint d).
Proof.
  induction d; cbn [decimal_value Pos.of_uint]; [reflexivity | exact IHd | ..];
    apply (decimal_value_pos d).
Qed.

Lemma digits_not_space (d : Decimal.uint) :
  all_chars not_space (NilEmpty.string_of_uint d) = true.
Proof.
  induction d; cbn [NilEmpty.string_of_uint all_chars]; [reflexivity | ..];
    rewrite IHd; reflexivity.
Qed.

(** [Number] reads a run of decimal digits as the integer it spells. *)
Lemma Number_digits (d : Decimal.uint) :
  d <> Decimal.Nil ->
  exists q, Number (NilEmpty.string_of_uint d) = JFin q
            /\ (q == inject_Z (decimal_value d 0))%Q.
Proof.
  intros Hd.
  assert (Hdec : exists q, decimal_literal (NilEmpty.string_of_uint d) = JFin q
                           /\ (q == inject_Z (decimal_value d 0))%Q).
  { unfold decimal_literal.
    assert (Hsign : sign_prefix (NilEmpty.string_of_uint d)
                    = (false, NilEmpty.string_of_uint d))
      by (destruct d; [contradiction | ..]; reflexivity).
    assert (Hinf : (NilEmpty.string_of_uint d =? "Infinity") = false)
      by (destruct d; [contradiction | ..]; reflexivity).
    rewrite Hsign, Hinf. unfold unsigned_decimal.
    rewrite digits_of_uint.
    assert (Hn : (0 + Decimal.nb_digits d + 0 =? 0)%nat = false)
      by (destruct d; [contradiction | ..]; reflexivity).
    rewrite Hn. cbn [exponent_part].
    eexists. split; [reflexivity |].
    rewrite Qred_correct. unfold Qeq. simpl. lia. }
  unfold Number. rewrite (trim_fixed _ (digits_not_space d)).
  destruct d as [| l | l | l | l | l | l | l | l | l | l]; try contradiction;
    try exact Hdec.
  destruct l; exact Hdec.
Qed.

Lemma Qred_integer (z : Z) : Qred (inject_Z z) = inject_Z z.
Proof.
  pose proof (Qred_correct (inject_Z z)) as Heq.
  pose proof (gcd_Qred (inject_Z z)) as Hgcd.
  destruct (Qred (inject_Z z)) as [num den].
  unfold Qeq in Heq. simpl in Heq, Hgcd.
  assert (Hden : Z.pos den = 1%Z).
  { rewrite <- Hgcd. replace num with (Z.pos den * z)%Z by lia.
    rewrite Z.gcd_comm. symmetry. apply Z.gcd_mul_diag_l. lia. }
  injection Hden as ->. unfold inject_Z. f_equal. lia.
Qed.

Lemma array_index_of_nat (q : Q) (i : nat) :
  (q == number_of_nat i)%Q -> array_index q = Some i.
Proof.
  intros Hq. unfold array_index, number_of_nat in *.
  rewrite (Qred_complete _ _ Hq), Qred_integer. simpl.
  destruct (0 <=? Z.of_nat i)%Z eqn:E; [| apply Z.leb_gt in E; lia].
  rewrite Nat2Z.id. reflexivity.
Qed.

Lemma Number_option_value (index : nat) :
  exists q, Number (option_value index) = JFin q /\ (q == number_of_nat index)%Q.
Proof.
  unfold option_value, String_of_integer, number_of_nat.
  destruct (Z.of_nat index) as [| p | p] eqn:E; [| | lia].
  - exists 0%Q. split; reflexivity.
  - cbn [Z.to_int NilZero.string_of_int]. unfold NilZero.string_of_uint.
    pose proof (DecimalPos.Unsigned.to_uint_nonnil p) as Hnil.
    destruct (Number_digits (Pos.to_uint p) Hnil) as (q & Hq & Hv).
    rewrite decimal_value_of_uint, DecimalPos.Unsigned.of_to in Hv.
    exists q. split; [| exact Hv].
    destruct (Pos.to_uint p); [contradiction | ..]; exact Hq.
Qed.

Lemma option_value_truthy (index : nat) : truthy (option_value index) = true.
Proof.
  apply truthy_true, String_of_integer_not_empty.
Qed.

Lemma selectFavorite_selection (value : string) (c : Card) :
  _selectedFavorite (_selectFavorite value c)
  = _selectedFavorite (set_favoriteDraft value c).
Proof.
  rewrite selectFavorite_cases. cbv zeta.
  destruct (truthy value);
    [destruct (_selectedFavorite (set_favoriteDraft value c)) eqn:Hsel |].
  - rewrite <- Hsel.
    exact (f_equal selectedFavorite (proj1 (syncFavoriteToggles_toggles _))).
  - exact Hsel.
  - exact (f_equal selectedFavorite (proj1 (syncFavoriteToggles_toggles _))).
Qed.

(** X21.  Every option of the favourites list selects its own favourite.
    [render] gives the option at position [index] the value
    [String(index)]; read back through [Number] in
    [_selectedFavoriteIndex], that value designates the favourite at
    that position, both when it is stored in [_favoriteDraft] and after
    [_selectFavorite] has handled the choice.  A position past the end of
    the list selects nothing. *)
Theorem option_value_selects (c : Card) (index : nat) :
  _selectedFavorite (set_favoriteDraft (option_value index) c)
  = _favorites c !! index
  /\ _selectedFavorite (_selectFavorite (option_value index) c)
     = _favorites c !! index.
Proof.
  assert (H : _selectedFavorite (set_favoriteDraft (option_value index) c)
              = _favorites c !! index).
  { unfold _selectedFavorite, _selectedFavoriteIndex.
    cbn [_favoriteDraft set_favoriteDraft].
    change (_favorites (set_favoriteDraft (option_value index) c))
      with (_favorites c).
    rewrite option_value_truthy. cbn [negb].
    destruct (Number_option_value index) as (q & -> & Hq).
    unfold Qltb, Qgeb.
    assert (H0 : Qle_bool 0 q = true).
    { apply Qle_bool_iff. rewrite Hq. unfold number_of_nat, Qle. simpl. lia. }
    rewrite H0. cbn [negb orb].
    destruct (Qle_bool (number_of_nat (length (_favorites c))) q) eqn:Hlen.
    - apply Qle_bool_iff in Hlen. rewrite Hq in Hlen.
      unfold number_of_nat, Qle in Hlen. simpl in Hlen.
      symmetry. apply lookup_ge_None. lia.
    - unfold element_at. rewrite (array_index_of_nat q index Hq). reflexivity. }
  split; [exact H |]. rewrite selectFavorite_selection. exact H.
Qed.

(** ** The editor of the new-reservation card *)

Lemma all_chars_app (p : ascii -> bool) (s t : string) :
  all_chars p (s ++ t) = all_chars p s && all_chars p t.
Proof.
  induction s as [| a s IH]; simpl; [reflexivity |].
  rewrite IH. destruct (p a); reflexivity.
Qed.

Lemma slug_or_underscore_not_space (s : string) :
  all_chars is_slug_or_underscore s = true -> all_chars not_space s = true.
Proof.
  apply all_chars_impl. intros a.
  destruct a as [[] [] [] [] [] [] [] []]; vm_compute; congruence.
Qed.

Lemma preferredFavorites_cases (entries : list ConfigEntryFragment.t)
    (entryId : option string) :
  Editor.preferredFavorites entries entryId = None
  \/ exists en i,
       Editor.find_fragment entries entryId = Some en
       /\ Editor.identifier_of (Some en) = Some i /\ i <> ""
       /\ slugifyId i <> ""
       /\ Editor.preferredFavorites entries entryId
          = Some (favorites_entity_name (slugifyId i)).
Proof.
  unfold Editor.preferredFavorites. cbv zeta.
  destruct (Editor.find_fragment entries entryId) as [en |] eqn:Hfind;
    [| left; reflexivity].
  destruct (Editor.identifier_of (Some en)) as [i |] eqn:Hid; [| left; reflexivity].
  cbn [truthy_opt fmap option_fmap option_map].
  destruct (truthy i) eqn:Hi; [| left; reflexivity].
  cbn [truthy_opt]. destruct (truthy (slugifyId i)) eqn:Hs; [| left; reflexivity].
  right. exists en, i.
  split; [reflexivity |]. split; [exact Hid |].
  split; [apply truthy_true; exact Hi |].
  split; [apply truthy_true; exact Hs | reflexivity].
Qed.

Lemma find_fragment_Some (entries : list ConfigEntryFragment.t)
    (entryId : option string) (en : ConfigEntryFragment.t) :
  Editor.find_fragment entries entryId = Some en ->
  In en entries /\ entryId = Some (ConfigEntryFragment.entry_id en)
  /\ truthy (ConfigEntryFragment.entry_id en) = true
  /\ find_entry (map summary entries) (ConfigEntryFragment.entry_id en)
     = Some (summary en).
Proof.
  unfold Editor.find_fragment. destruct entryId as [e |]; [| discriminate].
  destruct (truthy e) eqn:He; [| discriminate]. intros Hfind.
  assert (Hid : ConfigEntryFragment.entry_id en = e).
  { apply find_some in Hfind as [_ H]. apply String.eqb_eq in H. exact H. }
  subst e. split; [apply find_some in Hfind as [H _]; exact H |].
  split; [reflexivity |]. split; [exact He |].
  unfold find_entry. induction entries as [| x entries IH]; [discriminate |].
  simpl in *. destruct (ConfigEntryFragment.entry_id x =? _) eqn:E.
  - injection Hfind as ->. reflexivity.
  - apply IH. exact Hfind.
Qed.

Lemma identifier_of_summary (en : ConfigEntryFragment.t) (i : string) :
  Editor.identifier_of (Some en) = Some i ->
  resolveIdentifierFromEntry (summary en) = i.
Proof.
  unfold Editor.identifier_of, resolveIdentifierFromEntry, summary. simpl.
  destruct (truthy _ && negb _).
  - intros H. injection H as <-. reflexivity.
  - intros ->. reflexivity.
Qed.

Lemma favorites_entity_name_trimmed (s : string) :
  slug_shaped s -> trim (favorites_entity_name s) = favorites_entity_name s.
Proof.
  intros [Hs _]. apply trim_fixed. unfold favorites_entity_name.
  rewrite !all_chars_app, (slug_or_underscore_not_space s Hs). reflexivity.
Qed.

(** X22.  What the editor announces when an account is applied.  With a
    configuration loaded, [_applyEntry] announces exactly one
    configuration and keeps it as its own: the card type and the title
    are kept, the account is the one given, and the favourites entity is
    either left out or named [sensor.visitor_parking_<slug>_favorites],
    where the slug is not empty, has the slug form, and comes from a
    loaded entry with the given id.  Without a configuration nothing
    happens. *)
Theorem applyEntry_announces (entryId : option string) (ed : Editor.State) :
  (forall cfg,
      Editor._config ed = Some cfg ->
      exists config,
        Editor._applyEntry entryId ed = (Editor.set_config (Some config) ed, [config])
        /\ CardConfig.type config = CardConfig.type cfg
        /\ CardConfig.title config = CardConfig.title cfg
        /\ CardConfig.config_entry_id config = entryId
        /\ (CardConfig.favorites_entity config = None
            \/ exists en s,
                 In en (Editor._entries ed)
                 /\ entryId = Some (ConfigEntryFragment.entry_id en)
                 /\ s <> "" /\ slug_shaped s
                 /\ CardConfig.favorites_entity config
                    = Some (favorites_entity_name s)))
  /\ (Editor._config ed = None -> Editor._applyEntry entryId ed = (ed, [])).
Proof.
  split.
  - intros cfg Hc. unfold Editor._applyEntry. rewrite Hc. eexists.
    split; [reflexivity |]. cbn [CardConfig.type CardConfig.title
      CardConfig.config_entry_id CardConfig.favorites_entity].
    repeat (split; [reflexivity |]).
    destruct (preferredFavorites_cases (Editor._entries ed) entryId)
      as [H | (en & i & Hfind & _ & _ & Hs & H)]; [left; exact H | right].
    destruct (find_fragment_Some _ _ _ Hfind) as (Hin & Hid & _).
    exists en, (slugifyId i). repeat split; try assumption;
      apply slugifyId_shaped.
  - intros Hc. unfold Editor._applyEntry. rewrite Hc. reflexivity.
Qed.

Lemma applyEntry_announces_witness :
  exists config,
    Editor._applyEntry (Some "entry-a")
      (Editor.set_config (Some (sample_config None None))
         (loaded_editor [account_a; account_b]))
    = (Editor.set_config (Some config)
         (Editor.set_config (Some (sample_config None None))
            (loaded_editor [account_a; account_b])), [config])
    /\ CardConfig.type config = CardConfig.type (sample_config None None)
    /\ CardConfig.title config = CardConfig.title (sample_config None None)
    /\ CardConfig.config_entry_id config = Some "entry-a"
    /\ (CardConfig.favorites_entity config = None
        \/ exists en s,
             In en (Editor._entries
                      (Editor.set_config (Some (sample_config None None))
                         (loaded_editor [account_a; account_b])))
             /\ Some "entry-a" = Some (ConfigEntryFragment.entry_id en)
             /\ s <> "" /\ slug_shaped s
             /\ CardConfig.favorites_entity config = Some (favorites_entity_name s)).
Proof.
  apply (proj1 (applyEntry_announces (Some "entry-a")
                  (Editor.set_config (Some (sample_config None None))
                     (loaded_editor [account_a; account_b])))
           (sample_config None None)).
  reflexivity.
Defined.

Example applyEntry_first_account :
  snd (Editor._applyEntry (Some "entry-a")
         (Editor.set_config (Some (sample_config None None))
            (loaded_editor [account_a; account_b])))
  = [sample_config (Some "entry-a") (Some "sensor.visitor_parking_1001_favorites")].
Proof. vm_compute. reflexivity. Qed.

(** X23.  The editor and the card agree on the name of the favourites
    entity.  Take the configuration the editor announces for an account,
    with a favourites entity in it, and a card that holds this
    configuration and has loaded the same account list.  The account is
    the card's active one, the card finds a slug for it, and the entity
    name the card would build from that slug is the one the editor
    wrote.  So, unless the entity registry names another entity for the
    account, the card reads its favourites from the editor's entity
    whether or not the host knows that entity yet. *)
Theorem editor_entity_matches_card (entryId : option string) (ed : Editor.State)
    (config : CardConfig.t) (name : string) (c : Card) :
  snd (Editor._applyEntry entryId ed) = [config] ->
  CardConfig.favorites_entity config = Some name ->
  _config c = Some config ->
  _entries c = map summary (Editor._entries ed) ->
  _activeEntryId c = entryId
  /\ favorites_override c = name
  /\ (exists s, _slug c = Some s /\ favorites_entity_name (slugifyId s) = name)
  /\ (_favoritesEntityFromRegistry c = None -> _favoritesEntityId c = Some name).
Proof.
  unfold Editor._applyEntry.
  destruct (Editor._config ed) as [cfg |]; [| discriminate].
  cbn [snd]. intros Hconfig. injection Hconfig as <-.
  cbn [CardConfig.favorites_entity]. intros Hname Hc Hentries.
  destruct (preferredFavorites_cases (Editor._entries ed) entryId)
    as [H | (en & i & Hfind & Hid & Hi & Hs & H)]; [congruence |].
  rewrite H in Hname. injection Hname as <-.
  destruct (find_fragment_Some _ _ _ Hfind) as (_ & -> & He & Hsummary).
  set (e := ConfigEntryFragment.entry_id en) in *.
  assert (Hact : _activeEntryId c = Some e).
  { unfold _activeEntryId, pinned_entry_id. rewrite Hc. simpl. rewrite He.
    reflexivity. }
  assert (Hslug : _slug c = Some i).
  { rewrite <- (identifier_of_summary en i Hid).
    apply (slug_local_identifier c e (summary en) Hact He).
    rewrite Hentries. exact Hsummary. }
  assert (Hover : favorites_override c = favorites_entity_name (slugifyId i)).
  { unfold favorites_override. rewrite Hc.
    cbn [CardConfig.favorites_entity]. rewrite H.
    apply favorites_entity_name_trimmed, slugifyId_shaped. }
  split; [exact Hact |]. split; [exact Hover |].
  split; [exists i; split; [exact Hslug | reflexivity] |].
  intros Hreg. unfold _favoritesEntityId. cbv zeta.
  rewrite Hover, Hreg, Hslug.
  destruct (truthy (favorites_entity_name (slugifyId i)) && _); [reflexivity |].
  simpl. apply truthy_true in Hi. rewrite Hi. reflexivity.
Qed.

Lemma editor_entity_matches_card_witness :
  _favoritesEntityId
    (set_entries [account_a; account_b]
       (set_config
          (Some (sample_config (Some "entry-a")
                   (Some "sensor.visitor_parking_1001_favorites")))
          new_card))
  = Some "sensor.visitor_parking_1001_favorites".
Proof.
  apply (editor_entity_matches_card (Some "entry-a")
           (Editor.set_config (Some (sample_config None None))
              (loaded_editor [account_a; account_b]))
           (sample_config (Some "entry-a")
              (Some "sensor.visitor_parking_1001_favorites"))
           "sensor.visitor_parking_1001_favorites"
           (set_entries [account_a; account_b]
              (set_config
                 (Some (sample_config (Some "entry-a")
                          (Some "sensor.visitor_parking_1001_favorites")))
                 new_card)));
    vm_compute; reflexivity.
Defined.

Lemma selectDefault_cases (ed : Editor.State) :
  Editor._selectDefaultEntryIfNeeded ed = (ed, [])
  \/ exists cfg entryId,
       Editor._config ed = Some cfg
       /\ Editor._entriesLoaded ed = true /\ Editor._entries ed <> []
       /\ Editor._selectDefaultEntryIfNeeded ed = Editor._applyEntry entryId ed
       /\ ((entryId = CardConfig.config_entry_id cfg /\ truthy_opt entryId = true
            /\ truthy_opt (CardConfig.favorites_entity cfg) = false)
           \/ (truthy_opt (CardConfig.config_entry_id cfg) = false
               /\ exists en, Editor._entries ed = [en]
                             /\ entryId = Some (ConfigEntryFragment.entry_id en))).
Proof.
  unfold Editor._selectDefaultEntryIfNeeded.
  destruct (Editor._config ed) as [cfg |] eqn:Hc; [| left; reflexivity].
  destruct (Editor._entriesLoaded ed) eqn:Hl; [| left; reflexivity].
  destruct (Editor._entries ed) as [| en rest] eqn:He; [left; reflexivity |].
  cbn [negb orb length Nat.eqb].
  destruct (truthy_opt (CardConfig.config_entry_id cfg)) eqn:Hpin.
  - destruct (truthy_opt (CardConfig.favorites_entity cfg)) eqn:Hfav;
      [left; reflexivity |].
    right. exists cfg, (CardConfig.config_entry_id cfg).
    repeat split; try reflexivity; try discriminate. left. repeat split; assumption.
  - destruct rest as [| en' rest]; [| left; reflexivity].
    right. exists cfg, (Some (ConfigEntryFragment.entry_id en)).
    repeat split; try reflexivity; try discriminate. right.
    split; [exact Hpin |]. exists en. split; reflexivity.
Qed.

(** X24.  [setConfig] of the editor settles.  It announces nothing while
    the account list is not loaded or is empty, and it never touches a
    configuration that names both an account and a favourites entity.
    When it does announce a configuration, that configuration keeps the
    card type and the title, and giving it back to [setConfig], as the
    host does after [config-changed], leaves it as it is: the editor
    announces it again or stays silent, and never a different one. *)
Theorem setConfig_settles (config : CardConfig.t) (ed : Editor.State) :
  (Editor._entriesLoaded ed = false \/ Editor._entries ed = [] ->
   Editor.setConfig config ed = (Editor.set_config (Some config) ed, []))
  /\ (truthy_opt (CardConfig.config_entry_id config) = true ->
      truthy_opt (CardConfig.favorites_entity config) = true ->
      Editor.setConfig config ed = (Editor.set_config (Some config) ed, []))
  /\ forall announced,
       In announced (snd (Editor.setConfig config ed)) ->
       snd (Editor.setConfig config ed) = [announced]
       /\ Editor._config (fst (Editor.setConfig config ed)) = Some announced
       /\ CardConfig.type announced = CardConfig.type config
       /\ CardConfig.title announced = CardConfig.title config
       /\ Editor._config
            (fst (Editor.setConfig announced (fst (Editor.setConfig config ed))))
          = Some announced
       /\ (snd (Editor.setConfig announced (fst (Editor.setConfig config ed))) = []
           \/ snd (Editor.setConfig announced (fst (Editor.setConfig config ed)))
              = [announced]).
Proof.
  split; [| split].
  - unfold Editor.setConfig, Editor._selectDefaultEntryIfNeeded.
    cbn [Editor._config Editor._entries Editor._entriesLoaded Editor.set_config].
    intros [-> | ->]; [reflexivity |].
    cbn [length Nat.eqb]. rewrite orb_true_r. reflexivity.
  - unfold Editor.setConfig, Editor._selectDefaultEntryIfNeeded.
    cbn [Editor._config Editor._entries Editor._entriesLoaded Editor.set_config].
    intros -> ->. destruct (negb _ || _); reflexivity.
  - intros announced Hin.
    set (ed0 := Editor.set_config (Some config) ed).
    assert (Hrun : exists entryId,
               Editor.setConfig config ed
               = (Editor.set_config (Some announced) ed0, [announced])
               /\ announced
                  = {| CardConfig.type := CardConfig.type config;
                       CardConfig.title := CardConfig.title config;
                       CardConfig.config_entry_id := entryId;
                       CardConfig.favorites_entity :=
                         Editor.preferredFavorites (Editor._entries ed0) entryId |}
               /\ ((entryId = CardConfig.config_entry_id config
                    /\ truthy_opt entryId = true)
                   \/ (exists en, Editor._entries ed0 = [en]
                                  /\ entryId = Some (ConfigEntryFragment.entry_id en)))).
    { unfold Editor.setConfig in *. fold ed0 in Hin |- *.
      destruct (selectDefault_cases ed0)
        as [E | (cfg & entryId & Hc & _ & _ & E & Hwhy)]; rewrite E in Hin |- *;
        [destruct Hin |].
      injection Hc as <-. exists entryId.
      unfold Editor._applyEntry in Hin |- *.
      cbn [Editor._config ed0 Editor.set_config snd] in Hin |- *.
      destruct Hin as [<- | []]. split; [reflexivity |]. split; [reflexivity |].
      destruct Hwhy as [(H1 & H2 & _) | (_ & H)]; [left; split; assumption |].
      right. exact H. }
    destruct Hrun as (entryId & -> & Hshape & Hwhy). cbn [fst snd].
    split; [reflexivity |]. split; [reflexivity |].
    split; [rewrite Hshape; reflexivity |]. split; [rewrite Hshape; reflexivity |].
    unfold Editor.setConfig.
    set (ed1 := Editor.set_config (Some announced)
                  (Editor.set_config (Some announced) ed0)).
    assert (Hentries : Editor._entries ed1 = Editor._entries ed0) by reflexivity.
    destruct (selectDefault_cases ed1)
      as [-> | (cfg1 & entryId1 & Hc1 & _ & _ & -> & Hwhy1)];
      [split; [reflexivity | left; reflexivity] |].
    injection Hc1 as <-.
    assert (Hsame : entryId1 = entryId).
    { destruct Hwhy1 as [(-> & _) | (Hpin1 & en1 & Hen1 & ->)];
        [rewrite Hshape; reflexivity |].
      rewrite Hshape in Hpin1. cbn [CardConfig.config_entry_id] in Hpin1.
      destruct Hwhy as [(_ & Hpin) | (en & Hen & ->)]; [congruence |].
      rewrite Hentries, Hen in Hen1. injection Hen1 as <-. reflexivity. }
    subst entryId1. clear Hwhy1 Hin. unfold Editor._applyEntry.
    cbn [Editor._config ed1 Editor.set_config fst snd]. rewrite Hentries.
    clearbody ed0. subst ed1 announced.
    split; [reflexivity | right; reflexivity].
Qed.

Lemma setConfig_settles_witness :
  snd (Editor.setConfig (sample_config (Some "entry-a") None)
         (loaded_editor [account_a; account_b]))
  = [sample_config (Some "entry-a") (Some "sensor.visitor_parking_1001_favorites")]
  /\ Editor._config
       (fst (Editor.setConfig (sample_config (Some "entry-a") None)
               (loaded_editor [account_a; account_b])))
     = Some (sample_config (Some "entry-a")
               (Some "sensor.visitor_parking_1001_favorites")).
Proof.
  destruct (proj2 (proj2 (setConfig_settles (sample_config (Some "entry-a") None)
                            (loaded_editor [account_a; account_b])))
              (sample_config (Some "entry-a")
                 (Some "sensor.visitor_parking_1001_favorites")))
    as (H1 & H2 & _).
  - vm_compute. left. reflexivity.
  - split; assumption.
Defined.

(** ** The active-reservation card *)

Lemma reservationId_not_empty (value : option Favorite.Id) (i : string) :
  ActiveCard._reservationId value = Some i -> i <> "".
Proof.
  unfold ActiveCard._reservationId.
  destruct value as [[n | s] |]; [| | discriminate].
  - intros H. injection H as <-. apply String_of_integer_not_empty.
  - cbv zeta. destruct (truthy (trim s)) eqn:E; [| discriminate].
    intros H. injection H as <-. apply truthy_true. exact E.
Qed.

Lemma endReservation_runs (host : ActiveCard.Request -> Settled unit)
    (reservationId : string) (entryId : option string) (st : ActiveCard.State) :
  ActiveCard._endReservation host reservationId entryId st
  = if ActiveCard.refuses entryId st then (Fulfilled tt, st, [])
    else
      (host (ActiveCard.delete_reservation reservationId
               (if truthy_opt entryId then entryId else None)),
       ActiveCard.set_endingReservationIds
         (({[ reservationId ]} ∪ ActiveCard._endingReservationIds st)
          ∖ {[ reservationId ]}) st,
       [ActiveCard.delete_reservation reservationId
          (if truthy_opt entryId then entryId else None)]).
Proof.
  unfold ActiveCard._endReservation, ActiveCard._endReservation_begin.
  destruct (ActiveCard.refuses entryId st); reflexivity.
Qed.

(** X25.  Ending a reservation.  When the guard lets it through,
    [_endReservation] makes one [delete_reservation] request for the
    given identifier, with the account when one is given.  While the
    request is in flight the identifier is in [_endingReservationIds];
    once it has settled the identifier is out again and every other
    identifier is where it was, whether the host accepted or rejected.
    A rejection is not caught: the promise rejects.  When the guard
    refuses, nothing is sent and nothing changes. *)
Theorem endReservation_settles (host : ActiveCard.Request -> Settled unit)
    (reservationId : string) (entryId : option string) (st : ActiveCard.State) :
  (ActiveCard.refuses entryId st = true ->
   ActiveCard._endReservation host reservationId entryId st = (Fulfilled tt, st, [])
   /\ ActiveCard._endReservation_begin reservationId entryId st = (st, []))
  /\ (ActiveCard.refuses entryId st = false ->
      exists call,
        call = ActiveCard.delete_reservation reservationId
                 (if truthy_opt entryId then entryId else None)
        /\ snd (ActiveCard._endReservation_begin reservationId entryId st) = [call]
        /\ (reservationId
            ∈ ActiveCard._endingReservationIds
                (fst (ActiveCard._endReservation_begin reservationId entryId st)))
        /\ snd (ActiveCard._endReservation host reservationId entryId st) = [call]
        /\ fst (fst (ActiveCard._endReservation host reservationId entryId st))
           = host call
        /\ ActiveCard._endingReservationIds
             (snd (fst (ActiveCard._endReservation host reservationId entryId st)))
           = ActiveCard._endingReservationIds st ∖ {[ reservationId ]}).
Proof.
  rewrite endReservation_runs. unfold ActiveCard._endReservation_begin. split.
  - intros ->. split; reflexivity.
  - intros ->. eexists. split; [reflexivity |]. cbn [fst snd].
    split; [reflexivity |].
    split; [cbn [ActiveCard._endingReservationIds
                   ActiveCard.set_endingReservationIds];
            apply elem_of_union_l, elem_of_singleton; reflexivity |].
    split; [reflexivity |]. split; [reflexivity |].
    cbn [ActiveCard._endingReservationIds ActiveCard.set_endingReservationIds].
    apply set_eq. intros x.
    rewrite !elem_of_difference, elem_of_union, elem_of_singleton. tauto.
Qed.

Lemma endReservation_settles_witness :
  exists call,
    call = ActiveCard.delete_reservation "7" None
    /\ snd (ActiveCard._endReservation_begin "7" None (active_card None [account_a]))
       = [call]
    /\ ("7" ∈ ActiveCard._endingReservationIds
                (fst (ActiveCard._endReservation_begin "7" None
                        (active_card None [account_a]))))
    /\ snd (ActiveCard._endReservation service_down "7" None
              (active_card None [account_a])) = [call]
    /\ fst (fst (ActiveCard._endReservation service_down "7" None
                   (active_card None [account_a])))
       = service_down call
    /\ ActiveCard._endingReservationIds
         (snd (fst (ActiveCard._endReservation service_down "7" None
                      (active_card None [account_a]))))
       = ActiveCard._endingReservationIds (active_card None [account_a]) ∖ {[ "7" ]}.
Proof.
  apply (proj2 (endReservation_settles service_down "7" None
                  (active_card None [account_a]))).
  reflexivity.
Defined.

(** X26.  The End button.  A row whose button is enabled has an
    identifier that is not empty and not already being ended.  In the
    view of all accounts a click on an enabled button always sends the
    request, with the account of the row when it has one.  In the view
    of one configured entity the click carries no account: it sends the
    request unless several accounts are loaded, in which case the enabled
    button sends nothing. *)
Theorem end_button (host : ActiveCard.Request -> Settled unit)
    (st : ActiveCard.State) (r : ActiveCard.Reservation) :
  is_Some (ActiveCard.hass st) -> is_Some (ActiveCard._config st) ->
  ActiveCard.end_disabled st r = false ->
  exists i,
    ActiveCard._reservationId (ActiveCard.id r) = Some i /\ i <> ""
    /\ (i ∉ ActiveCard._endingReservationIds st)
    /\ (ActiveCard.aggregated st = true ->
        snd (ActiveCard.end_clicked host r st)
        = [ActiveCard.delete_reservation i
             (if truthy_opt (ActiveCard.entryId r) then ActiveCard.entryId r
              else None)])
    /\ (ActiveCard.aggregated st = false ->
        snd (ActiveCard.end_clicked host r st)
        = if ActiveCard._entriesLoaded st
             && (1 <? length (ActiveCard._entries st))%nat
          then []
          else [ActiveCard.delete_reservation i None]).
Proof.
  intros Hh Hc. unfold ActiveCard.end_disabled, ActiveCard.canEnd,
    ActiveCard.ending, ActiveCard.end_clicked.
  destruct (ActiveCard._reservationId (ActiveCard.id r)) as [i |] eqn:Hid.
  2:{ destruct (ActiveCard.aggregated st); discriminate. }
  rewrite bool_decide_eq_true_2 by eauto. intros Hen.
  apply orb_false_iff in Hen as [Hcan Hending]. apply negb_false_iff in Hcan.
  apply bool_decide_eq_false_1 in Hending.
  exists i. split; [reflexivity |].
  split; [exact (reservationId_not_empty _ _ Hid) |]. split; [exact Hending |].
  assert (Hguard : forall e, ActiveCard.refuses e st
            = negb (truthy_opt e) && ActiveCard._entriesLoaded st
              && (1 <? length (ActiveCard._entries st))%nat).
  { intros e. unfold ActiveCard.refuses.
    rewrite !bool_decide_eq_true_2 by assumption. reflexivity. }
  split; intros Hmode; rewrite Hmode in *; rewrite endReservation_runs, Hguard.
  - cbn [andb] in Hcan. unfold ActiveCard.allowEndWithoutEntry in Hcan.
    destruct (truthy_opt (ActiveCard.entryId r)); [reflexivity |].
    rewrite orb_false_r in Hcan. apply andb_true_iff in Hcan as [-> Hlen].
    apply Nat.leb_le in Hlen.
    destruct (1 <? length (ActiveCard._entries st))%nat eqn:E;
      [apply Nat.ltb_lt in E; lia | reflexivity].
  - cbn [truthy_opt negb andb].
    destruct (ActiveCard._entriesLoaded st && _); reflexivity.
Qed.

Lemma end_button_witness :
  exists i,
    ActiveCard._reservationId (Some (Favorite.IdNumber 7)) = Some i /\ i <> ""
    /\ (i ∉ ActiveCard._endingReservationIds
              (active_card (Some "sensor.visitor_parking_1001_reservations")
                 [account_a; account_b]))
    /\ (ActiveCard.aggregated
          (active_card (Some "sensor.visitor_parking_1001_reservations")
             [account_a; account_b]) = true ->
        snd (ActiveCard.end_clicked service_down
               {| ActiveCard.id := Some (Favorite.IdNumber 7);
                  ActiveCard.entryId := None |}
               (active_card (Some "sensor.visitor_parking_1001_reservations")
                  [account_a; account_b]))
        = [ActiveCard.delete_reservation i None])
    /\ (ActiveCard.aggregated
          (active_card (Some "sensor.visitor_parking_1001_reservations")
             [account_a; account_b]) = false ->
        snd (ActiveCard.end_clicked service_down
               {| ActiveCard.id := Some (Favorite.IdNumber 7);
                  ActiveCard.entryId := None |}
               (active_card (Some "sensor.visitor_parking_1001_reservations")
                  [account_a; account_b]))
        = []).
Proof.
  apply (end_button service_down
           (active_card (Some "sensor.visitor_parking_1001_reservations")
              [account_a; account_b])
           {| ActiveCard.id := Some (Favorite.IdNumber 7);
              ActiveCard.entryId := None |}).
  - eexists. reflexivity.
  - eexists. reflexivity.
  - vm_compute. reflexivity.
Defined.

(** ** Placeholders *)

Example format_entity :
  _format "Entity {entity} not found ({code})" (Some {[ "entity" := "sensor.x" ]})
  = "Entity sensor.x not found ({code})".
Proof. vm_compute. reflexivity. Qed.

Example format_not_rescanned :
  _format "{a}{{b}}{}{a" (Some (<[ "a" := "{b}" ]> {[ "b" := "B" ]})) = "{b}{B}{}{a".
Proof. vm_compute. reflexivity. Qed.

Lemma append_assoc (a b c : string) : (a ++ b) ++ c = a ++ b ++ c.
Proof.
  induction a as [| x a IH]; [reflexivity |].
  change (String x ((a ++ b) ++ c) = String x (a ++ b ++ c)). f_equal. exact IH.
Qed.

Lemma append_empty_r (a : string) : a ++ "" = a.
Proof.
  induction a as [| x a IH]; [reflexivity |].
  change (String x (a ++ "") = String x a). f_equal. exact IH.
Qed.

Lemma brace_not_key_char (c : ascii) :
  is_key_char c = true -> (c =? "{")%char = false /\ (c =? "}")%char = false.
Proof.
  destruct c as [[] [] [] [] [] [] [] []]; vm_compute; intros H;
    try discriminate H; split; reflexivity.
Qed.

(** An opening brace ends whatever attempt is under way and starts the
    next one. *)
Lemma replace_placeholders_brace (p : gmap string string) (pending : option string)
    (a r : string) :
  replace_placeholders p pending (a ++ String "{" r)
  = replace_placeholders p pending a ++ replace_placeholders p (Some "") r.
Proof.
  revert pending. induction a as [| c a IH]; intros pending.
  - destruct pending as [key |]; simpl; [| reflexivity].
    rewrite append_assoc. reflexivity.
  - change (String c a ++ String "{" r) with (String c (a ++ String "{" r)).
    cbn [replace_placeholders]. destruct pending as [key |].
    + destruct (is_key_char c); [apply IH |].
      destruct ((c =? "}")%char && truthy key);
        [rewrite IH, append_assoc; reflexivity |].
      destruct (c =? "{")%char; rewrite IH; simpl; rewrite !append_assoc; reflexivity.
    + destruct (c =? "{")%char; rewrite IH; reflexivity.
Qed.

(** Key characters followed by a closing brace complete the attempt. *)
Lemma replace_placeholders_key (p : gmap string string) (key k b : string) :
  all_chars is_key_char k = true -> key ++ k <> "" ->
  replace_placeholders p (Some key) (k ++ String "}" b)
  = replacer p (key ++ k) ++ replace_placeholders p None b.
Proof.
  revert key. induction k as [| c k IH]; intros key Hk Hne.
  - rewrite append_empty_r in *. change ("" ++ String "}" b) with (String "}" b).
    cbn [replace_placeholders].
    change (is_key_char "}") with false. cbv iota.
    apply truthy_true in Hne. rewrite Hne. reflexivity.
  - cbn [all_chars] in Hk. apply andb_true_iff in Hk as [Hc Hk].
    change (String c k ++ String "}" b) with (String c (k ++ String "}" b)).
    cbn [replace_placeholders]. rewrite Hc.
    rewrite IH; [| exact Hk | rewrite append_assoc; exact Hne].
    rewrite append_assoc. reflexivity.
Qed.

Lemma replace_placeholders_unknown (pending : option string) (s : string) :
  replace_placeholders ∅ pending s
  = match pending with
    | None => s
    | Some key => "{" ++ key ++ s
    end.
Proof.
  revert pending. induction s as [| c s IH]; intros pending.
  - destruct pending as [key |]; simpl; [rewrite append_empty_r |]; reflexivity.
  - cbn [replace_placeholders]. destruct pending as [key |].
    + destruct (is_key_char c) eqn:Hc.
      * rewrite IH. simpl. rewrite append_assoc. reflexivity.
      * destruct ((c =? "}")%char && truthy key) eqn:Hclose.
        { apply andb_true_iff in Hclose as [Hb Ht]. apply Ascii.eqb_eq in Hb.
          subst c. rewrite IH. unfold replacer. rewrite Ht, lookup_empty.
          cbn [negb default]. cbv zeta.
          change ("{" ++ key ++ String "}" s) with ("{" ++ key ++ "}" ++ s).
          rewrite <- !append_assoc. reflexivity. }
        destruct (c =? "{")%char eqn:Hopen.
        { apply Ascii.eqb_eq in Hopen. subst c. rewrite IH. reflexivity. }
        rewrite IH. reflexivity.
    + destruct (c =? "{")%char eqn:Hopen.
      * apply Ascii.eqb_eq in Hopen. subst c. rewrite IH. reflexivity.
      * rewrite IH. reflexivity.
Qed.

(** X27.  What [_format] replaces.  Without placeholders, or with an
    empty table, the template comes back as written, and so does any
    template without an opening brace.  A placeholder [{key}] whose key
    consists of letters, digits and underscores is replaced by the value
    the table has for the key, or left as written when it has none; the
    text before it and the text after it are formatted on their own, so
    a replaced value is never searched for placeholders again. *)
Theorem format_placeholders (p : gmap string string) :
  (forall template,
      _format template None = template /\ _format template (Some ∅) = template)
  /\ (forall template,
        all_chars no_brace template = true -> _format template (Some p) = template)
  /\ (forall before key after,
        key <> "" -> all_chars is_key_char key = true ->
        _format (before ++ "{" ++ key ++ "}" ++ after) (Some p)
        = _format before (Some p)
          ++ default ("{" ++ key ++ "}") (p !! key)
          ++ _format after (Some p)).
Proof.
  split; [| split].
  - intros template. split; [reflexivity |].
    exact (replace_placeholders_unknown None template).
  - intros template. unfold _format.
    induction template as [| c s IH]; [reflexivity |].
    cbn [all_chars replace_placeholders]. unfold no_brace at 1. intros H.
    apply andb_true_iff in H as [Hc Hs]. apply negb_true_iff in Hc.
    rewrite Hc, (IH Hs). reflexivity.
  - intros before key after Hne Hkey. unfold _format.
    change ("{" ++ key ++ "}" ++ after) with (String "{" (key ++ String "}" after)).
    rewrite replace_placeholders_brace.
    rewrite (replace_placeholders_key p "" key after Hkey Hne).
    change ("" ++ key) with key. unfold replacer.
    apply truthy_true in Hne. rewrite Hne. reflexivity.
Qed.

Lemma format_placeholders_witness :
  _format ("Entity " ++ "{" ++ "entity" ++ "}" ++ " not found")
    (Some {[ "entity" := "sensor.x" ]})
  = _format "Entity " (Some {[ "entity" := "sensor.x" ]})
    ++ default ("{" ++ "entity" ++ "}")
         (({[ "entity" := "sensor.x" ]} : gmap string string) !! "entity")
    ++ _format " not found" (Some {[ "entity" := "sensor.x" ]}).
Proof.
  apply (proj2 (proj2 (format_placeholders {[ "entity" := "sensor.x" ]}))).
  - discriminate.
  - reflexivity.
Defined.

(** ** The resolver record *)

Lemma resolver_consistent_ext (c c' : Card) :
  resolver_state c' = resolver_state c ->
  resolver_consistent c -> resolver_consistent c'.
Proof.
  unfold resolver_state, resolver_consistent. intros H.
  injection H as -> -> -> ->. intros Hc. exact Hc.
Qed.

Lemma syncFavoriteToggles_resolver (c : Card) :
  resolver_state (_syncFavoriteToggles c) = resolver_state c.
Proof. unfold _syncFavoriteToggles. break_ifs; reflexivity. Qed.

Lemma maybeResetFavoriteSelection_resolver (c : Card) :
  resolver_state (_maybeResetFavoriteSelection c) = resolver_state c.
Proof. unfold _maybeResetFavoriteSelection. break_ifs; reflexivity. Qed.

Lemma selectFavorite_resolver (v : string) (c : Card) :
  resolver_state (_selectFavorite v c) = resolver_state c.
Proof.
  rewrite selectFavorite_cases. cbv zeta.
  destruct (truthy v); [destruct (_selectedFavorite _) |];
    rewrite ?syncFavoriteToggles_resolver; reflexivity.
Qed.

Lemma setSelectedEntry_consistent (entryId : option string) (c : Card) :
  resolver_consistent (_setSelectedEntry entryId c).
Proof.
  unfold resolver_consistent. simpl. split; [tauto |]. split; [discriminate | tauto].
Qed.

Lemma resolve_step_consistent (changedProps : ChangedProps) (now : Z)
    (h : HomeAssistant) (favoritesEntity : string) (c : Card) :
  resolver_consistent c ->
  resolver_consistent (fst (resolve_step changedProps now h favoritesEntity c)).
Proof.
  intros Hc. unfold resolve_step.
  destruct (_activeEntryId c) as [entryId |]; [| exact Hc].
  destruct (negb (truthy entryId) || truthy favoritesEntity); [exact Hc |].
  cbv zeta.
  destruct (_entryIdentifier c (Some entryId)) as [v |] eqn:Hid; cbn [truthy_opt].
  - destruct (truthy v) eqn:Hv.
    + unfold resolver_consistent. cbn. split; [split; discriminate |].
      split; [| apply Hc]. intros H. injection H as ->. discriminate Hv.
    + destruct (negb (is_admin h)); [exact Hc |].
      destruct (negb (callWS h)); [exact Hc |].
      assert (Hclear : resolver_consistent
                         (if entryIdChanged changedProps entryId
                          then clear_resolution c else c)).
      { destruct (entryIdChanged changedProps entryId); [| exact Hc].
        unfold resolver_consistent. cbn. split; [tauto |].
        split; [discriminate | tauto]. }
      set (c1 := if entryIdChanged changedProps entryId
                 then clear_resolution c else c) in *.
      destruct (_resolvingService c1); [exact Hclear |].
      destruct (bool_decide _); [exact Hclear |].
      destruct (negb (retryDue c1 entryId now)); [exact Hclear |].
      unfold _resolveIdFromConfigEntry_begin. cbn [hass set_lastResolveEntryId
        set_lastResolveAttempt].
      destruct (hass c1) as [h1 |]; [destruct (callWS h1) |];
        destruct Hclear as (H1 & H2 & _); unfold resolver_consistent; cbn;
        (split; [exact H1 |]); (split; [exact H2 |]); split; discriminate.
  - destruct (negb (is_admin h)); [exact Hc |].
    destruct (negb (callWS h)); [exact Hc |].
    assert (Hclear : resolver_consistent
                       (if entryIdChanged changedProps entryId
                        then clear_resolution c else c)).
    { destruct (entryIdChanged changedProps entryId); [| exact Hc].
      unfold resolver_consistent. cbn. split; [tauto |].
      split; [discriminate | tauto]. }
    set (c1 := if entryIdChanged changedProps entryId
               then clear_resolution c else c) in *.
    destruct (_resolvingService c1); [exact Hclear |].
    destruct (bool_decide _); [exact Hclear |].
    destruct (negb (retryDue c1 entryId now)); [exact Hclear |].
    unfold _resolveIdFromConfigEntry_begin. cbn [hass set_lastResolveEntryId
      set_lastResolveAttempt].
    destruct (hass c1) as [h1 |]; [destruct (callWS h1) |];
      destruct Hclear as (H1 & H2 & _); unfold resolver_consistent; cbn;
      (split; [exact H1 |]); (split; [exact H2 |]); split; discriminate.
Qed.

Lemma updated_consistent (changedProps : ChangedProps) (now : Z) (c : Card) :
  resolver_consistent c -> resolver_consistent (fst (updated changedProps now c)).
Proof.
  intros Hc. unfold updated.
  destruct (hass c) as [h |]; [| exact Hc].
  destruct (_config c) as [cfg |]; [| exact Hc].
  destruct (load_step_card h c) as (b1 & b2 & Hload & _).
  destruct (load_step h c) as [c1 loads]. simpl in Hload. subst c1.
  pose proof (resolve_step_consistent changedProps now h
                (trim (or_empty (CardConfig.favorites_entity cfg)))
                (set_entityRegistryLoaded b2 (set_entriesLoaded b1 c))) as Hstep.
  destruct (resolve_step _ _ _ _ _) as [c2 lookups]. simpl in *.
  apply Hstep. exact Hc.
Qed.

Lemma step_consistent (ev : Event) (e : Element) :
  resolver_consistent (card e) -> resolver_consistent (card (fst (step ev e))).
Proof.
  intros Hc. destruct ev as [h | config | now | outcome | outcome | entryId listing
                             | value | value | value | value]; cbn [step].
  - exact Hc.
  - exact Hc.
  - pose proof (updated_consistent (changed_config e) now (card e) Hc) as H.
    destruct (updated _ _ _) as [c requests]. exact H.
  - unfold on_card, _loadEntries_settled. cbn [fst card]. cbv zeta.
    destruct (_ && _); [apply setSelectedEntry_consistent | exact Hc].
  - exact Hc.
  - unfold on_card, _resolveIdFromConfigEntry_settled. cbn [fst card].
    destruct Hc as (_ & _ & Hlast).
    destruct (resolveIdFromConfigEntry true listing entryId) as [[v |] |];
      [destruct (truthy v) eqn:Hv | |]; unfold resolver_consistent; cbn;
      (split; [split; (discriminate || reflexivity) |]);
      (split; [| exact Hlast]); try discriminate.
    intros H. injection H as ->. discriminate Hv.
  - destruct (showEntryPicker (card e) && picker_offers (card e) value);
      [apply setSelectedEntry_consistent | exact Hc].
  - apply (resolver_consistent_ext (card e)); [| exact Hc].
    apply selectFavorite_resolver.
  - apply (resolver_consistent_ext (card e)); [| exact Hc].
    unfold on_card, name_input. cbn [fst card].
    rewrite syncFavoriteToggles_resolver, maybeResetFavoriteSelection_resolver.
    reflexivity.
  - apply (resolver_consistent_ext (card e)); [| exact Hc].
    unfold on_card, license_plate_input. cbn [fst card].
    rewrite syncFavoriteToggles_resolver, maybeResetFavoriteSelection_resolver.
    reflexivity.
Qed.

Lemma run_consistent (events : list Event) (e : Element) :
  resolver_consistent (card e) -> resolver_consistent (card (fst (run events e))).
Proof.
  revert e. induction events as [| ev events IH]; intros e Hc; [exact Hc |].
  cbn [run]. pose proof (step_consistent ev e Hc) as Hstep.
  destruct (step ev e) as [e1 requests]. specialize (IH e1 Hstep).
  destruct (run events e1) as [e2 later]. exact IH.
Qed.

(** X28.  An invariant of the resolver.  Whatever happens to a new card
    (hass or configuration set, update cycles at any clock readings,
    loads and lookups settling with any answer, accounts and favourites
    picked, name and plate typed), the resolved account and its
    identifier are either both set or both absent, the identifier is
    never the empty string, and the time and the account of the last
    attempt are either both recorded or both absent. *)
Theorem resolver_invariant (events : list Event) :
  resolver_consistent (card (fst (run events new_element))).
Proof.
  apply run_consistent. unfold resolver_consistent. cbn.
  split; [tauto |]. split; [discriminate | tauto].
Qed.

(** ** The account list arrives *)

(** X29.  What the card does when its account list has loaded (or
    failed to load, which counts as an empty list).  A pinned or already
    selected account stays the active one, and the draft and the
    resolver record are untouched.  Otherwise, with exactly one account
    listed, that account is selected, which empties the draft and the
    resolver record; with none listed there is no active account but
    the card is not locked; with several listed there is no active
    account and the card is locked until one is picked. *)
Theorem loadEntries_settled_account (outcome : Settled (list ConfigEntrySummary))
    (c : Card) :
  _entriesLoaded (_loadEntries_settled outcome c) = true
  /\ _entries (_loadEntries_settled outcome c) = listed outcome
  /\ (truthy_opt (pinned_entry_id c) = true \/ truthy_opt (_selectedEntryId c) = true ->
      _activeEntryId (_loadEntries_settled outcome c) = _activeEntryId c
      /\ draft (_loadEntries_settled outcome c) = draft c
      /\ resolver_state (_loadEntries_settled outcome c) = resolver_state c)
  /\ (truthy_opt (pinned_entry_id c) = false ->
      truthy_opt (_selectedEntryId c) = false ->
      match listed outcome with
      | [] =>
          _activeEntryId (_loadEntries_settled outcome c) = None
          /\ draft (_loadEntries_settled outcome c) = draft c
          /\ entryLocked (_loadEntries_settled outcome c) = false
      | [only] =>
          _activeEntryId (_loadEntries_settled outcome c) = Some (entry_id only)
          /\ draft (_loadEntries_settled outcome c) = empty_draft
          /\ resolver_state (_loadEntries_settled outcome c) = (None, None, None, None)
          /\ entryLocked (_loadEntries_settled outcome c) = false
      | _ :: _ :: _ =>
          _activeEntryId (_loadEntries_settled outcome c) = None
          /\ draft (_loadEntries_settled outcome c) = draft c
          /\ entryLocked (_loadEntries_settled outcome c) = true
      end).
Proof.
  unfold _loadEntries_settled. fold (listed outcome). cbv zeta.
  change (pinned_entry_id (set_entriesLoaded true (set_entries (listed outcome) c)))
    with (pinned_entry_id c).
  change (_selectedEntryId (set_entriesLoaded true (set_entries (listed outcome) c)))
    with (_selectedEntryId c).
  change (_entries (set_entriesLoaded true (set_entries (listed outcome) c)))
    with (listed outcome).
  split; [| split; [| split]].
  - destruct (_ && _); reflexivity.
  - destruct (_ && _); reflexivity.
  - intros Hkept.
    assert (Hno : negb (truthy_opt (pinned_entry_id c))
                  && negb (truthy_opt (_selectedEntryId c))
                  && (length (listed outcome) =? 1)%nat = false).
    { destruct Hkept as [-> | ->]; [reflexivity |].
      destruct (truthy_opt (pinned_entry_id c)); reflexivity. }
    rewrite Hno. split; [| split; reflexivity].
    unfold _activeEntryId.
    change (pinned_entry_id (set_entriesLoaded true (set_entries (listed outcome) c)))
      with (pinned_entry_id c).
    change (_selectedEntryId (set_entriesLoaded true (set_entries (listed outcome) c)))
      with (_selectedEntryId c).
    destruct Hkept as [-> | ->]; [reflexivity |].
    destruct (truthy_opt (pinned_entry_id c)); reflexivity.
  - intros Hpin Hsel. rewrite Hpin, Hsel. cbn [negb andb].
    assert (Hactive : forall d,
              pinned_entry_id d = pinned_entry_id c -> _entriesLoaded d = true ->
              _activeEntryId d
              = if truthy_opt (_selectedEntryId d) then _selectedEntryId d
                else if (length (_entries d) =? 1)%nat
                     then entry_id <$> head (_entries d) else None).
    { intros d Hd Hl. unfold _activeEntryId. rewrite Hd, Hpin, Hl. reflexivity. }
    assert (Hlock : forall d,
              pinned_entry_id d = pinned_entry_id c -> _entriesLoaded d = true ->
              entryLocked d
              = (1 <? length (_entries d))%nat && negb (truthy_opt (_activeEntryId d))).
    { intros d Hd Hl. unfold entryLocked, showEntryPicker.
      rewrite Hd, Hpin, Hl. reflexivity. }
    destruct (listed outcome) as [| only [| second rest]]; cbn [length Nat.eqb].
    + set (d := set_entriesLoaded true (set_entries [] c)).
      rewrite (Hlock d eq_refl eq_refl), (Hactive d eq_refl eq_refl).
      change (_selectedEntryId d) with (_selectedEntryId c). rewrite Hsel.
      repeat split; reflexivity.
    + set (d := _setSelectedEntry _ _).
      rewrite (Hlock d eq_refl eq_refl), (Hactive d eq_refl eq_refl).
      change (_selectedEntryId d) with (Some (entry_id only)).
      change (_entries d) with [only]. cbn [truthy_opt length Nat.eqb head fmap
        option_fmap option_map Nat.ltb Nat.leb andb].
      destruct (truthy (entry_id only)); repeat split; reflexivity.
    + set (d := set_entriesLoaded true (set_entries (only :: second :: rest) c)).
      rewrite (Hlock d eq_refl eq_refl), (Hactive d eq_refl eq_refl).
      change (_selectedEntryId d) with (_selectedEntryId c). rewrite Hsel.
      repeat split; reflexivity.
Qed.

Lemma loadEntries_settled_account_witness :
  _activeEntryId
    (_loadEntries_settled (Fulfilled [account_a]) (sample_card [mom] "0" "Mom" "AB"))
  = Some (entry_id account_a)
  /\ draft (_loadEntries_settled (Fulfilled [account_a])
              (sample_card [mom] "0" "Mom" "AB"))
     = empty_draft
  /\ resolver_state (_loadEntries_settled (Fulfilled [account_a])
                       (sample_card [mom] "0" "Mom" "AB"))
     = (None, None, None, None)
  /\ entryLocked (_loadEntries_settled (Fulfilled [account_a])
                    (sample_card [mom] "0" "Mom" "AB"))
     = false.
Proof.
  apply (proj2 (proj2 (proj2 (loadEntries_settled_account (Fulfilled [account_a])
                                (sample_card [mom] "0" "Mom" "AB")))));
    reflexivity.
Defined.
